(** * spindrift: a shallow embedding of [lib/spindrift/packager.py]

    The packager collects a project and its installed dependencies into a
    staging directory, compiles and prunes it, writes the entry shim and
    zips the result.  Every function of [packager.py] is embedded below
    as a Rocq function over explicit stores:

    - the staging tree (the temporary directory [path]) is a [node];
      paths below it are lists of path components;
    - the host file system (site-packages, the bundled archives, the
      output destination) is a [node] addressed by path strings;
    - the two wheel caches are trees of their own;
    - exceptions are values of [exn]; a raising computation keeps the
      state it had reached. *)

From Stdlib Require Import List String Ascii Bool Arith Lia ZArith.
Import ListNotations.
Local Open Scope string_scope.
Local Open Scope list_scope.
Set Warnings "-register-all".

(** ** Python string operations *)

Module PyStr.

(** [s.startswith(pre)] *)
Definition startswith (s pre : string) : bool := String.prefix pre s.

(** [s[n:]] *)
Fixpoint drop (n : nat) (s : string) : string :=
  match n, s with
  | O, _ => s
  | S _, EmptyString => EmptyString
  | S n', String _ s' => drop n' s'
  end.

(** [s.endswith(suf)] *)
Definition endswith (s suf : string) : bool :=
  let n := String.length s in
  let m := String.length suf in
  if Nat.leb m n then String.eqb (drop (n - m) s) suf else false.

(** [s.lstrip("/")]: every leading separator is removed. *)
Fixpoint lstrip_sep (s : string) : string :=
  match s with
  | String "/"%char s' => lstrip_sep s'
  | _ => s
  end.

(** The characters [str.strip()] removes: space, tab, newline, carriage
    return, vertical tab and form feed. *)
Definition is_space (c : ascii) : bool :=
  match nat_of_ascii c with
  | 32 | 9 | 10 | 11 | 12 | 13 => true
  | _ => false
  end.

Fixpoint lstrip (s : string) : string :=
  match s with
  | String c s' => if is_space c then lstrip s' else s
  | EmptyString => EmptyString
  end.

Fixpoint rstrip (s : string) : string :=
  match s with
  | EmptyString => EmptyString
  | String c s' =>
      match rstrip s' with
      | EmptyString => if is_space c then EmptyString else String c EmptyString
      | r => String c r
      end
  end.

(** [s.strip()] *)
Definition strip (s : string) : string := rstrip (lstrip s).

(** [s.split(sep)] for a one-character separator: the pieces between
    the separators, empty pieces included. *)
Fixpoint split_on (sep : ascii -> bool) (s : string) : list string :=
  match s with
  | EmptyString => [EmptyString]
  | String c s' =>
      if sep c then EmptyString :: split_on sep s'
      else match split_on sep s' with
           | [] => [String c EmptyString]
           | w :: ws => String c w :: ws
           end
  end.

Definition is_slash (c : ascii) : bool := Ascii.eqb c "/"%char.
Definition is_newline (c : ascii) : bool := Ascii.eqb c "010"%char.
(** Text-mode iteration over a file splits at "\n", "\r" and "\r\n". *)
Definition is_universal_newline (c : ascii) : bool :=
  Ascii.eqb c "010"%char || Ascii.eqb c "013"%char.

(** [x in xs] for strings. *)
Definition mem (x : string) (xs : list string) : bool :=
  existsb (String.eqb x) xs.

(** [fnmatch.fnmatch(name, pat)] on a POSIX host (normcase is the
    identity): ['*'] matches any run of characters, the separator
    included, ['?'] any one character, everything else itself.  Bracket
    expressions are not embedded: no pattern of [IGNORED] has one. *)
Fixpoint fnmatch_chars (pat : string) (name : string) {struct pat} : bool :=
  match pat with
  | EmptyString => match name with EmptyString => true | _ => false end
  | String "*"%char pat' =>
      (fix star (n : string) : bool :=
         fnmatch_chars pat' n ||
         match n with
         | EmptyString => false
         | String _ n' => star n'
         end) name
  | String "?"%char pat' =>
      match name with
      | EmptyString => false
      | String _ n' => fnmatch_chars pat' n'
      end
  | String c pat' =>
      match name with
      | EmptyString => false
      | String d n' => Ascii.eqb c d && fnmatch_chars pat' n'
      end
  end.

Definition fnmatch (name pat : string) : bool := fnmatch_chars pat name.

End PyStr.

(** ** [os.path] on a POSIX host *)

Module OsPath.

Definition sep : string := "/".

(** [os.path.join(a, b)] *)
Definition join (a b : string) : string :=
  if PyStr.startswith b sep then b
  else if (String.eqb a "" || PyStr.endswith a sep)%bool then a ++ b
  else a ++ sep ++ b.

End OsPath.

(** ** Files, archives and directory trees *)

Inductive archive_format : Type := ZipFormat | TarGzFormat.

(** What a regular file holds: plain bytes, or a well-formed archive
    with its members in archive order.  A member whose name ends with
    the separator is a directory entry. *)
Inductive content : Type :=
| Raw (bytes : string)
| Archive (fmt : archive_format) (members : list (string * content)).

Inductive node : Type :=
| File (c : content)
| Dir (entries : list (string * node)).

Inductive errno : Type := ENOENT | EEXIST | EISDIR | ENOTDIR.

Module Fs.

Definition path : Type := list string.

Fixpoint find (name : string) (es : list (string * node)) : option node :=
  match es with
  | [] => None
  | (n, x) :: es' => if String.eqb n name then Some x else find name es'
  end.

Fixpoint put (name : string) (x : node) (es : list (string * node))
  : list (string * node) :=
  match es with
  | [] => [(name, x)]
  | (n, y) :: es' =>
      if String.eqb n name then (name, x) :: es' else (n, y) :: put name x es'
  end.

Definition del (name : string) (es : list (string * node))
  : list (string * node) :=
  filter (fun e => negb (String.eqb (fst e) name)) es.

Fixpoint lookup (p : path) (n : node) : option node :=
  match p with
  | [] => Some n
  | c :: p' =>
      match n with
      | Dir es =>
          match find c es with
          | Some x => lookup p' x
          | None => None
          end
      | File _ => None
      end
  end.

Definition isfile (p : path) (n : node) : bool :=
  match lookup p n with Some (File _) => true | _ => false end.

Definition isdir (p : path) (n : node) : bool :=
  match lookup p n with Some (Dir _) => true | _ => false end.

Definition exists_ (p : path) (n : node) : bool :=
  match lookup p n with Some _ => true | None => false end.

(** Put [x] at [p], creating the directories on the way; [None] when a
    component on the way is a regular file. *)
Fixpoint graft (p : path) (x : node) (n : node) : option node :=
  match p with
  | [] => Some x
  | c :: p' =>
      match n with
      | File _ => None
      | Dir es =>
          let child := match find c es with Some y => y | None => Dir [] end in
          match graft p' x child with
          | Some child' => Some (Dir (put c child' es))
          | None => None
          end
      end
  end.

(** Take the entry at [p] away (the root itself stays). *)
Fixpoint remove (p : path) (n : node) : node :=
  match p with
  | [] => n
  | c :: p' =>
      match n with
      | File _ => n
      | Dir es =>
          match p' with
          | [] => Dir (del c es)
          | _ :: _ =>
              match find c es with
              | Some child => Dir (put c (remove p' child) es)
              | None => n
              end
          end
      end
  end.

Definition is_dir_node (x : node) : bool :=
  match x with Dir _ => true | File _ => false end.

Definition dirnames (es : list (string * node)) : list string :=
  map fst (filter (fun e => is_dir_node (snd e)) es).

Definition filenames (es : list (string * node)) : list string :=
  map fst (filter (fun e => negb (is_dir_node (snd e))) es).

(** [os.walk(top)], top-down: the triple of a directory comes before
    the triples of its sub-directories; nothing is yielded when [top]
    is not a directory.  [join] is [os.path.join] at the type the
    caller keeps paths in. *)
Fixpoint walk {P : Type} (join : P -> string -> P) (top : P) (n : node)
  : list (P * list string * list string) :=
  match n with
  | File _ => []
  | Dir es =>
      (top, dirnames es, filenames es) ::
      (fix sub (l : list (string * node)) : list (P * list string * list string) :=
         match l with
         | [] => []
         | (name, x) :: l' => walk join (join top name) x ++ sub l'
         end) es
  end.

(** Component paths: [os.path.join(root, name)] for one component. *)
Definition snoc (root : path) (name : string) : path := root ++ [name].

(** The components of a path string: empty and ["."] pieces carry no
    meaning. *)
Definition components (s : string) : path :=
  filter (fun c => negb (String.eqb c "" || String.eqb c "."))
         (PyStr.split_on PyStr.is_slash s).

End Fs.

(** ** Distributions, exceptions and the packaging state *)

(** A [pkg_resources] distribution as the packager reads it:
    [requires] holds the [key] of every requirement of [requires()],
    [egg_name] the value of [egg_name()]. *)
Record Distribution : Type := {
  key : string;
  version : string;
  location : string;
  requires : list string;
  egg_name : string
}.

Definition Distribution_eq_dec (a b : Distribution) : {a = b} + {a <> b}.
Proof.
  decide equality; try apply string_dec.
  apply (list_eq_dec string_dec).
Defined.

(** The messages of the four [raise Exception(...)] sites. *)
Inductive message : Type :=
| NoSuitableSource (name ver : string)
    (* "Unable to find suitable source for {}=={}" *)
| UnableToInstallLocal (d : Distribution)
    (* "Unable to install local package for {}" *)
| TopLevelNotFound (d : Distribution)
    (* "... top_level.txt was not found" *)
| NeitherFileNorDirectory (d : Distribution)
    (* "... neither a file nor a directory" *).

Inductive exn : Type :=
| Exception (m : message)
| KeyError (k : string)
| RecursionError
| TypeError (what : string)
| HTTPError (status : nat)
| OSError (code : errno) (p : Fs.path)
| BadZipFile
| ReadError
| UnicodeDecodeError.

(** The outcome of a Python call: a value or a raised exception. *)
Inductive py (A : Type) : Type :=
| Return (a : A)
| Throw (e : exn).
Arguments Return {A} a.
Arguments Throw {A} e.

(** An entry of the bundled artifact store for one runtime. *)
Record bundled : Type := {
  bundled_version : string;
  bundled_path : string
}.

(** What [requests.get] followed by [raise_for_status()] gives: the
    HTTPError of a response with an error status, or the body. *)
Inductive response (A : Type) : Type :=
| HttpError (status : nat)
| HttpOk (body : A).
Arguments HttpError {A} status.
Arguments HttpOk {A} body.

(** What a run reads and never writes. *)
Record env : Type := {
  (** the distributions of [pip._vendor.pkg_resources.working_set] *)
  working_set : list Distribution;
  (** [lambda_packages]: name, then runtime *)
  lambda_packages : list (string * list (string * bundled));
  (** the tree at [~/.cache/pip], when there is one *)
  wheel_cache : option node;
  (** the JSON of [https://pypi.python.org/pypi/{name}/json]:
      ["releases"], each release with the ["url"] of its files *)
  pypi_json : string -> response (list (string * list string));
  (** the body behind a file URL *)
  pypi_file : string -> response content;
  (** [compileall.compile_dir(path, quiet=True)] on the staging tree *)
  compile_dir : node -> node
}.

(** What a run writes: the staging tree, the private wheel cache
    ([tempfile.gettempdir()/spindrift_cache], [None] while it does not
    exist) and the host file system. *)
Record world : Type := {
  staging : node;
  fake_cache : option node;
  host : node
}.

Definition M (A : Type) : Type := world -> py A * world.

Definition ret {A} (a : A) : M A := fun w => (Return a, w).
Definition raise {A} (e : exn) : M A := fun w => (Throw e, w).
Definition bind {A B} (c : M A) (k : A -> M B) : M B :=
  fun w =>
    match c w with
    | (Return a, w') => k a w'
    | (Throw e, w') => (Throw e, w')
    end.
Definition lift {A} (r : py A) : M A := fun w => (r, w).

Notation "x <- c ;; k" := (bind c (fun x => k))
  (at level 61, c at next level, right associativity).
Notation "c ;;; k" := (bind c (fun _ => k))
  (at level 61, right associativity).

(** [working_set.by_key[name]]: the working set files every
    distribution under its own [key]. *)
Definition by_key (e : env) (name : string) : option Distribution :=
  List.find (fun d => String.eqb (key d) name) (working_set e).

(** A dict lookup by key. *)
Fixpoint assoc {A : Type} (k : string) (d : list (string * A)) : option A :=
  match d with
  | [] => None
  | (k', v) :: d' => if String.eqb k' k then Some v else assoc k d'
  end.

(** XXX: detect this automatically... *)
Definition RUNTIME : string := "python3.6".

Definition IGNORED : list string :=
  [ "__pycache__";
    ".git";
    "__pycache__/*";
    ".git/*";
    "*/__pycache__/*";
    "*/.git/*" ].

(** ** The graph walk *)

(** [for requirement in requires: ret.extend(find(requirement.key))] *)
Fixpoint extend_with (find : string -> py (list Distribution))
    (requirements : list string) (acc : list Distribution)
  : py (list Distribution) :=
  match requirements with
  | [] => Return acc
  | r :: rs =>
      match find r with
      | Return l => extend_with find rs (acc ++ l)
      | Throw e => Throw e
      end
  end.

(** [find_dependencies(package_name)].  The function calls itself for
    every requirement and keeps no record of the names it has seen;
    [depth] is the number of nested calls the interpreter still allows
    (its recursion limit), after which RecursionError is raised.
    [list(set(ret))] keeps one copy of every distribution; the order of
    a Python set is unspecified and [nodup] fixes one. *)
Fixpoint find_dependencies (e : env) (depth : nat) (package_name : string)
  : py (list Distribution) :=
  match depth with
  | O => Throw RecursionError
  | S depth' =>
      match by_key e package_name with
      | None => Throw (KeyError package_name)
      | Some package =>
          match extend_with (find_dependencies e depth')
                            (requires package) [package] with
          | Return l => Return (nodup Distribution_eq_dec l)
          | Throw x => Throw x
          end
      end
  end.

(** ** File operations that can raise *)

Definition set_staging (t : node) (w : world) : world :=
  {| staging := t; fake_cache := fake_cache w; host := host w |}.
Definition set_fake_cache (c : option node) (w : world) : world :=
  {| staging := staging w; fake_cache := c; host := host w |}.
Definition set_host (h : node) (w : world) : world :=
  {| staging := staging w; fake_cache := fake_cache w; host := h |}.

(** Run a tree operation on the staging tree; a raising operation
    leaves the tree as it was. *)
Definition on_staging (f : node -> py node) : M unit :=
  fun w =>
    match f (staging w) with
    | Return t => (Return tt, set_staging t w)
    | Throw e => (Throw e, w)
    end.

(** [for x in xs: body(x)] *)
Fixpoint for_each {A : Type} (body : A -> M unit) (xs : list A) : M unit :=
  match xs with
  | [] => ret tt
  | x :: xs' => body x ;;; for_each body xs'
  end.

(** [open(p, "w")] followed by one [write(c)] and the close: the parent
    directory has to exist, an existing file is truncated. *)
Definition open_w (p : Fs.path) (c : content) (tree : node) : py node :=
  match Fs.lookup (removelast p) tree with
  | None => Throw (OSError ENOENT p)
  | Some (File _) => Throw (OSError ENOTDIR p)
  | Some (Dir _) =>
      match p, Fs.lookup p tree with
      | [], _ => Throw (OSError EISDIR p)
      | _, Some (Dir _) => Throw (OSError EISDIR p)
      | _, _ =>
          match Fs.graft p (File c) tree with
          | Some t => Return t
          | None => Throw (OSError ENOTDIR p)
          end
      end
  end.

(** [shutil.rmtree(p)] *)
Definition rmtree (p : Fs.path) (tree : node) : py node :=
  match Fs.lookup p tree with
  | None => Throw (OSError ENOENT p)
  | Some (File _) => Throw (OSError ENOTDIR p)
  | Some (Dir _) => Return (Fs.remove p tree)
  end.

(** [os.unlink(p)] *)
Definition unlink (p : Fs.path) (tree : node) : py node :=
  match Fs.lookup p tree with
  | None => Throw (OSError ENOENT p)
  | Some (Dir _) => Throw (OSError EISDIR p)
  | Some (File _) => Return (Fs.remove p tree)
  end.

(** [zipfile.ZipFile(p)] / [tarfile.open(p, mode="r:gz")] on what is
    found at [p]: the members of the archive. *)
Definition open_archive (fmt : archive_format) (p : Fs.path) (at_p : option node)
  : py (list (string * content)) :=
  match at_p with
  | None => Throw (OSError ENOENT p)
  | Some (Dir _) => Throw (OSError EISDIR p)
  | Some (File (Archive f ms)) =>
      match fmt, f with
      | ZipFormat, ZipFormat => Return ms
      | TarGzFormat, TarGzFormat => Return ms
      | ZipFormat, _ => Throw BadZipFile
      | TarGzFormat, _ => Throw ReadError
      end
  | Some (File (Raw _)) =>
      match fmt with
      | ZipFormat => Throw BadZipFile
      | TarGzFormat => Throw ReadError
      end
  end.

(** [zf.getinfo(name)]: the last member of that name. *)
Definition getinfo (name : string) (ms : list (string * content))
  : option content :=
  assoc name (rev ms).

(** Where [ZipFile._extract_member] puts a member below its target
    directory: the pieces of the member name without the empty, ["."]
    and [".."] ones. *)
Definition member_components (name : string) : Fs.path :=
  filter (fun c => negb (String.eqb c "" || String.eqb c "." || String.eqb c ".."))
         (PyStr.split_on PyStr.is_slash name).

(** [ZipFile._extract_member]: missing upper directories are made; a
    directory entry makes its directory, a file entry is written over
    whatever file is there. *)
Definition extract_member (dest : Fs.path) (name : string) (c : content)
    (tree : node) : py node :=
  let target := dest ++ member_components name in
  if PyStr.endswith name "/" then
    match Fs.lookup target tree with
    | Some (Dir _) => Return tree
    | Some (File _) => Throw (OSError EEXIST target)
    | None =>
        match Fs.graft target (Dir []) tree with
        | Some t => Return t
        | None => Throw (OSError ENOTDIR target)
        end
    end
  else
    match Fs.lookup target tree with
    | Some (Dir _) => Throw (OSError EISDIR target)
    | _ =>
        match Fs.graft target (File c) tree with
        | Some t => Return t
        | None => Throw (OSError ENOTDIR target)
        end
    end.

(** [zf.extractall(dest, names)] into the staging tree. *)
Definition extract_names (ms : list (string * content)) (dest : Fs.path)
    (names : list string) : M unit :=
  for_each
    (fun name =>
       match getinfo name ms with
       | None => raise (KeyError name)
       | Some c => on_staging (extract_member dest name c)
       end)
    names.

(** [zf.extractall(dest)]: every member, in archive order. *)
Definition extractall (ms : list (string * content)) (dest : Fs.path) : M unit :=
  for_each (fun m => on_staging (extract_member dest (fst m) (snd m))) ms.

(** The names [shutil.ignore_patterns( *IGNORED )] drops from a
    directory listing. *)
Definition ignored_name (name : string) : bool :=
  existsb (PyStr.fnmatch name) IGNORED.

(** What [shutil.copytree(..., ignore=...)] copies of a tree: at every
    level the ignored names are left out. *)
Fixpoint copy_filtered (n : node) : node :=
  match n with
  | File c => File c
  | Dir es =>
      Dir ((fix each (l : list (string * node)) : list (string * node) :=
              match l with
              | [] => []
              | (name, x) :: l' =>
                  if ignored_name name then each l'
                  else (name, copy_filtered x) :: each l'
              end) es)
  end.

(** [shutil.copytree(source, destination, ignore=...)] from the host
    into the staging tree: the source is listed first, then the
    destination is made and has to be new. *)
Definition copytree (source : Fs.path) (destination : Fs.path) : M unit :=
  fun w =>
    match Fs.lookup source (host w) with
    | None => (Throw (OSError ENOENT source), w)
    | Some (File _) => (Throw (OSError ENOTDIR source), w)
    | Some (Dir es) =>
        if Fs.exists_ destination (staging w)
        then (Throw (OSError EEXIST destination), w)
        else
          match Fs.graft destination (copy_filtered (Dir es)) (staging w) with
          | Some t => (Return tt, set_staging t w)
          | None => (Throw (OSError ENOTDIR destination), w)
          end
    end.

(** The stripped, non-empty lines of a manifest. *)
Definition manifest_lines (newline : ascii -> bool) (data : string)
  : list string :=
  filter (fun line => negb (String.eqb line ""))
         (map PyStr.strip (PyStr.split_on newline data)).

(** ** The acquisition strategies *)

(** [_install_precompiled_version(path, dependency, check_version)].
    The keys of [lambda_packages] are the lower-cased names.  After
    [tarfile.open] the source calls [tf.members()]: [members] is the
    list attribute of a [TarFile] (its method is [getmembers]), so the
    call raises TypeError before any member is extracted. *)
Definition _install_precompiled_version (e : env) (dependency : Distribution)
    (check_version : bool) : M bool :=
  let name := key dependency in
  match assoc name (lambda_packages e) with
  | None => ret false
  | Some runtimes =>
      match assoc RUNTIME runtimes with
      | None => raise (KeyError RUNTIME)
      | Some package =>
          if (check_version &&
              negb (String.eqb (bundled_version package) (version dependency)))%bool
          then ret false
          else
            fun w =>
              let p := Fs.components (bundled_path package) in
              match open_archive TarGzFormat p (Fs.lookup p (host w)) with
              | Throw x => (Throw x, w)
              | Return _ => (Throw (TypeError "'list' object is not callable"), w)
              end
      end
  end.

Definition install_matching_precompiled_version (e : env)
    (dependency : Distribution) : M bool :=
  _install_precompiled_version e dependency true.

Definition install_any_precompiled_version (e : env)
    (dependency : Distribution) : M bool :=
  _install_precompiled_version e dependency false.

Definition _get_wheel_suffix (runtime : string) : string :=
  if String.eqb runtime "python2.7" then "cp27mu-manylinux1_x86_64.whl"
  else "cp36m-manylinux1_x86_64.whl".

(** ["{}-{}-{}".format(name, version, suffix)] *)
Definition wheel_name_of (dependency : Distribution) : string :=
  key dependency ++ "-" ++ version dependency ++ "-" ++ _get_wheel_suffix RUNTIME.

(** [d[k] = v] *)
Fixpoint dict_set {A : Type} (k : string) (v : A) (d : list (string * A))
  : list (string * A) :=
  match d with
  | [] => [(k, v)]
  | (k', v') :: d' =>
      if String.eqb k' k then (k, v) :: d' else (k', v') :: dict_set k v d'
  end.

(** [load_cached_wheels(path)] over the tree found at [path]; the
    paths are kept relative to it. *)
Definition load_cached_wheels (tree : node) : list (string * Fs.path) :=
  fold_left
    (fun acc (triple : Fs.path * list string * list string) =>
       let '(root, _, files) := triple in
       fold_left
         (fun acc file =>
            if PyStr.endswith file ".whl"
            then dict_set file (Fs.snoc root file) acc
            else acc)
         files acc)
    (Fs.walk Fs.snoc [] tree) [].

(** [_install_manylinux_version_from_cache(cache_path, path, dependency)];
    [cache] is what is found at [cache_path]. *)
Definition _install_manylinux_version_from_cache (cache : option node)
    (dependency : Distribution) : M bool :=
  match cache with
  | Some (Dir es) =>
      let available_wheels := load_cached_wheels (Dir es) in
      match assoc (wheel_name_of dependency) available_wheels with
      | None => ret false
      | Some wheel_path =>
          ms <- lift (open_archive ZipFormat wheel_path
                        (Fs.lookup wheel_path (Dir es))) ;;
          extractall ms [] ;;;
          ret true
      end
  | _ => ret false
  end.

Definition install_manylinux_version (e : env) (dependency : Distribution)
  : M bool :=
  rv <- _install_manylinux_version_from_cache (wheel_cache e) dependency ;;
  if negb rv
  then fun w => _install_manylinux_version_from_cache (fake_cache w) dependency w
  else ret rv.

(** [open(wheel_path, "wb")] and the writes into it, in the private
    cache. *)
Definition write_cache (name : string) (c : content) : M unit :=
  fun w =>
    match fake_cache w with
    | None => (Throw (OSError ENOENT [name]), w)
    | Some tree =>
        match open_w (Fs.components name) c tree with
        | Return t => (Return tt, set_fake_cache (Some t) w)
        | Throw x => (Throw x, w)
        end
    end.

(** [download_and_install_manylinux_version(path, dependency)] *)
Definition download_and_install_manylinux_version (e : env)
    (dependency : Distribution) : M bool :=
  (fun w =>
     match fake_cache w with
     | None => (Return tt, set_fake_cache (Some (Dir [])) w)
     | Some _ => (Return tt, w)
     end) ;;;
  let name := key dependency in
  match pypi_json e name with
  | HttpError status => raise (HTTPError status)
  | HttpOk releases =>
      let wheel_suffix := _get_wheel_suffix RUNTIME in
      match assoc (version dependency) releases with
      | None => ret false
      | Some infos =>
          match List.find (fun url => PyStr.endswith url wheel_suffix) infos with
          | None => ret false
          | Some url =>
              let wheel_name := wheel_name_of dependency in
              write_cache wheel_name (Raw "") ;;;
              match pypi_file e url with
              | HttpError status => raise (HTTPError status)
              | HttpOk body =>
                  write_cache wheel_name body ;;;
                  ms <- (fun w =>
                           let p := Fs.components wheel_name in
                           (open_archive ZipFormat p
                              (match fake_cache w with
                               | Some tree => Fs.lookup p tree
                               | None => None
                               end), w)) ;;
                  extractall ms [] ;;;
                  ret true
              end
          end
      end
  end.

(** ** The local unpacker *)

(** The names the egg loop keeps of [maybe_names_to_copy]: ignored
    names are skipped; a name that does not end in [".py"] is appended;
    then every name with no name + ["c"] among the candidates is
    appended (so a kept non-source name is listed twice). *)
Definition egg_names_to_copy (maybe_names_to_copy : list string) : list string :=
  fold_left
    (fun names_to_copy name =>
       if existsb (PyStr.fnmatch name) IGNORED then names_to_copy
       else
         let names1 :=
           if negb (PyStr.endswith name ".py")
           then names_to_copy ++ [name] else names_to_copy in
         if negb (PyStr.mem (name ++ "c") maybe_names_to_copy)
         then names1 ++ [name] else names1)
    maybe_names_to_copy [].

(** [install_local_package_from_egg(path, dependency)]: the archive at
    [dependency.location] is opened, and the kept names of every
    top-level folder are extracted below [os.path.join(path, folder)]. *)
Definition install_local_package_from_egg (dependency : Distribution) : M bool :=
  ms <- (fun w =>
           let p := Fs.components (location dependency) in
           (open_archive ZipFormat p (Fs.lookup p (host w)), w)) ;;
  match getinfo "EGG-INFO/top_level.txt" ms with
  | None => raise (KeyError "EGG-INFO/top_level.txt")
  | Some (Archive _ _) => raise UnicodeDecodeError
  | Some (Raw data) =>
      let to_copy := manifest_lines PyStr.is_newline data in
      let all_names := map fst ms in
      for_each
        (fun folder =>
           let maybe_names_to_copy :=
             filter (fun name => PyStr.startswith name (folder ++ "/")) all_names in
           let names_to_copy := egg_names_to_copy maybe_names_to_copy in
           let destination := Fs.components folder in
           extract_names ms destination names_to_copy)
        to_copy ;;;
      ret true
  end.

(** [_locate_top_level(dependency)] on the host tree. *)
Definition _locate_top_level (dependency : Distribution) (h : node)
  : option string :=
  let paths_to_try :=
    if PyStr.endswith (location dependency) ".egg"
    then [OsPath.join (location dependency) "EGG-INFO"]
    else
      [ OsPath.join (location dependency) (key dependency ++ ".egg-info");
        OsPath.join (OsPath.join (location dependency)
                                 (egg_name dependency ++ ".egg")) "EGG-INFO";
        OsPath.join (location dependency)
                    (key dependency ++ "-" ++ version dependency ++ ".dist-info") ] in
  List.find (fun top_level_path => Fs.isfile (Fs.components top_level_path) h)
            (map (fun path => OsPath.join path "top_level.txt") paths_to_try).

(** [install_local_package(path, dependency)].  Every branch either
    returns [True] or raises. *)
Definition install_local_package (dependency : Distribution) : M bool :=
  fun w =>
    let loc := Fs.components (location dependency) in
    if Fs.isfile loc (host w) then
      if PyStr.endswith (location dependency) ".egg"
      then install_local_package_from_egg dependency w
      else (Throw (Exception (UnableToInstallLocal dependency)), w)
    else if Fs.isdir loc (host w) then
      let egg_zip_path :=
        OsPath.join (location dependency) (egg_name dependency ++ ".egg") in
      if Fs.isfile (Fs.components egg_zip_path) (host w)
      then install_local_package_from_egg dependency w
      else
        match _locate_top_level dependency (host w) with
        | None => (Throw (Exception (TopLevelNotFound dependency)), w)
        | Some top_level_path =>
            match Fs.lookup (Fs.components top_level_path) (host w) with
            | Some (File (Raw data)) =>
                let to_copy := manifest_lines PyStr.is_universal_newline data in
                (for_each
                   (fun folder =>
                      let source :=
                        Fs.components (OsPath.join (location dependency) folder) in
                      let destination := Fs.components folder in
                      copytree source destination)
                   to_copy ;;;
                 ret true) w
            | Some (File (Archive _ _)) => (Throw UnicodeDecodeError, w)
            | Some (Dir _) =>
                (Throw (OSError EISDIR (Fs.components top_level_path)), w)
            | None => (Throw (OSError ENOENT (Fs.components top_level_path)), w)
            end
        end
    else (Throw (Exception (NeitherFileNorDirectory dependency)), w).

(** [install_project(path, name)] *)
Definition install_project (e : env) (name : string) : M bool :=
  match by_key e name with
  | None => raise (KeyError name)
  | Some package => install_local_package package
  end.

(** ** The strategy chain *)

(** [install_dependencies(path, package, dependencies)] *)
Fixpoint install_dependencies (e : env) (package : string)
    (dependencies : list Distribution) : M unit :=
  match dependencies with
  | [] => ret tt
  | dependency :: rest =>
      let continue := install_dependencies e package rest in
      if String.eqb (key dependency) package then continue
      else
        rv <- install_matching_precompiled_version e dependency ;;
        if rv then continue else
        rv <- install_manylinux_version e dependency ;;
        if rv then continue else
        rv <- download_and_install_manylinux_version e dependency ;;
        if rv then continue else
        rv <- install_any_precompiled_version e dependency ;;
        if rv then continue else
        rv <- install_local_package dependency ;;
        if negb rv
        then raise (Exception (NoSuitableSource (key dependency)
                                                (version dependency)))
        else continue
  end.

(** ** Compiling, pruning, the shim *)

Definition compile_files (e : env) : M unit :=
  fun w => (Return tt, set_staging (compile_dir e (staging w)) w).

(** [prune_python_files(path)]: one walk collects the [.py] files and
    the [__pycache__] directories; the directories are removed first,
    in the order of the walk, then the sources with a [.pyc] beside
    them. *)
Definition collect_py_files (triples : list (Fs.path * list string * list string))
  : list Fs.path :=
  flat_map
    (fun triple : Fs.path * list string * list string =>
       let '(root, _, files) := triple in
       map (Fs.snoc root) (filter (fun file => PyStr.endswith file ".py") files))
    triples.

Definition collect_pycache_dirs (triples : list (Fs.path * list string * list string))
  : list Fs.path :=
  flat_map
    (fun triple : Fs.path * list string * list string =>
       let '(root, dirs, _) := triple in
       map (Fs.snoc root) (filter (fun folder => String.eqb folder "__pycache__") dirs))
    triples.

(** [py_file + "c"] *)
Definition pyc_of (py_file : Fs.path) : Fs.path :=
  removelast py_file ++ [(last py_file "" ++ "c")%string].

Definition prune_python_files : M unit :=
  fun w =>
    let triples := Fs.walk Fs.snoc [] (staging w) in
    let py_files := collect_py_files triples in
    let pycache_dirs := collect_pycache_dirs triples in
    (for_each (fun pycache_path => on_staging (rmtree pycache_path)) pycache_dirs ;;;
     for_each
       (fun py_file =>
          fun w' =>
            if Fs.exists_ (pyc_of py_file) (staging w')
            then on_staging (unlink py_file) w'
            else (Return tt, w'))
       py_files) w.

(** [insert_shim(path, entry)] *)
Definition insert_shim (entry : string) : M unit :=
  on_staging (open_w ["index.py"] (Raw entry)).

(** [populate_directory(path, package, entry, dependencies)] *)
Definition populate_directory (e : env) (package entry : string)
    (dependencies : list Distribution) : M unit :=
  install_dependencies e package dependencies ;;;
  install_project e package ;;;
  compile_files e ;;;
  prune_python_files ;;;
  insert_shim entry.

(** ** The archive *)

(** A path of the walk in [create_zip_bundle]: the string the code
    computes and the place below the staging root it names. *)
Definition join_both (root : string * Fs.path) (name : string)
  : string * Fs.path :=
  (OsPath.join (fst root) name, Fs.snoc (snd root) name).

(** [create_zip_bundle(path, zip_path)]: the entries written, in
    order; [path] is the name of the staging directory, [tree] what is
    below it. *)
Definition create_zip_bundle (path : string) (tree : node)
  : list (string * content) :=
  flat_map
    (fun triple : (string * Fs.path) * list string * list string =>
       let '(root, _, files) := triple in
       flat_map
         (fun file =>
            let real_file_path := join_both root file in
            let truncated := PyStr.drop (String.length path) (fst real_file_path) in
            let truncated := PyStr.lstrip_sep truncated in
            match Fs.lookup (snd real_file_path) tree with
            | Some (File c) => [(truncated, c)]
            | _ => []
            end)
         files)
    (Fs.walk join_both (path, []) tree).

(** [output_zip_bundle(zip_path, destination)]; [zip] is what the file
    at [zip_path] holds.  [NotImplemented] is a constant and not an
    exception class: calling it raises TypeError. *)
Definition output_zip_bundle (zip : content) (destination : string) : M unit :=
  if PyStr.startswith destination "s3://"
  then raise (TypeError "'NotImplementedType' object is not callable")
  else
    fun w =>
      match open_w (Fs.components destination) zip (host w) with
      | Return h => (Return tt, set_host h w)
      | Throw x => (Throw x, w)
      end.

(** [output_archive(path, destination)] *)
Definition output_archive (path destination : string) : M unit :=
  fun w =>
    output_zip_bundle (Archive ZipFormat (create_zip_bundle path (staging w)))
                      destination w.

(** [package(package, entry, destination)]: the staging directory is a
    fresh temporary directory named [temp_path]. *)
Definition package (e : env) (depth : nat) (temp_path : string)
    (package entry destination : string) : M unit :=
  match find_dependencies e depth package with
  | Throw x => raise x
  | Return dependencies =>
      fun w =>
        (populate_directory e package entry dependencies ;;;
         output_archive temp_path destination) (set_staging (Dir []) w)
  end.

(** ** Concrete indexes, hosts and staging trees *)

Definition dist (k v loc : string) (reqs : list string) : Distribution :=
  {| key := k; version := v; location := loc; requires := reqs;
     egg_name := k ++ "-" ++ v ++ "-py3.6" |}.

(** An environment with nothing bundled, nothing cached, and a
    registry that lists no release. *)
Definition bare_env (ws : list Distribution) : env :=
  {| working_set := ws;
     lambda_packages := [];
     wheel_cache := None;
     pypi_json := fun _ => HttpOk [];
     pypi_file := fun _ => HttpError 404;
     compile_dir := fun t => t |}.

Definition fresh_world (h : node) : world :=
  {| staging := Dir []; fake_cache := None; host := h |}.


(** A diamond: [app] needs [a] and [b], both need [c]. *)
Definition diamond_env : env :=
  bare_env [ dist "app" "0.1" "/site" ["a"; "b"];
             dist "a" "1.0" "/site" ["c"];
             dist "b" "1.0" "/site" ["c"];
             dist "c" "1.0" "/site" [] ].


(** A dependency that is in no cache and not on the registry, and is
    installed as the single module [six.py] with a [.dist-info]
    manifest. *)
Definition six : Distribution := dist "six" "1.11.0" "/site" [].

Definition six_host : node :=
  Dir [("site",
        Dir [("six.py", File (Raw "import sys"));
             ("six-1.11.0.dist-info",
              Dir [("top_level.txt", File (Raw "six
"))])])].

(** A dependency the bundled store holds at the requested version. *)
Definition foo : Distribution := dist "foo" "1.0" "/site" [].

Definition foo_bundled_env : env :=
  {| working_set := [foo];
     lambda_packages :=
       [("foo", [("python3.6",
                  {| bundled_version := "1.0";
                     bundled_path := "/bundled/foo-1.0.tar.gz" |})])];
     wheel_cache := None;
     pypi_json := fun _ => HttpOk [];
     pypi_file := fun _ => HttpError 404;
     compile_dir := fun t => t |}.

Definition foo_bundled_host : node :=
  Dir [("bundled",
        Dir [("foo-1.0.tar.gz",
              File (Archive TarGzFormat [("foo/__init__.py", Raw "x = 1")]))])].

(** A wheel of [foo] in pip's cache that ships a bytecode cache and a
    stray [.git] directory. *)
Definition foo_wheel : content :=
  Archive ZipFormat
    [ ("foo/__init__.py", Raw "x = 1");
      ("foo/__pycache__/__init__.cpython-36.pyc", Raw "bytecode");
      (".git/config", Raw "[core]") ].

Definition foo_cached_env : env :=
  {| working_set := [foo];
     lambda_packages := [];
     wheel_cache :=
       Some (Dir [("wheels",
                   Dir [("foo-1.0-cp36m-manylinux1_x86_64.whl", File foo_wheel)])]);
     pypi_json := fun _ => HttpOk [];
     pypi_file := fun _ => HttpError 404;
     compile_dir := fun t => t |}.

(** The legacy bundle of the unpacking example: the manifest lists
    [pkg]; [__init__] has a compiled sibling, [mod] has none. *)
Definition pkg_egg : content :=
  Archive ZipFormat
    [ ("EGG-INFO/top_level.txt", Raw "pkg
");
      ("pkg/__init__.py", Raw "source of __init__");
      ("pkg/__init__.pyc", Raw "bytecode of __init__");
      ("pkg/mod.py", Raw "source of mod") ].

Definition pkg : Distribution :=
  dist "pkg" "1.0" "/site/pkg-1.0-py3.6.egg" [].

Definition pkg_host : node :=
  Dir [("site", Dir [("pkg-1.0-py3.6.egg", File pkg_egg)])].


(** The staging tree of the pruning example, and one with a bytecode
    cache directory inside another. *)
Definition prune_tree : node :=
  Dir [ ("a.py", File (Raw "source"));
        ("a.pyc", File (Raw "bytecode"));
        ("b.data", File (Raw "data")) ].

Definition nested_cache_tree : node :=
  Dir [ ("a.py", File (Raw "source"));
        ("a.pyc", File (Raw "bytecode"));
        ("b.data", File (Raw "data"));
        ("__pycache__", Dir [("__pycache__", Dir [])]) ].

Definition staged (t : node) : world :=
  {| staging := t; fake_cache := None; host := Dir [] |}.

(** A staging tree with a sub-directory and an empty directory. *)
Definition sample_tree : node :=
  Dir [ ("index.py", File (Raw "entry"));
        ("pkg", Dir [ ("__init__.pyc", File (Raw "bytecode"));
                      ("data", Dir [("table.bin", File (Raw "0101"))]) ]);
        ("empty", Dir []) ].


(** A project [app] installed as a directory with an [.egg-info]
    manifest, and a dependency [foo] whose cached wheel ships a
    root-level [index.py]. *)
Definition app_project : Distribution := dist "app" "0.1" "/proj" ["foo"].

Definition app_host : node :=
  Dir [("proj",
        Dir [("app.egg-info", Dir [("top_level.txt", File (Raw "app
"))]);
             ("app", Dir [("__init__.py", File (Raw "import foo"))])])].

Definition app_env : env :=
  {| working_set := [app_project; foo];
     lambda_packages := [];
     wheel_cache :=
       Some (Dir [("foo-1.0-cp36m-manylinux1_x86_64.whl",
                   File (Archive ZipFormat
                           [ ("foo.py", Raw "x = 1");
                             ("index.py", Raw "print('from foo')") ]))]);
     pypi_json := fun _ => HttpOk [];
     pypi_file := fun _ => HttpError 404;
     compile_dir := fun t => t |}.

(** ** Notions the properties are stated with *)



(** A name a directory entry can have: not empty, no separator. *)
Fixpoint no_slash (s : string) : bool :=
  match s with
  | EmptyString => true
  | String c s' => negb (PyStr.is_slash c) && no_slash s'
  end.

Definition valid_name (s : string) : bool :=
  negb (String.eqb s "") && no_slash s.

(** A tree as a file system keeps it: every directory lists valid
    names, each once. *)
Fixpoint well_formed (n : node) : Prop :=
  match n with
  | File _ => True
  | Dir es =>
      NoDup (map fst es) /\
      (fix each (l : list (string * node)) : Prop :=
         match l with
         | [] => True
         | (name, x) :: l' => valid_name name = true /\ well_formed x /\ each l'
         end) es
  end.

(** The regular files below a directory with their paths relative to
    it (given the path [prefix] of the directory itself): the files of
    a directory, then those of its sub-directories. *)
Fixpoint files_below (prefix : Fs.path) (n : node) : list (Fs.path * content) :=
  match n with
  | File _ => []
  | Dir es =>
      flat_map
        (fun entry : string * node =>
           match snd entry with
           | File c => [(prefix ++ [fst entry], c)]
           | Dir _ => []
           end) es
      ++
      (fix sub (l : list (string * node)) : list (Fs.path * content) :=
         match l with
         | [] => []
         | (name, x) :: l' => files_below (prefix ++ [name]) x ++ sub l'
         end) es
  end.

(** A relative path written with separators. *)
Definition relative_name (p : Fs.path) : string := String.concat "/" p.

(** The separator [os.path.join] puts after [a]. *)
Definition joint (a : string) : string :=
  if (String.eqb a "" || PyStr.endswith a "/")%bool then "" else "/".

(** The path string [os.walk] reaches for the directory at [pre]
    below [path]. *)
Definition rendered (path : string) (pre : Fs.path) : string :=
  match pre with
  | [] => path
  | _ :: _ => (path ++ joint path ++ String.concat "/" pre)%string
  end.

(** [raises_only P c]: every exception [c] can raise satisfies [P]. *)
Definition raises_only {A} (P : exn -> Prop) (c : M A) : Prop :=
  forall w x w', c w = (Throw x, w') -> P x.

(** The exceptions other than the one of the end of the chain. *)
Definition not_no_suitable_source (x : exn) : Prop :=
  forall name ver, x <> Exception (NoSuitableSource name ver).

(** [reachable e k k']: the installed distribution [k'] is the root
    [k] or is required, directly or through others, by it. *)
Inductive reachable (e : env) : string -> string -> Prop :=
| reachable_root k d : by_key e k = Some d -> reachable e k k
| reachable_step k d r k' :
    by_key e k = Some d -> In r (requires d) -> reachable e r k' ->
    reachable e k k'.

(** [is_prefix p q]: the path [q] is [p] or is below [p]. *)
Fixpoint is_prefix (p q : Fs.path) : bool :=
  match p, q with
  | [], _ => true
  | _ :: _, [] => false
  | c :: p', d :: q' => String.eqb c d && is_prefix p' q'
  end.

(** ** Further notions and examples *)

(** [star_match m n]: [m] accepts [n] or one of its suffixes. *)
Definition star_match (m : string -> bool) : string -> bool :=
  fix star (n : string) : bool :=
    m n ||
    match n with
    | EmptyString => false
    | String _ n' => star n'
    end.

(** A pattern without wildcards. *)
Fixpoint no_wildcard (pat : string) : bool :=
  match pat with
  | EmptyString => true
  | String c pat' =>
      negb (Ascii.eqb c "*" || Ascii.eqb c "?") && no_wildcard pat'
  end.

(** No [__pycache__] directory is anywhere below [n]. *)
Fixpoint cache_free (n : node) : bool :=
  match n with
  | File _ => true
  | Dir es =>
      (fix each (l : list (string * node)) : bool :=
         match l with
         | [] => true
         | (name, x) :: l' =>
             negb (String.eqb name "__pycache__" && Fs.is_dir_node x)
             && cache_free x && each l'
         end) es
  end.

(** No [__pycache__] directory has another one below it. *)
Fixpoint caches_flat (n : node) : bool :=
  match n with
  | File _ => true
  | Dir es =>
      (fix each (l : list (string * node)) : bool :=
         match l with
         | [] => true
         | (name, x) :: l' =>
             (if String.eqb name "__pycache__" then cache_free x else caches_flat x)
             && each l'
         end) es
  end.

(** What is at a path, the listing of a directory left aside. *)
Definition shape (t : node) (q : Fs.path) : option (option content) :=
  match Fs.lookup q t with
  | None => None
  | Some (File c) => Some (Some c)
  | Some (Dir _) => Some None
  end.

(** The files [prune_python_files] is to take away: those below a
    [__pycache__] directory, and the [.py] files with a [.pyc] beside
    them. *)
Definition pruned (t : node) (q : Fs.path) : bool :=
  PyStr.mem "__pycache__" (removelast q) ||
  (PyStr.endswith (last q "") ".py" && Fs.exists_ (pyc_of q) t).

(** A staging tree after compilation: a source with its compiled file
    beside it, and a package with a bytecode cache directory. *)
Definition compiled_tree : node :=
  Dir [ ("a.py", File (Raw "source"));
        ("a.pyc", File (Raw "bytecode"));
        ("pkg", Dir [ ("m.py", File (Raw "source of m"));
                      ("__pycache__",
                       Dir [("m.cpython-36.pyc", File (Raw "bytecode of m"))]) ]) ].

(** The host of [app_host] with an output directory. *)
Definition out_host : node :=
  Dir [("proj",
        Dir [("app.egg-info", Dir [("top_level.txt", File (Raw "app
"))]);
             ("app", Dir [("__init__.py", File (Raw "import foo"))])]);
       ("out", Dir [])].

(** [cached_wheel cache name]: [cache] is a directory with a regular
    file named [name] somewhere below it. *)
Definition cached_wheel (cache : option node) (name : string) : Prop :=
  exists es p c,
    cache = Some (Dir es) /\ p <> [] /\ last p "" = name /\
    Fs.lookup p (Dir es) = Some (File c).

(** A cache tree with the same wheel name in two directories. *)
Definition two_wheels_tree : node :=
  Dir [ ("a", Dir [("foo-1.0-cp36m-manylinux1_x86_64.whl", File (Raw "first"))]);
        ("b", Dir [("foo-1.0-cp36m-manylinux1_x86_64.whl", File (Raw "second"));
                   ("notes.txt", File (Raw "text"))]) ].

(** A registry that lists one wheel of [foo] 1.0 for this runtime, and
    serves [body] (or an error status) for it. *)
Definition foo_url : string :=
  "https://files.example/foo-1.0-cp36m-manylinux1_x86_64.whl".

Definition serving_env (answer : response content) : env :=
  {| working_set := [foo];
     lambda_packages := [];
     wheel_cache := None;
     pypi_json := fun _ => HttpOk [("1.0", ["https://files.example/foo-1.0.tar.gz"; foo_url])];
     pypi_file := fun _ => answer;
     compile_dir := fun t => t |}.


(** The distribution [pkg] installed as a directory that holds its
    bundle as a file. *)
Definition pkg_in_directory : Distribution := dist "pkg" "1.0" "/site" [].

(** * Properties *)

(** ** The graph walk *)

Lemma by_key_key (e : env) (k : string) (d : Distribution) :
  by_key e k = Some d -> key d = k.
Proof.
  unfold by_key. intros H.
  apply find_some in H. destruct H as [_ H].
  now apply String.eqb_eq.
Qed.

Lemma by_key_self (e : env) (k : string) (d : Distribution) :
  by_key e k = Some d -> by_key e (key d) = Some d.
Proof.
  intros H. now rewrite (by_key_key e k d H).
Qed.







Section Acyclic.

Variable e : env.
Variable rank : string -> nat.

(** Requirements go down in rank, and every requirement is installed. *)
Hypothesis rank_decreases :
  forall k d r, by_key e k = Some d -> In r (requires d) -> rank r < rank k.
Hypothesis requirements_installed :
  forall k d r, by_key e k = Some d -> In r (requires d) -> by_key e r <> None.


End Acyclic.








(** ** Reasoning about raising computations *)

Lemma bind_returns {A B} (c : M A) (k : A -> M B) w b w' :
  bind c k w = (Return b, w') ->
  exists a w1, c w = (Return a, w1) /\ k a w1 = (Return b, w').
Proof.
  unfold bind. destruct (c w) as [[a|x] w1]; intros H.
  - now exists a, w1.
  - discriminate.
Qed.

Lemma bind_throws {A B} (c : M A) (k : A -> M B) w x w' :
  bind c k w = (Throw x, w') ->
  c w = (Throw x, w') \/
  exists a w1, c w = (Return a, w1) /\ k a w1 = (Throw x, w').
Proof.
  unfold bind. destruct (c w) as [[a|y] w1]; intros H.
  - right. now exists a, w1.
  - left. now inversion H.
Qed.

Lemma raises_only_ret {A} P (a : A) : raises_only P (ret a).
Proof. intros w x w' H. discriminate. Qed.

Lemma raises_only_raise {A} (P : exn -> Prop) x :
  P x -> raises_only P (@raise A x).
Proof. intros Hx w y w' H. inversion H; now subst. Qed.

Lemma raises_only_bind {A B} P (c : M A) (k : A -> M B) :
  raises_only P c -> (forall a, raises_only P (k a)) ->
  raises_only P (bind c k).
Proof.
  intros Hc Hk w x w' H. apply bind_throws in H.
  destruct H as [H | [a [w1 [_ H]]]].
  - exact (Hc _ _ _ H).
  - exact (Hk a _ _ _ H).
Qed.

Lemma raises_only_for_each {A} P (body : A -> M unit) xs :
  (forall a, raises_only P (body a)) -> raises_only P (for_each body xs).
Proof.
  intros Hb. induction xs as [|a xs IH]; simpl.
  - apply raises_only_ret.
  - apply raises_only_bind; [apply Hb | intros _; exact IH].
Qed.

Lemma raises_only_on_staging P (f : node -> py node) :
  (forall t x, f t = Throw x -> P x) -> raises_only P (on_staging f).
Proof.
  intros Hf w x w' H. unfold on_staging in H.
  destruct (f (staging w)) eqn:E; inversion H; subst.
  exact (Hf _ _ E).
Qed.

Lemma open_archive_raises fmt p at_p x :
  open_archive fmt p at_p = Throw x -> not_no_suitable_source x.
Proof.
  unfold open_archive. intros H name ver.
  destruct at_p as [[[b|f ms]|es]|]; try destruct fmt; try destruct f;
    inversion H; subst; discriminate.
Qed.

Lemma extract_member_raises dest name c t x :
  extract_member dest name c t = Throw x -> not_no_suitable_source x.
Proof.
  unfold extract_member. intros H n v.
  destruct (PyStr.endswith name "/");
    destruct (Fs.lookup _ t) as [[?|?]|];
    try destruct (Fs.graft _ _ t);
    inversion H; subst; discriminate.
Qed.

Lemma open_w_raises p c t x :
  open_w p c t = Throw x -> not_no_suitable_source x.
Proof.
  unfold open_w. intros H n v.
  destruct (Fs.lookup (removelast p) t) as [[?|?]|];
    try destruct p; try destruct (Fs.lookup _ t) as [[?|?]|];
    try destruct (Fs.graft _ _ t);
    inversion H; subst; discriminate.
Qed.

Lemma extractall_raises ms dest :
  raises_only not_no_suitable_source (extractall ms dest).
Proof.
  apply raises_only_for_each. intros m.
  apply raises_only_on_staging. intros t x. apply extract_member_raises.
Qed.

Lemma extract_names_raises ms dest names :
  raises_only not_no_suitable_source (extract_names ms dest names).
Proof.
  apply raises_only_for_each. intros name.
  destruct (getinfo name ms).
  - apply raises_only_on_staging. intros t x. apply extract_member_raises.
  - apply raises_only_raise. intros n v; discriminate.
Qed.

Lemma copytree_raises source destination :
  raises_only not_no_suitable_source (copytree source destination).
Proof.
  intros w x w' H n v. unfold copytree in H.
  destruct (Fs.lookup source (host w)) as [[?|?]|];
    try destruct (Fs.exists_ destination (staging w));
    try destruct (Fs.graft _ _ (staging w));
    inversion H; subst; discriminate.
Qed.

(** ** The five strategies *)

Lemma _install_precompiled_version_raises e dependency check_version :
  raises_only not_no_suitable_source
    (_install_precompiled_version e dependency check_version).
Proof.
  unfold _install_precompiled_version.
  destruct (assoc (key dependency) (lambda_packages e)) as [runtimes|];
    [|apply raises_only_ret].
  destruct (assoc RUNTIME runtimes) as [package|];
    [|apply raises_only_raise; intros n v; discriminate].
  destruct (check_version && _)%bool; [apply raises_only_ret|].
  intros w x w' H.
  destruct (open_archive _ _ _) eqn:E; inversion H; subst.
  - intros n v; discriminate.
  - exact (open_archive_raises _ _ _ _ E).
Qed.

(** Strategies 1 and 4 never report success: a hit in the bundled
    store ends in the TypeError of [tf.members()] (or in the error of
    opening the archive). *)
Lemma _install_precompiled_version_never_true e dependency check_version w w' :
  _install_precompiled_version e dependency check_version w <> (Return true, w').
Proof.
  unfold _install_precompiled_version.
  destruct (assoc (key dependency) (lambda_packages e)) as [runtimes|];
    [|discriminate].
  destruct (assoc RUNTIME runtimes) as [package|]; [|discriminate].
  destruct (check_version && _)%bool; [discriminate|].
  destruct (open_archive _ _ _); discriminate.
Qed.

(** A name the bundled store does not hold, or holds at another
    version, is reported not found by strategy 1, and nothing is
    touched. *)
Lemma install_matching_precompiled_version_not_found e dependency w :
  (assoc (key dependency) (lambda_packages e) = None \/
   exists runtimes package,
     assoc (key dependency) (lambda_packages e) = Some runtimes /\
     assoc RUNTIME runtimes = Some package /\
     bundled_version package <> version dependency) ->
  install_matching_precompiled_version e dependency w = (Return false, w).
Proof.
  unfold install_matching_precompiled_version, _install_precompiled_version.
  intros [H | [runtimes [package [H1 [H2 H3]]]]].
  - now rewrite H.
  - rewrite H1, H2. apply String.eqb_neq in H3. now rewrite H3.
Qed.

Lemma _install_manylinux_version_from_cache_raises cache dependency :
  raises_only not_no_suitable_source
    (_install_manylinux_version_from_cache cache dependency).
Proof.
  unfold _install_manylinux_version_from_cache.
  destruct cache as [[c|es]|]; try apply raises_only_ret.
  destruct (assoc _ _) as [wheel_path|]; [|apply raises_only_ret].
  apply raises_only_bind.
  - intros w x w' H. unfold lift in H. inversion H.
    eapply open_archive_raises; eassumption.
  - intros ms. apply raises_only_bind; [apply extractall_raises|].
    intros _. apply raises_only_ret.
Qed.

Lemma install_manylinux_version_raises e dependency :
  raises_only not_no_suitable_source (install_manylinux_version e dependency).
Proof.
  unfold install_manylinux_version. apply raises_only_bind.
  - apply _install_manylinux_version_from_cache_raises.
  - intros rv. destruct rv; simpl; [apply raises_only_ret|].
    intros w x w' H.
    exact (_install_manylinux_version_from_cache_raises _ _ _ _ _ H).
Qed.

Lemma write_cache_raises name c :
  raises_only not_no_suitable_source (write_cache name c).
Proof.
  intros w x w' H. unfold write_cache in H.
  destruct (fake_cache w) as [tree|].
  - destruct (open_w _ _ _) eqn:E; inversion H; subst.
    exact (open_w_raises _ _ _ _ E).
  - inversion H; subst. intros n v; discriminate.
Qed.

Lemma download_and_install_manylinux_version_raises e dependency :
  raises_only not_no_suitable_source
    (download_and_install_manylinux_version e dependency).
Proof.
  unfold download_and_install_manylinux_version. apply raises_only_bind.
  - intros w x w' H. destruct (fake_cache w); discriminate.
  - intros _.
    destruct (pypi_json e (key dependency)) as [status|releases];
      [apply raises_only_raise; intros n v; discriminate|].
    destruct (assoc _ releases) as [infos|]; [|apply raises_only_ret].
    destruct (List.find _ infos) as [url|]; [|apply raises_only_ret].
    apply raises_only_bind; [apply write_cache_raises|]. intros _.
    destruct (pypi_file e url) as [status|body];
      [apply raises_only_raise; intros n v; discriminate|].
    apply raises_only_bind; [apply write_cache_raises|]. intros _.
    apply raises_only_bind.
    + intros w x w' H. inversion H.
      eapply open_archive_raises; eassumption.
    + intros ms. apply raises_only_bind; [apply extractall_raises|].
      intros _. apply raises_only_ret.
Qed.

Lemma install_local_package_from_egg_raises dependency :
  raises_only not_no_suitable_source (install_local_package_from_egg dependency).
Proof.
  unfold install_local_package_from_egg. apply raises_only_bind.
  - intros w x w' H. inversion H. eapply open_archive_raises; eassumption.
  - intros ms. destruct (getinfo _ ms) as [[data|f m]|];
      try (apply raises_only_raise; intros n v; discriminate).
    apply raises_only_bind.
    + apply raises_only_for_each. intros folder. apply extract_names_raises.
    + intros _. apply raises_only_ret.
Qed.

Lemma install_local_package_raises dependency :
  raises_only not_no_suitable_source (install_local_package dependency).
Proof.
  intros w x w' H. unfold install_local_package in H.
  destruct (Fs.isfile _ (host w)).
  { destruct (PyStr.endswith _ _).
    - exact (install_local_package_from_egg_raises _ _ _ _ H).
    - inversion H; subst. intros n v; discriminate. }
  destruct (Fs.isdir _ (host w));
    [|inversion H; subst; intros n v; discriminate].
  destruct (Fs.isfile _ (host w)).
  { exact (install_local_package_from_egg_raises _ _ _ _ H). }
  destruct (_locate_top_level _ _) as [top_level_path|];
    [|inversion H; subst; intros n v; discriminate].
  destruct (Fs.lookup _ (host w)) as [[[data|f m]|es]|];
    try (inversion H; subst; intros n v; discriminate).
  revert H. apply raises_only_bind.
  - apply raises_only_for_each. intros folder. apply copytree_raises.
  - intros _. apply raises_only_ret.
Qed.

Lemma install_local_package_from_egg_never_false dependency w w' :
  install_local_package_from_egg dependency w <> (Return false, w').
Proof.
  unfold install_local_package_from_egg. intros H.
  apply bind_returns in H. destruct H as [ms [w1 [_ H]]].
  destruct (getinfo _ ms) as [[data|f m]|]; try discriminate.
  apply bind_returns in H. destruct H as [u [w2 [_ H]]]. discriminate.
Qed.

(** Strategy 5 never reports "not found": it returns [True] or
    raises. *)
Lemma install_local_package_never_false dependency w w' :
  install_local_package dependency w <> (Return false, w').
Proof.
  unfold install_local_package. intros H.
  destruct (Fs.isfile _ (host w)).
  { destruct (PyStr.endswith _ _); [|discriminate].
    exact (install_local_package_from_egg_never_false _ _ _ H). }
  destruct (Fs.isdir _ (host w)); [|discriminate].
  destruct (Fs.isfile _ (host w)).
  { exact (install_local_package_from_egg_never_false _ _ _ H). }
  destruct (_locate_top_level _ _) as [top_level_path|]; [|discriminate].
  destruct (Fs.lookup _ (host w)) as [[[data|f m]|es]|]; try discriminate.
  apply bind_returns in H. destruct H as [u [w2 [_ H]]]. discriminate.
Qed.

(** The [raise] that ends the chain is never reached: whatever the
    index, the caches, the registry and the host hold,
    [install_dependencies] does not raise "Unable to find suitable
    source". *)
Lemma install_dependencies_never_no_suitable_source e package dependencies :
  raises_only not_no_suitable_source (install_dependencies e package dependencies).
Proof.
  induction dependencies as [|dependency rest IH]; simpl.
  - apply raises_only_ret.
  - destruct (String.eqb _ _); [exact IH|].
    apply raises_only_bind;
      [apply _install_precompiled_version_raises|]. intros [|]; [exact IH|].
    apply raises_only_bind; [apply install_manylinux_version_raises|].
    intros [|]; [exact IH|].
    apply raises_only_bind;
      [apply download_and_install_manylinux_version_raises|].
    intros [|]; [exact IH|].
    apply raises_only_bind;
      [apply _install_precompiled_version_raises|]. intros [|]; [exact IH|].
    intros w x w' H. apply bind_throws in H.
    destruct H as [H | [rv [w1 [H1 H]]]].
    + exact (install_local_package_raises _ _ _ _ H).
    + destruct rv; simpl in H.
      * exact (IH _ _ _ H).
      * now apply install_local_package_never_false in H1.
Qed.

(** C2: the code misses the claim.  [six] is in no cache and not on
    the registry; strategies 1 to 4 report not found, in this order and
    each on the state the one before left; strategy 5 then raises the
    OSError of [copytree] (there is no directory [/site/six], only
    [six.py]), and the chain ends with that error and not with "Unable
    to find suitable source for six==1.11.0". *)
Theorem C2_chain_ends_in_the_error_of_strategy_5 :
  let e := bare_env [six] in
  let w0 := fresh_world six_host in
  let w1 := set_fake_cache (Some (Dir [])) w0 in
  install_matching_precompiled_version e six w0 = (Return false, w0) /\
  install_manylinux_version e six w0 = (Return false, w0) /\
  download_and_install_manylinux_version e six w0 = (Return false, w1) /\
  install_any_precompiled_version e six w1 = (Return false, w1) /\
  install_local_package six w1 = (Throw (OSError ENOENT ["site"; "six"]), w1) /\
  install_dependencies e "app" [six] w0
    = (Throw (OSError ENOENT ["site"; "six"]), w1) /\
  install_dependencies e "app" [six] w0
    <> (Throw (Exception (NoSuitableSource "six" "1.11.0")), w1).
Proof.
  repeat split; try reflexivity. discriminate.
Qed.

(** C3: the code misses the claim.  [foo] 1.0 is in the bundled store
    at version 1.0 for the target runtime; strategy 1 opens the stored
    archive and then raises TypeError at [tf.members()]: nothing is
    extracted, no success is reported, and the chain stops with that
    error. *)
Theorem C3_exact_match_raises_type_error :
  let w0 := fresh_world foo_bundled_host in
  assoc "foo" (lambda_packages foo_bundled_env)
    = Some [("python3.6", {| bundled_version := version foo;
                             bundled_path := "/bundled/foo-1.0.tar.gz" |})] /\
  install_matching_precompiled_version foo_bundled_env foo w0
    = (Throw (TypeError "'list' object is not callable"), w0) /\
  staging w0 = Dir [] /\
  install_dependencies foo_bundled_env "app" [foo] w0
    = (Throw (TypeError "'list' object is not callable"), w0).
Proof.
  repeat split; reflexivity.
Qed.

(** What the egg loop keeps, name by name. *)
Lemma egg_names_to_copy_spec (maybe : list string) (name : string) :
  In name (egg_names_to_copy maybe) <->
  In name maybe /\
  existsb (PyStr.fnmatch name) IGNORED = false /\
  (PyStr.endswith name ".py" = false \/ PyStr.mem (name ++ "c") maybe = false).
Proof.
  unfold egg_names_to_copy.
  set (step := fun (names_to_copy : list string) (n : string) =>
                 if existsb (PyStr.fnmatch n) IGNORED then names_to_copy
                 else
                   let names1 :=
                     if negb (PyStr.endswith n ".py")
                     then names_to_copy ++ [n] else names_to_copy in
                   if negb (PyStr.mem (n ++ "c") maybe)
                   then names1 ++ [n] else names1).
  assert (G : forall l acc,
    In name (fold_left step l acc) <->
    In name acc \/
    (In name l /\ existsb (PyStr.fnmatch name) IGNORED = false /\
     (PyStr.endswith name ".py" = false \/ PyStr.mem (name ++ "c") maybe = false))).
  { induction l as [|n l IH]; intros acc; cbn [fold_left In].
    - tauto.
    - rewrite IH. unfold step.
      destruct (existsb (PyStr.fnmatch n) IGNORED) eqn:Ei;
        destruct (PyStr.endswith n ".py") eqn:Ep;
        destruct (PyStr.mem (n ++ "c") maybe) eqn:Ec; cbn [negb];
        repeat rewrite in_app_iff; cbn [In];
        split; intros H;
        repeat match goal with
               | H : _ \/ _ |- _ => destruct H
               | H : _ /\ _ |- _ => destruct H
               | H : False |- _ => destruct H
               end; subst; try congruence; auto 8. }
  rewrite G. cbn [In]. tauto.
Qed.

(** Directory copies leave out, at every level, the entries whose name
    matches a pattern. *)
Lemma copy_filtered_drops_ignored (es : list (string * node)) name x :
  copy_filtered (Dir es) = Dir x -> ignored_name name = true ->
  Fs.find name x = None.
Proof.
  simpl. intros H Hn. inversion H; subst; clear H.
  induction es as [|[n y] es IH]; simpl; [reflexivity|].
  destruct (ignored_name n) eqn:E; [exact IH|].
  simpl. destruct (String.eqb n name) eqn:En; [|exact IH].
  apply String.eqb_eq in En. congruence.
Qed.

(** C4: the code misses the claim.  The wheel of [foo] in pip's cache
    ships [foo/__pycache__/...] and [.git/config]; strategy 2 extracts
    every member, and both paths, which match patterns of [IGNORED],
    are in the staging tree afterwards.  (The legacy-bundle and the
    directory-copy paths do filter, see [egg_names_to_copy_spec] and
    [copy_filtered_drops_ignored].) *)
Theorem C4_wheel_extraction_keeps_ignored_paths :
  let w' :=
    set_staging
      (Dir [ ("foo",
              Dir [ ("__init__.py", File (Raw "x = 1"));
                    ("__pycache__",
                     Dir [("__init__.cpython-36.pyc", File (Raw "bytecode"))]) ]);
             (".git", Dir [("config", File (Raw "[core]"))]) ])
      (fresh_world (Dir [])) in
  install_manylinux_version foo_cached_env foo (fresh_world (Dir []))
    = (Return true, w') /\
  install_dependencies foo_cached_env "app" [foo] (fresh_world (Dir []))
    = (Return tt, w') /\
  Fs.lookup ["foo"; "__pycache__"; "__init__.cpython-36.pyc"] (staging w')
    = Some (File (Raw "bytecode")) /\
  PyStr.fnmatch "foo/__pycache__/__init__.cpython-36.pyc" "*/__pycache__/*" = true /\
  Fs.lookup [".git"; "config"] (staging w') = Some (File (Raw "[core]")) /\
  PyStr.fnmatch ".git/config" ".git/*" = true /\
  In "*/__pycache__/*" IGNORED /\ In ".git/*" IGNORED.
Proof.
  repeat split; try reflexivity; simpl; tauto.
Qed.

(** C5: the code misses the claim.  For the bundle of the example the
    loop keeps the right names, [pkg/__init__.pyc] and [pkg/mod.py],
    but extracts them below [os.path.join(path, "pkg")]: the files land
    at [pkg/pkg/__init__.pyc] and [pkg/pkg/mod.py], and nothing is at
    [pkg/__init__.pyc] or [pkg/mod.py]. *)
Theorem C5_legacy_bundle_lands_one_level_down :
  let w' :=
    set_staging
      (Dir [("pkg",
             Dir [("pkg",
                   Dir [ ("__init__.pyc", File (Raw "bytecode of __init__"));
                         ("mod.py", File (Raw "source of mod")) ])])])
      (fresh_world pkg_host) in
  egg_names_to_copy ["pkg/__init__.py"; "pkg/__init__.pyc"; "pkg/mod.py"]
    = ["pkg/__init__.pyc"; "pkg/__init__.pyc"; "pkg/mod.py"] /\
  install_local_package pkg (fresh_world pkg_host) = (Return true, w') /\
  Fs.lookup ["pkg"; "pkg"; "__init__.pyc"] (staging w')
    = Some (File (Raw "bytecode of __init__")) /\
  Fs.lookup ["pkg"; "pkg"; "mod.py"] (staging w')
    = Some (File (Raw "source of mod")) /\
  Fs.lookup ["pkg"; "__init__.pyc"] (staging w') = None /\
  Fs.lookup ["pkg"; "mod.py"] (staging w') = None.
Proof.
  repeat split; reflexivity.
Qed.

(** ** The download strategy *)






(** ** Trees *)

Lemma find_put_same name x es : Fs.find name (Fs.put name x es) = Some x.
Proof.
  induction es as [|[n y] es IH]; simpl.
  - now rewrite String.eqb_refl.
  - destruct (String.eqb n name) eqn:E; simpl.
    + now rewrite String.eqb_refl.
    + now rewrite E.
Qed.

Lemma find_put_other name name' x es :
  name <> name' -> Fs.find name' (Fs.put name x es) = Fs.find name' es.
Proof.
  intros Hne. induction es as [|[n y] es IH]; simpl.
  - apply String.eqb_neq in Hne. now rewrite Hne.
  - destruct (String.eqb n name) eqn:E; simpl.
    + apply String.eqb_eq in E. subst n.
      apply String.eqb_neq in Hne. now rewrite Hne.
    + destruct (String.eqb n name'); [reflexivity | exact IH].
Qed.

Lemma find_del_same name es : Fs.find name (Fs.del name es) = None.
Proof.
  unfold Fs.del. induction es as [|[n y] es IH]; simpl; [reflexivity|].
  destruct (String.eqb n name) eqn:E; simpl; [exact IH|].
  now rewrite E.
Qed.

Lemma find_del_other name name' es :
  name <> name' -> Fs.find name' (Fs.del name es) = Fs.find name' es.
Proof.
  intros Hne. unfold Fs.del. induction es as [|[n y] es IH]; simpl; [reflexivity|].
  destruct (String.eqb n name) eqn:E; simpl.
  - apply String.eqb_eq in E. subst n.
    apply String.eqb_neq in Hne. now rewrite Hne.
  - destruct (String.eqb n name'); [reflexivity | exact IH].
Qed.

(** What was grafted at [p] is found at [p]. *)
Lemma graft_lookup p x t t' :
  Fs.graft p x t = Some t' -> Fs.lookup p t' = Some x.
Proof.
  revert t t'. induction p as [|c p IH]; intros t t' H; simpl in H.
  - now inversion H.
  - destruct t as [f|es]; [discriminate|].
    destruct (Fs.graft p x _) as [child'|] eqn:E; [|discriminate].
    inversion H; subst. simpl. rewrite find_put_same. exact (IH _ _ E).
Qed.

Lemma graft_cons c p x es :
  Fs.graft (c :: p) x (Dir es)
  = match Fs.graft p x (match Fs.find c es with Some y => y | None => Dir [] end) with
    | Some child' => Some (Dir (Fs.put c child' es))
    | None => None
    end.
Proof. reflexivity. Qed.



Lemma open_w_returns p c t t' :
  open_w p c t = Return t' -> Fs.lookup p t' = Some (File c).
Proof.
  unfold open_w. intros H.
  destruct (Fs.lookup (removelast p) t) as [[f|es]|]; try discriminate.
  destruct p as [|c0 p]; [discriminate|].
  destruct (Fs.lookup (c0 :: p) t) as [[f|es']|]; try discriminate;
    destruct (Fs.graft _ _ t) as [t0|] eqn:E; try discriminate;
    inversion H; subst; exact (graft_lookup _ _ _ _ E).
Qed.

(** ** The output sink *)




(** ** The shim *)

Lemma insert_shim_returns entry w w' :
  insert_shim entry w = (Return tt, w') ->
  Fs.lookup ["index.py"] (staging w') = Some (File (Raw entry)).
Proof.
  unfold insert_shim, on_staging. intros H.
  destruct (open_w _ _ (staging w)) as [t|x] eqn:E; inversion H; subst.
  exact (open_w_returns _ _ _ _ E).
Qed.

(** C10.  The shim is the file [index.py] at the root of the staging
    tree and is written after everything else: a run of
    [populate_directory] that completes went through the
    installation of the dependencies and of the project, the
    compilation and the pruning, then wrote the shim, and its staging
    tree has the entry text, and nothing else, in [index.py], whatever
    the earlier steps had put there. *)
Theorem C10_shim_is_written_last
    (e : env) (package entry : string) (dependencies : list Distribution)
    (w w' : world) :
  populate_directory e package entry dependencies w = (Return tt, w') ->
  (exists w2,
     (install_dependencies e package dependencies ;;;
      install_project e package ;;;
      compile_files e ;;;
      prune_python_files) w = (Return tt, w2) /\
     insert_shim entry w2 = (Return tt, w'))
  /\ Fs.lookup ["index.py"] (staging w') = Some (File (Raw entry)).
Proof.
  unfold populate_directory. intros H.
  apply bind_returns in H. destruct H as [u1 [w1 [H1 H]]].
  apply bind_returns in H. destruct H as [u2 [wb [H2 H]]].
  apply bind_returns in H. destruct H as [u3 [wc [H3 H]]].
  apply bind_returns in H. destruct H as [u4 [w2 [H4 H]]].
  split.
  - exists w2. split; [|exact H].
    unfold bind. rewrite H1, H2, H3, H4. now destruct u4.
  - exact (insert_shim_returns _ _ _ H).
Qed.

(** The wheel of [foo] stages an [index.py] of its own at the root;
    after the run [index.py] holds the entry text. *)
Lemma C10_shim_is_written_last_witness :
  let run :=
    populate_directory app_env "app" "def handler(): pass"
                       [app_project; foo] (fresh_world app_host) in
  fst run = Return tt /\
  Fs.lookup ["index.py"] (staging (snd run)) = Some (File (Raw "def handler(): pass")).
Proof.
  intros run. split; [vm_compute; reflexivity|].
  apply (C10_shim_is_written_last app_env "app" "def handler(): pass"
           [app_project; foo] (fresh_world app_host) (snd run)).
  vm_compute; reflexivity.
Defined.

(** Before the shim is written, that [index.py] is the one of the
    wheel. *)
Example index_py_before_the_shim :
  Fs.lookup ["index.py"]
    (staging (snd ((install_dependencies app_env "app" [app_project; foo] ;;;
                    install_project app_env "app" ;;;
                    compile_files app_env ;;;
                    prune_python_files) (fresh_world app_host))))
  = Some (File (Raw "print('from foo')")).
Proof. vm_compute; reflexivity. Qed.

(** ** Strings and path names *)

Lemma string_app_assoc (a b c : string) : ((a ++ b) ++ c)%string = (a ++ b ++ c)%string.
Proof. induction a as [|ch a IH]; simpl; [reflexivity | now rewrite IH]. Qed.

Lemma string_app_nil_r (a : string) : (a ++ "")%string = a.
Proof. induction a as [|ch a IH]; simpl; [reflexivity | now rewrite IH]. Qed.

Lemma string_length_app (a b : string) :
  String.length (a ++ b) = String.length a + String.length b.
Proof. induction a as [|ch a IH]; simpl; [reflexivity | now rewrite IH]. Qed.

Lemma drop_app_plus (a b : string) (k : nat) :
  PyStr.drop (String.length a + k) (a ++ b) = PyStr.drop k b.
Proof. induction a as [|ch a IH]; simpl; [reflexivity | exact IH]. Qed.

Lemma drop_app (a b : string) : PyStr.drop (String.length a) (a ++ b) = b.
Proof.
  rewrite <- (Nat.add_0_r (String.length a)). rewrite drop_app_plus.
  now destruct b.
Qed.

Lemma lstrip_sep_other (ch : ascii) (s : string) :
  PyStr.is_slash ch = false -> PyStr.lstrip_sep (String ch s) = String ch s.
Proof.
  destruct ch as [b0 b1 b2 b3 b4 b5 b6 b7].
  destruct b0, b1, b2, b3, b4, b5, b6, b7; intros H;
    try reflexivity; discriminate H.
Qed.

Lemma startswith_sep_other (ch : ascii) (s : string) :
  PyStr.is_slash ch = false -> PyStr.startswith (String ch s) "/" = false.
Proof.
  destruct ch as [b0 b1 b2 b3 b4 b5 b6 b7].
  destruct b0, b1, b2, b3, b4, b5, b6, b7; intros H;
    try reflexivity; discriminate H.
Qed.

Lemma endswith_app (a b : string) :
  b <> "" -> PyStr.endswith (a ++ b) "/" = PyStr.endswith b "/".
Proof.
  intros Hb. unfold PyStr.endswith. rewrite string_length_app.
  destruct b as [|ch b]; [congruence|]. simpl String.length.
  replace (String.length a + S (String.length b) - 1)
    with (String.length a + (String.length b)) by lia.
  replace (S (String.length b) - 1) with (String.length b) by lia.
  rewrite drop_app_plus.
  replace (Nat.leb 1 (String.length a + S (String.length b))) with true
    by (symmetry; apply Nat.leb_le; lia).
  reflexivity.
Qed.

Lemma no_slash_last (s : string) :
  no_slash s = true -> s <> "" ->
  String.eqb (PyStr.drop (String.length s - 1) s) "/" = false.
Proof.
  induction s as [|ch s IH]; intros Hn Hs; [congruence|].
  simpl in Hn. apply andb_prop in Hn. destruct Hn as [Hc Hn].
  destruct s as [|ch' s].
  - simpl. unfold PyStr.is_slash in Hc.
    destruct (Ascii.eqb ch "/") eqn:E; [discriminate Hc | reflexivity].
  - replace (String.length (String ch (String ch' s)) - 1)
      with (S (String.length (String ch' s) - 1)) by (simpl; lia).
    cbn [PyStr.drop]. apply IH; [exact Hn | discriminate].
Qed.

Lemma valid_name_inv (s : string) :
  valid_name s = true ->
  exists ch s', s = String ch s' /\ PyStr.is_slash ch = false /\ no_slash s = true.
Proof.
  unfold valid_name. intros H. apply andb_prop in H. destruct H as [H1 H2].
  destruct s as [|ch s']; [discriminate H1|].
  exists ch, s'. repeat split; [|exact H2].
  simpl in H2. apply andb_prop in H2. destruct H2 as [H2 _].
  now destruct (PyStr.is_slash ch).
Qed.

Lemma valid_name_endswith (s : string) :
  valid_name s = true -> PyStr.endswith s "/" = false.
Proof.
  intros H. destruct (valid_name_inv s H) as [ch [s' [E [_ Hn]]]].
  unfold PyStr.endswith. destruct (Nat.leb _ _); [|reflexivity].
  simpl (String.length "/"). apply no_slash_last; [exact Hn | subst; discriminate].
Qed.

Lemma join_valid (a name : string) :
  valid_name name = true -> OsPath.join a name = (a ++ joint a ++ name)%string.
Proof.
  intros H. destruct (valid_name_inv name H) as [ch [s' [E [Hc _]]]]. subst name.
  unfold OsPath.join, joint, OsPath.sep. rewrite (startswith_sep_other ch s' Hc).
  destruct (String.eqb a "" || PyStr.endswith a "/")%bool; reflexivity.
Qed.

Lemma concat_snoc (pre : list string) (name : string) :
  pre <> [] ->
  String.concat "/" (pre ++ [name]) = (String.concat "/" pre ++ "/" ++ name)%string.
Proof.
  induction pre as [|x pre IH]; intros H; [congruence|].
  destruct pre as [|y pre].
  - reflexivity.
  - change (String.concat "/" ((x :: y :: pre) ++ [name]))
      with (x ++ "/" ++ String.concat "/" ((y :: pre) ++ [name]))%string.
    rewrite IH by discriminate.
    change (String.concat "/" (x :: y :: pre))
      with (x ++ "/" ++ String.concat "/" (y :: pre))%string.
    now rewrite !string_app_assoc.
Qed.

Lemma concat_valid (pre : list string) :
  pre <> [] -> Forall (fun c => valid_name c = true) pre ->
  String.concat "/" pre <> "" /\
  PyStr.endswith (String.concat "/" pre) "/" = false /\
  exists ch s, String.concat "/" pre = String ch s /\ PyStr.is_slash ch = false.
Proof.
  induction pre as [|x pre IH]; intros Hne Hv; [congruence|].
  inversion Hv as [|? ? Hx Hpre]; subst.
  destruct (valid_name_inv x Hx) as [ch [s' [E [Hc _]]]].
  destruct pre as [|y pre].
  - simpl. repeat split.
    + subst; discriminate.
    + now apply valid_name_endswith.
    + now exists ch, s'.
  - destruct (IH ltac:(discriminate) Hpre) as [Hn [He _]].
    change (String.concat "/" (x :: y :: pre))
      with (x ++ "/" ++ String.concat "/" (y :: pre))%string.
    repeat split.
    + subst x. discriminate.
    + rewrite <- string_app_assoc. rewrite endswith_app by exact Hn. exact He.
    + subst x. simpl. now exists ch, (s' ++ "/" ++ String.concat "/" (y :: pre))%string.
Qed.

Lemma join_rendered (path : string) (pre : Fs.path) (name : string) :
  Forall (fun c => valid_name c = true) pre -> valid_name name = true ->
  OsPath.join (rendered path pre) name = rendered path (pre ++ [name]).
Proof.
  intros Hpre Hname. rewrite (join_valid _ _ Hname).
  destruct pre as [|x pre].
  - reflexivity.
  - destruct (concat_valid (x :: pre) ltac:(discriminate) Hpre) as [Hn [He _]].
    assert (Hr : rendered path ((x :: pre) ++ [name])
                 = (path ++ joint path ++ String.concat "/" ((x :: pre) ++ [name]))%string)
      by reflexivity.
    rewrite Hr. rewrite concat_snoc by discriminate.
    assert (Hj : joint (rendered path (x :: pre)) = "/").
    { unfold joint, rendered.
      rewrite <- string_app_assoc. rewrite endswith_app by exact Hn. rewrite He.
      destruct ((path ++ joint path) ++ String.concat "/" (x :: pre))%string eqn:E.
      - destruct (path ++ joint path)%string; [destruct (Hn E) | discriminate E].
      - reflexivity. }
    rewrite Hj. unfold rendered.
    now rewrite !string_app_assoc.
Qed.

(** Cutting [path] off the reached string and stripping the leading
    separators leaves the relative name. *)
Lemma truncated_rendered (path : string) (pre : Fs.path) :
  pre <> [] -> Forall (fun c => valid_name c = true) pre ->
  PyStr.lstrip_sep (PyStr.drop (String.length path) (rendered path pre))
  = relative_name pre.
Proof.
  intros Hne Hv. destruct pre as [|x pre]; [congruence|].
  unfold rendered, relative_name. rewrite drop_app.
  destruct (concat_valid (x :: pre) Hne Hv) as [_ [_ [ch [s [E Hc]]]]].
  rewrite E. unfold joint.
  destruct (String.eqb path "" || PyStr.endswith path "/")%bool; simpl;
    apply lstrip_sep_other; exact Hc.
Qed.

(** ** Walking a tree *)

Lemma node_ind' (P : node -> Prop) :
  (forall c, P (File c)) ->
  (forall es, Forall (fun entry => P (snd entry)) es -> P (Dir es)) ->
  forall n, P n.
Proof.
  intros HF HD. fix IH 1. intros [c|es].
  - apply HF.
  - apply HD. induction es as [|[name x] es IHes]; constructor.
    + apply IH.
    + exact IHes.
Qed.

Lemma walk_dir {P : Type} (join : P -> string -> P) (top : P) es :
  Fs.walk join top (Dir es)
  = (top, Fs.dirnames es, Fs.filenames es)
    :: flat_map (fun entry => Fs.walk join (join top (fst entry)) (snd entry)) es.
Proof.
  cbn [Fs.walk]. f_equal.
  induction es as [|[name x] es IH]; [reflexivity|].
  cbn [flat_map fst snd]. now rewrite IH.
Qed.

Lemma files_below_dir prefix es :
  files_below prefix (Dir es)
  = flat_map
      (fun entry : string * node =>
         match snd entry with
         | File c => [(prefix ++ [fst entry], c)]
         | Dir _ => []
         end) es
    ++ flat_map (fun entry => files_below (prefix ++ [fst entry]) (snd entry)) es.
Proof.
  cbn [files_below]. f_equal.
  induction es as [|[name x] es IH]; [reflexivity|].
  cbn [flat_map fst snd]. now rewrite IH.
Qed.

Lemma well_formed_dir es :
  well_formed (Dir es) ->
  NoDup (map fst es) /\
  Forall (fun entry => valid_name (fst entry) = true /\ well_formed (snd entry)) es.
Proof.
  cbn [well_formed]. intros [Hnd H]. split; [exact Hnd|]. clear Hnd.
  induction es as [|[name x] es IH]; constructor.
  - cbn [fst snd]. tauto.
  - apply IH. tauto.
Qed.

Lemma find_In name x es :
  NoDup (map fst es) -> In (name, x) es -> Fs.find name es = Some x.
Proof.
  induction es as [|[n y] es IH]; intros Hnd Hin; [destruct Hin|].
  simpl in Hnd. inversion Hnd as [|? ? Hn Hnd']; subst.
  simpl. destruct Hin as [E | Hin].
  - inversion E; subst. now rewrite String.eqb_refl.
  - destruct (String.eqb n name) eqn:E.
    + apply String.eqb_eq in E. subst n.
      exfalso. apply Hn. apply in_map_iff. now exists (name, x).
    + now apply IH.
Qed.

Lemma find_Some_In name x es : Fs.find name es = Some x -> In (name, x) es.
Proof.
  induction es as [|[n y] es IH]; simpl; [discriminate|].
  destruct (String.eqb n name) eqn:E; intros H.
  - apply String.eqb_eq in E. inversion H; subst. now left.
  - right. now apply IH.
Qed.

Lemma lookup_app p q t n :
  Fs.lookup p t = Some n -> Fs.lookup (p ++ q) t = Fs.lookup q n.
Proof.
  revert t. induction p as [|c p IH]; intros t H; simpl in *.
  - now inversion H.
  - destruct t as [f|es]; [discriminate|].
    destruct (Fs.find c es); [now apply IH | discriminate].
Qed.

Lemma flat_map_ext_in {A B} (f g : A -> list B) (l : list A) :
  (forall a, In a l -> f a = g a) -> flat_map f l = flat_map g l.
Proof.
  induction l as [|a l IH]; intros H; simpl; [reflexivity|].
  rewrite (H a) by now left. f_equal. apply IH. intros; apply H; now right.
Qed.

Lemma flat_map_nested {A B C} (f : B -> list C) (g : A -> list B) (l : list A) :
  flat_map f (flat_map g l) = flat_map (fun a => flat_map f (g a)) l.
Proof.
  induction l as [|a l IH]; simpl; [reflexivity|].
  now rewrite flat_map_app, IH.
Qed.

Lemma map_flat_map {A B C} (h : B -> C) (g : A -> list B) (l : list A) :
  map h (flat_map g l) = flat_map (fun a => map h (g a)) l.
Proof.
  induction l as [|a l IH]; simpl; [reflexivity|].
  now rewrite map_app, IH.
Qed.

Section Archive.

Variable path : string.
Variable tree : node.

(** What [create_zip_bundle] writes for one triple of the walk. *)
Let written (triple : (string * Fs.path) * list string * list string)
  : list (string * content) :=
  let '(root, _, files) := triple in
  flat_map
    (fun file =>
       let real_file_path := join_both root file in
       let truncated := PyStr.drop (String.length path) (fst real_file_path) in
       let truncated := PyStr.lstrip_sep truncated in
       match Fs.lookup (snd real_file_path) tree with
       | Some (File c) => [(truncated, c)]
       | _ => []
       end)
    files.

Let entry_of (pc : Fs.path * content) : string * content :=
  (relative_name (fst pc), snd pc).

Lemma written_files (pre : Fs.path) (es l : list (string * node)) :
  Fs.lookup pre tree = Some (Dir es) ->
  NoDup (map fst es) ->
  Forall (fun c => valid_name c = true) pre ->
  Forall (fun entry => valid_name (fst entry) = true /\ well_formed (snd entry)) l ->
  incl l es ->
  written (rendered path pre, pre, Fs.dirnames es, Fs.filenames l)
  = map entry_of
      (flat_map
         (fun entry : string * node =>
            match snd entry with
            | File c => [(pre ++ [fst entry], c)]
            | Dir _ => []
            end) l).
Proof.
  intros Hpre Hnd Hv Hl Hincl. unfold written.
  induction l as [|[name x] l IH]; [reflexivity|].
  inversion Hl as [|? ? [Hname _] Hl']; subst. cbn [fst snd] in Hname.
  assert (Hin : In (name, x) es) by (apply Hincl; now left).
  assert (Hincl' : incl l es) by (intros y Hy; apply Hincl; now right).
  specialize (IH Hl' Hincl').
  destruct x as [c|es'].
  - unfold Fs.filenames in *. cbn [filter snd Fs.is_dir_node negb map fst flat_map].
    rewrite IH. cbn [map app].
    unfold join_both, Fs.snoc. cbn [fst snd].
    rewrite (lookup_app pre [name] tree (Dir es) Hpre).
    cbn [Fs.lookup]. rewrite (find_In name (File c) es Hnd Hin).
    unfold entry_of. cbn [fst snd app].
    rewrite (join_rendered path pre name Hv Hname).
    rewrite truncated_rendered; [reflexivity | |].
    + destruct pre; discriminate.
    + apply Forall_app. split; [exact Hv | now constructor].
  - unfold Fs.filenames in *. cbn [filter snd Fs.is_dir_node negb flat_map app].
    exact IH.
Qed.

(** The entries written for the sub-tree at [pre] are the files below
    it under their relative names. *)
Lemma create_zip_bundle_subtree :
  forall n pre,
    Fs.lookup pre tree = Some n ->
    well_formed n ->
    Forall (fun c => valid_name c = true) pre ->
    flat_map written (Fs.walk join_both (rendered path pre, pre) n)
    = map entry_of (files_below pre n).
Proof.
  induction n as [c|es IH] using node_ind'; intros pre Hpre Hwf Hv.
  - reflexivity.
  - destruct (well_formed_dir es Hwf) as [Hnd Hes].
    rewrite walk_dir, files_below_dir. cbn [flat_map]. rewrite map_app. f_equal.
    + apply (written_files pre es es Hpre Hnd Hv Hes). apply incl_refl.
    + rewrite flat_map_nested, map_flat_map.
      apply flat_map_ext_in. intros [name x] Hin. cbn [fst snd].
      rewrite Forall_forall in IH, Hes.
      destruct (Hes _ Hin) as [Hname Hx]. cbn [fst snd] in Hname, Hx.
      unfold join_both, Fs.snoc. cbn [fst snd].
      rewrite (join_rendered path pre name Hv Hname).
      apply (IH _ Hin).
      * rewrite (lookup_app pre [name] tree (Dir es) Hpre).
        cbn [Fs.lookup]. now rewrite (find_In name x es Hnd Hin).
      * exact Hx.
      * apply Forall_app. split; [exact Hv | now constructor].
Qed.

Lemma create_zip_bundle_entries :
  well_formed tree ->
  create_zip_bundle path tree = map entry_of (files_below [] tree).
Proof.
  intros Hwf.
  apply (create_zip_bundle_subtree tree [] eq_refl Hwf (Forall_nil _)).
Qed.

End Archive.

(** The files listed below a directory are the regular files found
    there by path, under names a directory can hold. *)
Lemma files_below_spec :
  forall n pre p c,
    well_formed n ->
    (In (p, c) (files_below pre n) <->
     exists q, q <> [] /\ p = pre ++ q /\ Fs.lookup q n = Some (File c)).
Proof.
  induction n as [c0|es IH] using node_ind'; intros pre p c Hwf.
  - split; [intros [] | intros [q [Hq [_ H]]]].
    destruct q; [congruence | discriminate H].
  - destruct (well_formed_dir es Hwf) as [Hnd Hes].
    rewrite Forall_forall in IH, Hes.
    rewrite files_below_dir, in_app_iff, !in_flat_map. split.
    + intros [[[name x] [Hin H]] | [[name x] [Hin H]]]; cbn [fst snd] in H.
      * destruct x as [c'|es']; [|destruct H].
        destruct H as [H|[]]. inversion H; subst.
        exists [name]. repeat split; [discriminate|].
        cbn [Fs.lookup]. now rewrite (find_In name (File c) es Hnd Hin).
      * destruct (Hes _ Hin) as [_ Hx]. cbn [snd] in Hx.
        apply (IH _ Hin (pre ++ [name]) p c Hx) in H.
        destruct H as [q [Hq [Hp Hl]]].
        exists (name :: q). repeat split; [discriminate | |].
        -- now rewrite Hp, <- app_assoc.
        -- cbn [Fs.lookup]. now rewrite (find_In name x es Hnd Hin).
    + intros [q [Hq [Hp Hl]]]. destruct q as [|name q]; [congruence|].
      cbn [Fs.lookup] in Hl.
      destruct (Fs.find name es) as [x|] eqn:Ef; [|discriminate].
      apply find_Some_In in Ef.
      destruct q as [|name' q].
      * left. exists (name, x). split; [exact Ef|]. cbn [fst snd].
        simpl in Hl. inversion Hl; subst. now left.
      * right. exists (name, x). split; [exact Ef|]. cbn [fst snd].
        destruct (Hes _ Ef) as [_ Hx]. cbn [snd] in Hx.
        apply (IH _ Ef (pre ++ [name]) p c Hx).
        exists (name' :: q). repeat split; [discriminate | | exact Hl].
        now rewrite Hp, <- app_assoc.
Qed.

Lemma files_below_valid :
  forall n pre p c,
    well_formed n -> In (p, c) (files_below pre n) ->
    exists q, q <> [] /\ p = pre ++ q /\ Forall (fun x => valid_name x = true) q.
Proof.
  induction n as [c0|es IH] using node_ind'; intros pre p c Hwf H.
  - destruct H.
  - destruct (well_formed_dir es Hwf) as [Hnd Hes].
    rewrite Forall_forall in IH, Hes.
    rewrite files_below_dir, in_app_iff, !in_flat_map in H.
    destruct H as [[[name x] [Hin H]] | [[name x] [Hin H]]]; cbn [fst snd] in H;
      destruct (Hes _ Hin) as [Hname Hx]; cbn [fst snd] in Hname, Hx.
    + destruct x as [c'|es']; [|destruct H].
      destruct H as [H|[]]. inversion H; subst.
      exists [name]. repeat split; [discriminate | now constructor].
    + destruct (IH _ Hin (pre ++ [name]) p c Hx H) as [q [Hq [Hp Hv]]].
      exists (name :: q). repeat split; [discriminate | | now constructor].
      now rewrite Hp, <- app_assoc.
Qed.

Lemma NoDup_flat_map_tagged {A B T} (tag : B -> T) (name : A -> T)
    (f : A -> list B) (l : list A) :
  NoDup (map name l) ->
  (forall a, In a l -> NoDup (f a)) ->
  (forall a y, In a l -> In y (f a) -> tag y = name a) ->
  NoDup (flat_map f l).
Proof.
  induction l as [|a l IH]; intros Hnd Hf Ht; simpl; [constructor|].
  simpl in Hnd. inversion Hnd as [|? ? Hn Hnd']; subst.
  apply NoDup_app.
  - apply Hf. now left.
  - apply IH; [exact Hnd' | intros; apply Hf; now right
              | intros b y Hb; apply Ht; now right].
  - intros y Hy Hy'. apply in_flat_map in Hy'. destruct Hy' as [b [Hb Hyb]].
    apply Hn. apply in_map_iff. exists b. split; [|exact Hb].
    rewrite <- (Ht a y (or_introl eq_refl) Hy).
    symmetry. apply Ht; [now right | exact Hyb].
Qed.

(** No path is listed twice. *)
Lemma files_below_NoDup :
  forall n pre, well_formed n -> NoDup (map fst (files_below pre n)).
Proof.
  induction n as [c0|es IH] using node_ind'; intros pre Hwf.
  - constructor.
  - destruct (well_formed_dir es Hwf) as [Hnd Hes].
    rewrite Forall_forall in IH, Hes.
    rewrite files_below_dir, map_app, !map_flat_map.
    apply NoDup_app.
    + apply (NoDup_flat_map_tagged (fun p => nth (List.length pre) p "") fst);
        [exact Hnd | |].
      * intros [name x] _. cbn [fst snd].
        destruct x; simpl; [apply NoDup_cons; [intros [] | constructor] | constructor].
      * intros [name x] y _ Hy. cbn [fst snd] in *.
        destruct x; cbn [map fst] in Hy; [destruct Hy as [<-|[]] | destruct Hy].
        rewrite app_nth2 by lia. now rewrite Nat.sub_diag.
    + apply (NoDup_flat_map_tagged (fun p => nth (List.length pre) p "") fst);
        [exact Hnd | |].
      * intros [name x] Hin. cbn [fst snd].
        destruct (Hes _ Hin) as [_ Hx]. apply (IH _ Hin). exact Hx.
      * intros [name x] y Hin Hy. cbn [fst snd] in *.
        apply in_map_iff in Hy. destruct Hy as [[p c] [<- Hy]]. cbn [fst].
        destruct (Hes _ Hin) as [_ Hx]. cbn [snd] in Hx.
        destruct (files_below_valid x (pre ++ [name]) p c Hx Hy) as [q [_ [-> _]]].
        rewrite <- app_assoc. rewrite app_nth2 by lia. now rewrite Nat.sub_diag.
    + intros y Hy Hy'.
      apply in_flat_map in Hy. destruct Hy as [[name x] [_ Hy]].
      apply in_flat_map in Hy'. destruct Hy' as [[name' x'] [Hin' Hy']].
      cbn [fst snd] in *.
      assert (Hlen : List.length y = S (List.length pre)).
      { destruct x; cbn [map fst] in Hy; [destruct Hy as [<-|[]] | destruct Hy].
        rewrite length_app. simpl. lia. }
      apply in_map_iff in Hy'. destruct Hy' as [[p c] [<- Hy']]. cbn [fst] in Hlen.
      destruct (Hes _ Hin') as [_ Hx']. cbn [snd] in Hx'.
      destruct (files_below_valid x' (pre ++ [name']) p c Hx' Hy') as [q [Hq [-> _]]].
      rewrite !length_app in Hlen. simpl in Hlen.
      destruct q; [congruence | simpl in Hlen; lia].
Qed.

(** C8.  For a staging tree as a file system keeps it (valid entry
    names, each once per directory) and whatever the name [path] of
    the staging directory, [create_zip_bundle] writes one entry for
    every regular file below the root and nothing else: the entries
    are, in order, the files found by path below the root, each under
    its relative path written with ["/"] and holding the content of
    the file; no file is written twice, no entry name starts with a
    separator, and directories, empty ones included, get no entry. *)
Theorem C8_create_zip_bundle (path : string) (tree : node) :
  well_formed tree ->
  create_zip_bundle path tree
    = map (fun pc => (relative_name (fst pc), snd pc)) (files_below [] tree)
  /\ (forall p c,
        In (p, c) (files_below [] tree) <->
        p <> [] /\ Fs.lookup p tree = Some (File c))
  /\ NoDup (map fst (files_below [] tree))
  /\ (forall name c,
        In (name, c) (create_zip_bundle path tree) ->
        PyStr.startswith name "/" = false).
Proof.
  intros Hwf.
  pose proof (create_zip_bundle_entries path tree Hwf) as He.
  split; [exact He|]. split; [|split].
  - intros p c. rewrite (files_below_spec tree [] p c Hwf). split.
    + intros [q [Hq [-> Hl]]]. now split.
    + intros [Hp Hl]. now exists p.
  - exact (files_below_NoDup tree [] Hwf).
  - intros name c Hin. rewrite He in Hin.
    apply in_map_iff in Hin. destruct Hin as [[p c'] [E Hin]].
    cbn [fst snd] in E. inversion E; subst.
    destruct (files_below_valid tree [] p c Hwf Hin) as [q [Hq [-> Hv]]].
    cbn [app]. unfold relative_name.
    destruct (concat_valid q Hq Hv) as [_ [_ [ch [s [Ec Hc]]]]].
    rewrite Ec. now apply startswith_sep_other.
Qed.

Lemma sample_tree_well_formed : well_formed sample_tree.
Proof.
  simpl. repeat split; try reflexivity;
    repeat (constructor; [simpl; intuition discriminate|]); constructor.
Defined.

(** A tree with a sub-directory and an empty directory: three files,
    three entries. *)
Lemma C8_create_zip_bundle_witness :
  create_zip_bundle "/tmp/tmpk3v9" sample_tree
    = map (fun pc => (relative_name (fst pc), snd pc)) (files_below [] sample_tree)
  /\ (forall p c,
        In (p, c) (files_below [] sample_tree) <->
        p <> [] /\ Fs.lookup p sample_tree = Some (File c))
  /\ NoDup (map fst (files_below [] sample_tree))
  /\ (forall name c,
        In (name, c) (create_zip_bundle "/tmp/tmpk3v9" sample_tree) ->
        PyStr.startswith name "/" = false).
Proof.
  apply (C8_create_zip_bundle "/tmp/tmpk3v9" sample_tree).
  exact sample_tree_well_formed.
Defined.

Example create_zip_bundle_sample :
  create_zip_bundle "/tmp/tmpk3v9" sample_tree
  = [ ("index.py", Raw "entry");
      ("pkg/__init__.pyc", Raw "bytecode");
      ("pkg/data/table.bin", Raw "0101") ].
Proof. reflexivity. Qed.

(** ** Pruning *)

(** The pruning example of the specification: [a.py] goes, [a.pyc]
    and [b.data] stay. *)
Example prune_example :
  prune_python_files (staged prune_tree)
  = (Return tt,
     staged (Dir [ ("a.pyc", File (Raw "bytecode"));
                   ("b.data", File (Raw "data")) ])).
Proof. reflexivity. Qed.

(** C7: the code misses the claim.  With a [__pycache__] directory
    inside another one the walk collects both; removing the outer one
    takes the inner one with it, and [rmtree] of the inner one, now
    missing, raises.  Pruning stops there: [a.py] is still in the
    staging tree although [a.pyc] is beside it. *)
Theorem C7_nested_cache_directories_stop_pruning :
  let after :=
    staged (Dir [ ("a.py", File (Raw "source"));
                  ("a.pyc", File (Raw "bytecode"));
                  ("b.data", File (Raw "data")) ]) in
  collect_pycache_dirs (Fs.walk Fs.snoc [] nested_cache_tree)
    = [ ["__pycache__"]; ["__pycache__"; "__pycache__"] ] /\
  prune_python_files (staged nested_cache_tree)
    = (Throw (OSError ENOENT ["__pycache__"; "__pycache__"]), after) /\
  Fs.lookup ["a.py"] (staging after) = Some (File (Raw "source")) /\
  Fs.lookup ["a.pyc"] (staging after) = Some (File (Raw "bytecode")).
Proof.
  repeat split; reflexivity.
Qed.

(** ** What the graph walk collects *)

Lemma extend_with_In (f : string -> py (list Distribution)) reqs acc l d :
  extend_with f reqs acc = Return l ->
  (In d l <->
   In d acc \/ exists r l', In r reqs /\ f r = Return l' /\ In d l').
Proof.
  revert acc. induction reqs as [|r rs IH]; intros acc H; simpl in H.
  - inversion H; subst. split; [now left | intros [Hd | [r [l' [[] _]]]]; exact Hd].
  - destruct (f r) as [l0|x] eqn:E; [|discriminate].
    rewrite (IH _ H), in_app_iff. split.
    + intros [[Hd | Hd] | [r' [l' [Hr [Hf Hd]]]]].
      * now left.
      * right. exists r, l0. repeat split; [now left | exact E | exact Hd].
      * right. exists r', l'. repeat split; [now right | exact Hf | exact Hd].
    + intros [Hd | [r' [l' [[<- | Hr] [Hf Hd]]]]].
      * left. now left.
      * left. right. congruence.
      * right. now exists r', l'.
Qed.

Lemma extend_with_each_returns (f : string -> py (list Distribution)) reqs acc l :
  extend_with f reqs acc = Return l ->
  forall r, In r reqs -> exists l', f r = Return l'.
Proof.
  revert acc. induction reqs as [|r0 rs IH]; intros acc H r Hr; [destruct Hr|].
  simpl in H. destruct (f r0) as [l0|x] eqn:E; [|discriminate].
  destruct Hr as [<- | Hr]; [now exists l0 | exact (IH _ H r Hr)].
Qed.

(** X1.  When [find_dependencies] returns, what it returns is the
    transitive closure of the requirements: a distribution is in the
    list exactly when it is the one the working set files under its key
    and that key is the root or is reached from the root through
    [requires()]. *)
Theorem find_dependencies_collects_the_closure
    (e : env) (depth : nat) (k : string) (l : list Distribution) :
  find_dependencies e depth k = Return l ->
  forall d, In d l <-> by_key e (key d) = Some d /\ reachable e k (key d).
Proof.
  revert k l. induction depth as [|depth IH]; intros k l H d; [discriminate|].
  simpl in H. destruct (by_key e k) as [package|] eqn:Ek; [|discriminate].
  destruct (extend_with _ _ _) as [l0|x] eqn:Ex; [|discriminate].
  inversion H; subst l; clear H.
  rewrite nodup_In, (extend_with_In _ _ _ _ d Ex). split.
  - intros [[<- | []] | [r [l' [Hr [Hf Hd]]]]].
    + split; [exact (by_key_self e k package Ek)|].
      rewrite (by_key_key e k package Ek). exact (reachable_root e k package Ek).
    + destruct (proj1 (IH r l' Hf d) Hd) as [Hb Hreach].
      split; [exact Hb|]. exact (reachable_step e k package r _ Ek Hr Hreach).
  - intros [Hb Hreach]. inversion Hreach as [k0 d0 Hk | k0 d0 r k' Hk Hr Hrest]; subst.
    + left. left. congruence.
    + right. assert (d0 = package) by congruence. subst d0.
      destruct (extend_with_each_returns _ _ _ _ Ex r Hr) as [l' Hf].
      exists r, l'. repeat split; [exact Hr | exact Hf|].
      apply (IH r l' Hf d). now split.
Qed.

Lemma find_dependencies_collects_the_closure_witness :
  In (dist "c" "1.0" "/site" [])
     [ dist "app" "0.1" "/site" ["a"; "b"]; dist "a" "1.0" "/site" ["c"];
       dist "b" "1.0" "/site" ["c"]; dist "c" "1.0" "/site" [] ] <->
  by_key diamond_env "c" = Some (dist "c" "1.0" "/site" []) /\
  reachable diamond_env "app" "c".
Proof.
  apply (find_dependencies_collects_the_closure diamond_env 3 "app" _
           ltac:(vm_compute; reflexivity) (dist "c" "1.0" "/site" [])).
Defined.

Lemma fnmatch_chars_cons (c : ascii) (pat' name : string) :
  PyStr.fnmatch_chars (String c pat') name
  = if Ascii.eqb c "*" then star_match (PyStr.fnmatch_chars pat') name
    else if Ascii.eqb c "?" then
      match name with
      | EmptyString => false
      | String _ n' => PyStr.fnmatch_chars pat' n'
      end
    else
      match name with
      | EmptyString => false
      | String d n' => Ascii.eqb c d && PyStr.fnmatch_chars pat' n'
      end.
Proof.
  destruct c as [b0 b1 b2 b3 b4 b5 b6 b7].
  destruct b0, b1, b2, b3, b4, b5, b6, b7; reflexivity.
Qed.

(** A pattern without wildcards matches its own text only. *)
Lemma fnmatch_literal (pat : string) :
  no_wildcard pat = true ->
  forall name, PyStr.fnmatch_chars pat name = String.eqb pat name.
Proof.
  induction pat as [|c pat IH]; intros Hw name.
  - now destruct name.
  - cbn [no_wildcard] in Hw. apply andb_prop in Hw. destruct Hw as [Hc Hw].
    rewrite fnmatch_chars_cons.
    destruct (Ascii.eqb c "*"); [discriminate Hc|].
    destruct (Ascii.eqb c "?"); [discriminate Hc|].
    destruct name as [|d n']; [reflexivity|].
    cbn [String.eqb]. now rewrite (IH Hw).
Qed.

Lemma star_match_suffix (m : string -> bool) (n : string) :
  star_match m n = true ->
  (forall n', m n' = true -> no_slash n' = false) ->
  no_slash n = false.
Proof.
  intros H Hm. induction n as [|d n IH].
  - cbn in H. rewrite orb_false_r in H. exact (Hm _ H).
  - cbn [star_match] in H. apply orb_prop in H. destruct H as [H | H].
    + exact (Hm _ H).
    + cbn [no_slash]. rewrite (IH H). apply andb_false_r.
Qed.

(** A pattern with a separator in it matches only names with a
    separator in them. *)
Lemma fnmatch_separator (pat : string) :
  no_slash pat = false ->
  forall name, PyStr.fnmatch_chars pat name = true -> no_slash name = false.
Proof.
  induction pat as [|c pat IH]; intros Hs name H; [discriminate Hs|].
  cbn [no_slash] in Hs. rewrite fnmatch_chars_cons in H.
  destruct (Ascii.eqb c "*") eqn:E1.
  { apply Ascii.eqb_eq in E1. subst c. change (no_slash pat = false) in Hs.
    exact (star_match_suffix _ _ H (IH Hs)). }
  destruct (Ascii.eqb c "?") eqn:E2.
  { apply Ascii.eqb_eq in E2. subst c. change (no_slash pat = false) in Hs.
    destruct name as [|d n']; [discriminate H|].
    cbn [no_slash]. rewrite (IH Hs _ H). apply andb_false_r. }
  destruct name as [|d n']; [discriminate H|].
  apply andb_prop in H. destruct H as [Hd H].
  apply Ascii.eqb_eq in Hd. subst d. cbn [no_slash].
  destruct (PyStr.is_slash c); [reflexivity|].
  cbn [negb andb] in Hs |- *. exact (IH Hs _ H).
Qed.

(** X10.  For the name of a directory entry (no separator in it) only
    the first two of the six patterns of [IGNORED] can match: the
    ignore function of [copytree] drops an entry exactly when it is
    named [__pycache__] or [.git]. *)
Theorem ignored_entry_names (name : string) :
  no_slash name = true ->
  ignored_name name = (String.eqb name "__pycache__" || String.eqb name ".git")%bool.
Proof.
  intros Hn. unfold ignored_name, IGNORED, PyStr.fnmatch. cbn [existsb].
  rewrite (fnmatch_literal "__pycache__" eq_refl).
  rewrite (fnmatch_literal ".git" eq_refl).
  assert (F : forall pat, no_slash pat = false -> PyStr.fnmatch_chars pat name = false).
  { intros pat Hp. destruct (PyStr.fnmatch_chars pat name) eqn:E; [|reflexivity].
    rewrite (fnmatch_separator pat Hp name E) in Hn. discriminate Hn. }
  rewrite (F "__pycache__/*" eq_refl), (F ".git/*" eq_refl),
    (F "*/__pycache__/*" eq_refl), (F "*/.git/*" eq_refl).
  rewrite !orb_false_r.
  now rewrite (String.eqb_sym name "__pycache__"), (String.eqb_sym name ".git").
Qed.

Lemma ignored_entry_names_witness :
  ignored_name "__pycache__.bak"
  = (String.eqb "__pycache__.bak" "__pycache__" || String.eqb "__pycache__.bak" ".git")%bool.
Proof. apply ignored_entry_names. reflexivity. Defined.

(** ** Directory copies *)

Lemma copy_filtered_dir es :
  copy_filtered (Dir es)
  = Dir (map (fun entry => (fst entry, copy_filtered (snd entry)))
             (filter (fun entry => negb (ignored_name (fst entry))) es)).
Proof.
  cbn [copy_filtered]. f_equal.
  induction es as [|[name x] es IH]; [reflexivity|].
  cbn [filter fst snd]. destruct (ignored_name name); cbn [negb map fst snd];
    now rewrite IH.
Qed.

Lemma find_copy_filtered name es :
  Fs.find name
    (map (fun entry => (fst entry, copy_filtered (snd entry)))
         (filter (fun entry => negb (ignored_name (fst entry))) es))
  = if ignored_name name then None
    else option_map copy_filtered (Fs.find name es).
Proof.
  induction es as [|[n y] es IH]; cbn [filter Fs.find fst snd map].
  - now destruct (ignored_name name).
  - destruct (String.eqb n name) eqn:E.
    + apply String.eqb_eq in E. subst n.
      destruct (ignored_name name) eqn:Ei; cbn [negb].
      * exact IH.
      * cbn [map Fs.find fst snd option_map]. now rewrite String.eqb_refl.
    + destruct (ignored_name n); cbn [negb]; [exact IH|].
      cbn [map Fs.find fst snd]. rewrite E. exact IH.
Qed.

(** What is found at a path of a filtered copy: nothing when a
    component of the path is ignored, the filtered copy of what the
    source has there otherwise. *)
Lemma lookup_copy_filtered (p : Fs.path) :
  forall n,
    Fs.lookup p (copy_filtered n)
    = if existsb ignored_name p then None
      else option_map copy_filtered (Fs.lookup p n).
Proof.
  induction p as [|c p IH]; intros n; [reflexivity|].
  destruct n as [f|es].
  - cbn [copy_filtered Fs.lookup existsb option_map].
    now destruct (ignored_name c || existsb ignored_name p)%bool.
  - rewrite copy_filtered_dir. cbn [Fs.lookup existsb].
    rewrite find_copy_filtered.
    destruct (ignored_name c); cbn [orb]; [reflexivity|].
    destruct (Fs.find c es) as [x|]; cbn [option_map].
    + apply IH.
    + now destruct (existsb ignored_name p).
Qed.

(** A directory copy that succeeds, path by path. *)
Lemma copytree_returns (source destination : Fs.path) (w w' : world) :
  copytree source destination w = (Return tt, w') ->
  Fs.isdir source (host w) = true /\
  Fs.exists_ destination (staging w) = false /\
  forall q,
    Fs.lookup (destination ++ q) (staging w')
    = if existsb ignored_name q then None
      else option_map copy_filtered (Fs.lookup (source ++ q) (host w)).
Proof.
  unfold copytree, Fs.isdir. intros H.
  destruct (Fs.lookup source (host w)) as [[f|es]|] eqn:Es; try discriminate.
  destruct (Fs.exists_ destination (staging w)) eqn:Ex; [discriminate|].
  destruct (Fs.graft _ _ _) as [t|] eqn:Eg; [|discriminate].
  inversion H; subst w'; clear H. cbn [staging set_staging].
  apply graft_lookup in Eg. repeat split.
  intros q. rewrite (lookup_app _ q _ _ Eg), (lookup_app _ q _ _ Es).
  apply lookup_copy_filtered.
Qed.

(** X11.  A directory copy that succeeds had a directory as its source
    and a destination that did not exist; below the destination the
    staging tree then holds the source without the ignored entries:
    nothing at a path with a component named [__pycache__] or [.git]
    (or any other ignored name), and at every other path the file the
    source has there. *)
Theorem copytree_copies_all_but_ignored
    (source destination : Fs.path) (w w' : world) :
  copytree source destination w = (Return tt, w') ->
  Fs.isdir source (host w) = true /\
  Fs.exists_ destination (staging w) = false /\
  (forall q,
     In "__pycache__" q \/ In ".git" q ->
     Fs.lookup (destination ++ q) (staging w') = None) /\
  (forall q c,
     Fs.lookup (destination ++ q) (staging w') = Some (File c) <->
     existsb ignored_name q = false /\
     Fs.lookup (source ++ q) (host w) = Some (File c)).
Proof.
  intros H. destruct (copytree_returns _ _ _ _ H) as [Hs [Hd L]].
  split; [exact Hs|]. split; [exact Hd|]. split.
  - intros q Hq. rewrite L.
    assert (E : existsb ignored_name q = true).
    { apply existsb_exists. destruct Hq as [Hq | Hq];
        [exists "__pycache__" | exists ".git"]; now split. }
    now rewrite E.
  - intros q c. rewrite L. split.
    + intros Hl. destruct (existsb ignored_name q); [discriminate|].
      split; [reflexivity|].
      destruct (Fs.lookup (source ++ q) (host w)) as [[c'|es']|]; try discriminate.
      cbn in Hl. congruence.
    + intros [Hi Hl]. rewrite Hi, Hl. reflexivity.
Qed.

Lemma copytree_copies_all_but_ignored_witness :
  let w := fresh_world app_host in
  let w' := set_staging
              (Dir [("app", Dir [("__init__.py", File (Raw "import foo"))])]) w in
  Fs.isdir ["proj"; "app"] (host w) = true /\
  Fs.exists_ ["app"] (staging w) = false /\
  (forall q,
     In "__pycache__" q \/ In ".git" q ->
     Fs.lookup (["app"] ++ q) (staging w') = None) /\
  (forall q c,
     Fs.lookup (["app"] ++ q) (staging w') = Some (File c) <->
     existsb ignored_name q = false /\
     Fs.lookup (["proj"; "app"] ++ q) (host w) = Some (File c)).
Proof.
  apply (copytree_copies_all_but_ignored ["proj"; "app"] ["app"]).
  vm_compute. reflexivity.
Defined.

(** ** What the legacy-bundle filter never keeps *)

Lemma star_match_here (m : string -> bool) (n : string) :
  m n = true -> star_match m n = true.
Proof. intros H. destruct n; cbn [star_match]; now rewrite H. Qed.

Lemma star_match_app (m : string -> bool) (a n : string) :
  star_match m n = true -> star_match m (a ++ n)%string = true.
Proof.
  intros H. induction a as [|ch a IH]; [exact H|].
  cbn [append star_match]. rewrite IH. apply orb_true_r.
Qed.

Lemma star_match_end (n : string) :
  star_match (PyStr.fnmatch_chars "") n = true.
Proof.
  induction n as [|ch n IH]; [reflexivity|].
  cbn [star_match]. rewrite IH. apply orb_true_r.
Qed.

Lemma fnmatch_literal_prefix (lit pat n : string) :
  no_wildcard lit = true ->
  PyStr.fnmatch_chars (lit ++ pat)%string (lit ++ n)%string = PyStr.fnmatch_chars pat n.
Proof.
  intros Hw. induction lit as [|c lit IH]; [reflexivity|].
  cbn [no_wildcard] in Hw. apply andb_prop in Hw. destruct Hw as [Hc Hw].
  cbn [append]. rewrite fnmatch_chars_cons.
  destruct (Ascii.eqb c "*"); [discriminate Hc|].
  destruct (Ascii.eqb c "?"); [discriminate Hc|].
  rewrite Ascii.eqb_refl. exact (IH Hw).
Qed.

Lemma fnmatch_below (dir b : string) :
  no_wildcard dir = true ->
  PyStr.fnmatch (dir ++ b)%string (dir ++ "*")%string = true.
Proof.
  intros Hw. unfold PyStr.fnmatch. rewrite (fnmatch_literal_prefix dir "*" b Hw).
  rewrite fnmatch_chars_cons. cbn [Ascii.eqb Bool.eqb].
  apply star_match_end.
Qed.

Lemma fnmatch_inside (dir a b : string) :
  no_wildcard dir = true ->
  PyStr.fnmatch (a ++ dir ++ b)%string ("*" ++ dir ++ "*")%string = true.
Proof.
  intros Hw. unfold PyStr.fnmatch. cbn [append].
  rewrite fnmatch_chars_cons. cbn [Ascii.eqb Bool.eqb].
  apply star_match_app, star_match_here.
  exact (fnmatch_below dir b Hw).
Qed.

(** X13.  The legacy-bundle filter never keeps a member below a
    [__pycache__] or [.git] directory, at whatever depth: wherever
    ["/__pycache__/"] or ["/.git/"] occurs in a member name, or the
    name starts with ["__pycache__/"] or [".git/"], the name is not
    among the names to extract. *)
Theorem egg_filter_drops_ignored_directories
    (maybe_names_to_copy : list string) (a b : string) :
  ~ In (a ++ "/__pycache__/" ++ b)%string (egg_names_to_copy maybe_names_to_copy) /\
  ~ In (a ++ "/.git/" ++ b)%string (egg_names_to_copy maybe_names_to_copy) /\
  ~ In ("__pycache__/" ++ b)%string (egg_names_to_copy maybe_names_to_copy) /\
  ~ In (".git/" ++ b)%string (egg_names_to_copy maybe_names_to_copy).
Proof.
  assert (G : forall name,
            existsb (PyStr.fnmatch name) IGNORED = true ->
            ~ In name (egg_names_to_copy maybe_names_to_copy)).
  { intros name Hi Hin. apply egg_names_to_copy_spec in Hin.
    destruct Hin as [_ [Hn _]]. congruence. }
  repeat split; apply G; apply existsb_exists.
  - exists "*/__pycache__/*". split; [unfold IGNORED; auto 8 using in_eq, in_cons|].
    exact (fnmatch_inside "/__pycache__/" a b eq_refl).
  - exists "*/.git/*". split; [unfold IGNORED; auto 8 using in_eq, in_cons|].
    exact (fnmatch_inside "/.git/" a b eq_refl).
  - exists "__pycache__/*". split; [unfold IGNORED; auto 8 using in_eq, in_cons|].
    exact (fnmatch_below "__pycache__/" b eq_refl).
  - exists ".git/*". split; [unfold IGNORED; auto 8 using in_eq, in_cons|].
    exact (fnmatch_below ".git/" b eq_refl).
Qed.

(** ** Paths below paths *)

Lemma is_prefix_iff (p q : Fs.path) :
  is_prefix p q = true <-> exists r, q = p ++ r.
Proof.
  revert q. induction p as [|c p IH]; intros q; cbn [is_prefix].
  - split; [intros _; now exists q | reflexivity].
  - destruct q as [|d q].
    + split; [discriminate | intros [r H]; discriminate H].
    + rewrite andb_true_iff, String.eqb_eq, IH. split.
      * intros [-> [r ->]]. now exists r.
      * intros [r H]. inversion H; subst. split; [reflexivity | now exists r].
Qed.

Lemma is_prefix_refl (p : Fs.path) : is_prefix p p = true.
Proof. apply is_prefix_iff. exists []. now rewrite app_nil_r. Qed.

(** What is below a path that holds something lies below a
    directory, unless it is the path itself. *)
Lemma lookup_prefix (p r : Fs.path) (t y : node) :
  Fs.lookup (p ++ r) t = Some y ->
  exists z, Fs.lookup p t = Some z /\ (r <> [] -> exists es, z = Dir es).
Proof.
  revert t. induction p as [|c p IH]; intros t H.
  - exists t. split; [reflexivity|]. intros Hr.
    destruct r as [|d r]; [congruence|]. cbn [app Fs.lookup] in H.
    destruct t as [f|es]; [discriminate | now exists es].
  - cbn [app Fs.lookup] in H |- *. destruct t as [f|es]; [discriminate|].
    destruct (Fs.find c es) as [x|]; [now apply IH | discriminate].
Qed.

(** ** Grafting leaves the other files alone *)

Lemma graft_other_files (p : Fs.path) (x : node) :
  forall t t' q c,
    Fs.graft p x t = Some t' -> is_prefix p q = false ->
    (Fs.lookup q t' = Some (File c) <-> Fs.lookup q t = Some (File c)).
Proof.
  induction p as [|a p IH]; intros t t' q c Hg Hq; [discriminate Hq|].
  destruct t as [f|es]; [discriminate Hg|].
  rewrite graft_cons in Hg.
  destruct (Fs.graft p x _) as [child'|] eqn:Eg; [|discriminate].
  inversion Hg; subst t'; clear Hg.
  destruct q as [|b q]; [split; discriminate|].
  cbn [is_prefix] in Hq. cbn [Fs.lookup].
  destruct (String.eqb a b) eqn:Eab.
  - apply String.eqb_eq in Eab. subst b. cbn [andb] in Hq.
    rewrite find_put_same. rewrite (IH _ _ q c Eg Hq).
    destruct (Fs.find a es) as [y|]; [reflexivity|].
    destruct q; split; discriminate.
  - apply String.eqb_neq in Eab. now rewrite (find_put_other a b _ _ Eab).
Qed.

(** ** The shim *)

(** X16.  [insert_shim] succeeds exactly when [index.py] is not a
    directory of the staging tree; it then leaves the entry text in
    [index.py], and every other file of the staging tree, the private
    cache and the host as they were. *)
Theorem insert_shim_touches_index_py_only (entry : string) (w : world) :
  Fs.is_dir_node (staging w) = true ->
  if Fs.isdir ["index.py"] (staging w)
  then insert_shim entry w = (Throw (OSError EISDIR ["index.py"]), w)
  else exists t,
      insert_shim entry w = (Return tt, set_staging t w) /\
      Fs.lookup ["index.py"] t = Some (File (Raw entry)) /\
      forall q c,
        is_prefix ["index.py"] q = false ->
        (Fs.lookup q t = Some (File c) <-> Fs.lookup q (staging w) = Some (File c)).
Proof.
  intros Hd. unfold insert_shim, on_staging, open_w, Fs.isdir.
  cbn [removelast Fs.lookup].
  destruct (staging w) as [f|es] eqn:Es; [discriminate Hd|].
  assert (G : exists t, Fs.graft ["index.py"] (File (Raw entry)) (Dir es) = Some t)
    by (rewrite graft_cons; cbn [Fs.graft]; eauto).
  destruct G as [t Ht].
  destruct (Fs.find "index.py" es) as [[c|es']|] eqn:Ef;
    [ | reflexivity | ]; rewrite Ht; exists t;
    (split; [reflexivity|]; split; [exact (graft_lookup _ _ _ _ Ht)|];
     intros q c0 Hq; exact (graft_other_files _ _ _ _ q c0 Ht Hq)).
Qed.

Lemma insert_shim_touches_index_py_only_witness :
  exists t,
    insert_shim "import app" (staged sample_tree)
    = (Return tt, set_staging t (staged sample_tree)) /\
    Fs.lookup ["index.py"] t = Some (File (Raw "import app")) /\
    forall q c,
      is_prefix ["index.py"] q = false ->
      (Fs.lookup q t = Some (File c) <->
       Fs.lookup q (staging (staged sample_tree)) = Some (File c)).
Proof.
  exact (insert_shim_touches_index_py_only "import app" (staged sample_tree) eq_refl).
Defined.

(** ** Extraction *)

Lemma for_each_app {A} (body : A -> M unit) (xs ys : list A) w w' :
  for_each body (xs ++ ys) w = (Return tt, w') <->
  exists w1, for_each body xs w = (Return tt, w1) /\
             for_each body ys w1 = (Return tt, w').
Proof.
  revert w. induction xs as [|x xs IH]; intros w; cbn [app for_each].
  - split; [intros H; now exists w | intros [w1 [H1 H2]]].
    unfold ret in H1. inversion H1; subst. exact H2.
  - unfold bind at 1. split.
    + intros H. destruct (body x w) as [[[]|e] w0] eqn:E; [|discriminate].
      apply IH in H. destruct H as [w1 [H1 H2]]. exists w1. split; [|exact H2].
      unfold bind. now rewrite E.
    + intros [w1 [H1 H2]]. unfold bind in H1.
      destruct (body x w) as [[[]|e] w0] eqn:E; [|discriminate].
      apply IH. now exists w1.
Qed.

(** Extracting a member leaves every file at another path as it was. *)
Lemma extract_member_other_files dest name c t t' q c' :
  extract_member dest name c t = Return t' ->
  q <> dest ++ member_components name ->
  Fs.lookup q t = Some (File c') -> Fs.lookup q t' = Some (File c').
Proof.
  unfold extract_member. set (target := dest ++ member_components name).
  intros H Hq Hl.
  assert (P : (forall es, Fs.lookup target t <> Some (Dir es)) ->
              is_prefix target q = false).
  { intros Hnd. destruct (is_prefix target q) eqn:E; [|reflexivity].
    apply is_prefix_iff in E. destruct E as [r E]. subst q.
    destruct (lookup_prefix target r t _ Hl) as [z [Hz Hr]].
    destruct r as [|d r]; [now rewrite app_nil_r in Hq|].
    destruct (Hr ltac:(discriminate)) as [es ->]. now destruct (Hnd es). }
  destruct (PyStr.endswith name "/").
  - destruct (Fs.lookup target t) as [[f|es]|] eqn:El; try discriminate.
    + inversion H; subst. exact Hl.
    + destruct (Fs.graft target (Dir []) t) as [t0|] eqn:Eg; [|discriminate].
      inversion H; subst t0.
      apply (graft_other_files _ _ _ _ q c' Eg); [apply P; discriminate | exact Hl].
  - destruct (Fs.lookup target t) as [[f|es]|] eqn:El; try discriminate;
      destruct (Fs.graft target (File c) t) as [t0|] eqn:Eg; try discriminate;
      inversion H; subst t0;
      (apply (graft_other_files _ _ _ _ q c' Eg); [apply P; discriminate | exact Hl]).
Qed.

Lemma extractall_other_files ms dest q c' :
  forall w w',
    extractall ms dest w = (Return tt, w') ->
    (forall m, In m ms -> q <> dest ++ member_components (fst m)) ->
    Fs.lookup q (staging w) = Some (File c') ->
    Fs.lookup q (staging w') = Some (File c').
Proof.
  unfold extractall. induction ms as [|[name c] ms IH]; intros w w' H Hq Hl.
  - inversion H; subst. exact Hl.
  - cbn [for_each] in H. apply bind_returns in H. destruct H as [[] [w1 [H1 H2]]].
    apply (IH w1 w' H2); [intros m Hm; apply Hq; now right|].
    unfold on_staging in H1. cbn [fst snd] in H1.
    destruct (extract_member dest name c (staging w)) as [t|x] eqn:E;
      inversion H1; subst w1. cbn [staging set_staging].
    apply (extract_member_other_files _ _ _ _ _ q c' E); [|exact Hl].
    apply (Hq (name, c)). now left.
Qed.

(** X14.  [extractall] that succeeds leaves every file member at its
    normalised path below the target directory with the content of the
    last member that names this path, and leaves every file of the
    staging tree that no member names as it was. *)
Theorem extractall_writes_every_member
    (ms : list (string * content)) (dest : Fs.path) (w w' : world) :
  extractall ms dest w = (Return tt, w') ->
  (forall before name c after,
     ms = before ++ (name, c) :: after ->
     PyStr.endswith name "/" = false ->
     (forall m, In m after -> member_components (fst m) <> member_components name) ->
     Fs.lookup (dest ++ member_components name) (staging w') = Some (File c)) /\
  (forall q c,
     (forall m, In m ms -> q <> dest ++ member_components (fst m)) ->
     Fs.lookup q (staging w) = Some (File c) ->
     Fs.lookup q (staging w') = Some (File c)).
Proof.
  intros H. split.
  - intros before name c after -> Hf Hlast.
    unfold extractall in H. apply for_each_app in H. destruct H as [w1 [_ H]].
    cbn [for_each] in H. apply bind_returns in H. destruct H as [[] [w2 [H2 H3]]].
    apply (extractall_other_files after dest _ c w2 w' H3).
    + intros m Hm E. apply app_inv_head in E. exact (Hlast m Hm (eq_sym E)).
    + unfold on_staging in H2. cbn [fst snd] in H2.
      destruct (extract_member dest name c (staging w1)) as [t|x] eqn:E;
        inversion H2; subst w2. cbn [staging set_staging].
      unfold extract_member in E. rewrite Hf in E.
      destruct (Fs.lookup _ (staging w1)) as [[f|es]|]; try discriminate;
        destruct (Fs.graft _ _ (staging w1)) as [t0|] eqn:Eg; try discriminate;
        inversion E; subst t0; exact (graft_lookup _ _ _ _ Eg).
  - intros q c Hq Hl. exact (extractall_other_files ms dest q c w w' H Hq Hl).
Qed.

Lemma extractall_writes_every_member_witness :
  let ms := [ ("foo/__init__.py", Raw "x = 1"); ("foo/__init__.py", Raw "x = 2") ] in
  let w' := set_staging (Dir [("foo", Dir [("__init__.py", File (Raw "x = 2"))])])
                        (fresh_world (Dir [])) in
  (forall before name c after,
     ms = before ++ (name, c) :: after ->
     PyStr.endswith name "/" = false ->
     (forall m, In m after -> member_components (fst m) <> member_components name) ->
     Fs.lookup ([] ++ member_components name) (staging w') = Some (File c)) /\
  (forall q c,
     (forall m, In m ms -> q <> [] ++ member_components (fst m)) ->
     Fs.lookup q (staging (fresh_world (Dir []))) = Some (File c) ->
     Fs.lookup q (staging w') = Some (File c)).
Proof.
  apply (extractall_writes_every_member
           [ ("foo/__init__.py", Raw "x = 1"); ("foo/__init__.py", Raw "x = 2") ]
           [] (fresh_world (Dir []))).
  vm_compute. reflexivity.
Defined.

(** ** Suffixes *)

Lemma drop_split (n : nat) (s : string) :
  exists a, s = (a ++ PyStr.drop n s)%string.
Proof.
  revert s. induction n as [|n IH]; intros s.
  - now exists "".
  - destruct s as [|ch s]; [now exists ""|].
    destruct (IH s) as [a Ha]. exists (String ch a). cbn [PyStr.drop append].
    now rewrite <- Ha.
Qed.

Lemma endswith_inv (s suf : string) :
  PyStr.endswith s suf = true -> exists a, s = (a ++ suf)%string.
Proof.
  unfold PyStr.endswith. destruct (Nat.leb _ _); [|discriminate].
  intros H. apply String.eqb_eq in H.
  destruct (drop_split (String.length s - String.length suf) s) as [a Ha].
  exists a. now rewrite H in Ha.
Qed.

Lemma endswith_app_r (a b : string) : PyStr.endswith (a ++ b) b = true.
Proof.
  unfold PyStr.endswith. rewrite string_length_app.
  replace (Nat.leb (String.length b) (String.length a + String.length b)) with true
    by (symmetry; apply Nat.leb_le; lia).
  replace (String.length a + String.length b - String.length b)
    with (String.length a) by lia.
  rewrite drop_app. apply String.eqb_refl.
Qed.

Lemma endswith_one_char (s : string) (c d : ascii) :
  PyStr.endswith s (String c "") = true ->
  PyStr.endswith s (String d "") = true -> c = d.
Proof.
  unfold PyStr.endswith. cbn [String.length].
  destruct (Nat.leb 1 (String.length s)); [|discriminate].
  intros H1 H2. apply String.eqb_eq in H1, H2. congruence.
Qed.

(** The name of a compiled file is not the name of a source file. *)
Lemma pyc_name_not_py (x : string) : PyStr.endswith (x ++ "c") ".py" = false.
Proof.
  destruct (PyStr.endswith (x ++ "c") ".py") eqn:E; [|reflexivity].
  apply endswith_inv in E. destruct E as [a E].
  pose proof (endswith_app_r x "c") as H1.
  pose proof (endswith_app_r (a ++ ".p") "y") as H2.
  rewrite string_app_assoc in H2. change (".p" ++ "y")%string with ".py" in H2.
  rewrite <- E in H2.
  discriminate (endswith_one_char _ _ _ H1 H2).
Qed.

Lemma pyc_name_not_cache (x : string) : (x ++ "c")%string <> "__pycache__".
Proof.
  intros E. pose proof (endswith_app_r x "c") as H1. rewrite E in H1.
  discriminate H1.
Qed.

(** ** Removing entries *)

Lemma remove_below (p : Fs.path) :
  forall q t, p <> [] -> is_prefix p q = true -> Fs.lookup q (Fs.remove p t) = None.
Proof.
  induction p as [|c p IH]; intros q t Hp Hq; [congruence|].
  destruct q as [|d q]; [discriminate Hq|].
  cbn [is_prefix] in Hq. apply andb_prop in Hq. destruct Hq as [Hc Hq].
  apply String.eqb_eq in Hc. subst d.
  destruct t as [f|es]; [reflexivity|].
  cbn [Fs.remove]. destruct p as [|c' p].
  - cbn [Fs.lookup]. now rewrite find_del_same.
  - destruct (Fs.find c es) as [child|] eqn:Ef.
    + cbn [Fs.lookup]. rewrite find_put_same. apply IH; [discriminate | exact Hq].
    + cbn [Fs.lookup]. now rewrite Ef.
Qed.

Lemma remove_other (p : Fs.path) :
  forall q t, is_prefix p q = false -> shape (Fs.remove p t) q = shape t q.
Proof.
  unfold shape. induction p as [|c p IH]; intros q t Hq; [discriminate Hq|].
  destruct t as [f|es]; [reflexivity|].
  cbn [Fs.remove]. destruct q as [|d q].
  - destruct p as [|c' p]; [reflexivity|]. now destruct (Fs.find c es).
  - cbn [is_prefix] in Hq. destruct p as [|c' p].
    + cbn [Fs.lookup]. destruct (String.eqb c d) eqn:E; [discriminate Hq|].
      apply String.eqb_neq in E. now rewrite (find_del_other c d es E).
    + destruct (Fs.find c es) as [child|] eqn:Ef; [|reflexivity].
      cbn [Fs.lookup]. destruct (String.eqb c d) eqn:E.
      * apply String.eqb_eq in E. subst d. cbn [andb] in Hq.
        rewrite find_put_same, Ef. exact (IH q child Hq).
      * apply String.eqb_neq in E. now rewrite (find_put_other c d _ es E).
Qed.

Lemma isdir_shape t q :
  Fs.isdir q t = match shape t q with Some None => true | _ => false end.
Proof. unfold Fs.isdir, shape. now destruct (Fs.lookup q t) as [[c|es]|]. Qed.

Lemma isfile_shape t q :
  Fs.isfile q t = match shape t q with Some (Some _) => true | _ => false end.
Proof. unfold Fs.isfile, shape. now destruct (Fs.lookup q t) as [[c|es]|]. Qed.

Lemma exists_shape t q :
  Fs.exists_ q t = match shape t q with Some _ => true | None => false end.
Proof. unfold Fs.exists_, shape. now destruct (Fs.lookup q t) as [[c|es]|]. Qed.

Lemma shape_file t q c :
  shape t q = Some (Some c) <-> Fs.lookup q t = Some (File c).
Proof.
  unfold shape. destruct (Fs.lookup q t) as [[c'|es]|]; split; congruence.
Qed.

(** ** Trees without nested bytecode caches *)

Lemma cache_free_dir es :
  cache_free (Dir es)
  = forallb (fun entry =>
               negb (String.eqb (fst entry) "__pycache__" && Fs.is_dir_node (snd entry))
               && cache_free (snd entry)) es.
Proof.
  cbn [cache_free]. induction es as [|[name x] es IH]; [reflexivity|].
  cbn [forallb fst snd]. now rewrite IH.
Qed.

Lemma caches_flat_dir es :
  caches_flat (Dir es)
  = forallb (fun entry =>
               if String.eqb (fst entry) "__pycache__"
               then cache_free (snd entry) else caches_flat (snd entry)) es.
Proof.
  cbn [caches_flat]. induction es as [|[name x] es IH]; [reflexivity|].
  cbn [forallb fst snd]. now rewrite IH.
Qed.

Lemma cache_free_lookup (q : Fs.path) :
  forall n es,
    cache_free n = true -> Fs.lookup (q ++ ["__pycache__"]) n <> Some (Dir es).
Proof.
  induction q as [|c q IH]; intros n es Hn H; cbn [app Fs.lookup] in H;
    (destruct n as [f|es0]; [discriminate H|]);
    rewrite cache_free_dir, forallb_forall in Hn;
    destruct (Fs.find _ es0) as [x|] eqn:Ef; try discriminate H;
    apply find_Some_In in Ef; specialize (Hn _ Ef); cbn [fst snd] in Hn;
    apply andb_prop in Hn; destruct Hn as [Hc Hx].
  - inversion H; subst x. discriminate Hc.
  - exact (IH x es Hx H).
Qed.

Lemma caches_flat_lookup (p : Fs.path) :
  forall n q es,
    caches_flat n = true ->
    Fs.lookup (p ++ "__pycache__" :: q ++ ["__pycache__"]) n <> Some (Dir es).
Proof.
  induction p as [|c p IH]; intros n q es Hn H; cbn [app Fs.lookup] in H;
    (destruct n as [f|es0]; [discriminate H|]);
    rewrite caches_flat_dir, forallb_forall in Hn;
    destruct (Fs.find _ es0) as [x|] eqn:Ef; try discriminate H;
    apply find_Some_In in Ef; specialize (Hn _ Ef); cbn [fst snd] in Hn.
  - exact (cache_free_lookup q x es Hn H).
  - destruct (String.eqb c "__pycache__").
    + change (p ++ "__pycache__" :: q ++ ["__pycache__"])
        with (p ++ ("__pycache__" :: q) ++ ["__pycache__"]) in H.
      rewrite app_assoc in H. exact (cache_free_lookup _ x es Hn H).
    + exact (IH x q es Hn H).
Qed.

(** ** The two lists of the walk *)

Lemma filter_flat_map {A B} (P : B -> bool) (f : A -> list B) (l : list A) :
  filter P (flat_map f l) = flat_map (fun a => filter P (f a)) l.
Proof.
  induction l as [|a l IH]; [reflexivity|].
  cbn [flat_map]. now rewrite filter_app, IH.
Qed.

(** The files a walk selects by name are the selected files of
    [files_below], in the same order. *)
Lemma walk_files_files_below (keep : string -> bool) :
  forall n pre,
    flat_map
      (fun triple : Fs.path * list string * list string =>
         let '(root, _, files) := triple in
         map (Fs.snoc root) (filter keep files))
      (Fs.walk Fs.snoc pre n)
    = map fst (filter (fun pc => keep (last (fst pc) "")) (files_below pre n)).
Proof.
  induction n as [c0|es IH] using node_ind'; intros pre; [reflexivity|].
  rewrite Forall_forall in IH.
  rewrite walk_dir, files_below_dir.
  cbn [flat_map]. rewrite filter_app, map_app. f_equal.
  - clear IH. induction es as [|[name x] es IHes]; [reflexivity|].
    unfold Fs.filenames in *. cbn [filter flat_map fst snd].
    destruct x as [c|es']; cbn [Fs.is_dir_node negb app filter fst snd map].
    + rewrite last_last.
      destruct (keep name); cbn [map fst]; rewrite IHes; reflexivity.
    + exact IHes.
  - rewrite flat_map_nested, filter_flat_map, map_flat_map.
    apply flat_map_ext_in. intros [name x] Hin. cbn [fst snd].
    exact (IH _ Hin (pre ++ [name])).
Qed.

Lemma collect_py_files_files_below (n : node) (pre : Fs.path) :
  collect_py_files (Fs.walk Fs.snoc pre n)
  = map fst (filter (fun pc => PyStr.endswith (last (fst pc) "") ".py")
                    (files_below pre n)).
Proof. exact (walk_files_files_below (fun file => PyStr.endswith file ".py") n pre). Qed.

Lemma collect_py_files_spec (t : node) (f : Fs.path) :
  well_formed t ->
  (In f (collect_py_files (Fs.walk Fs.snoc [] t)) <->
   f <> [] /\ PyStr.endswith (last f "") ".py" = true /\
   exists c, Fs.lookup f t = Some (File c)).
Proof.
  intros Hwf. rewrite collect_py_files_files_below, in_map_iff. split.
  - intros [[p c] [E Hin]]. cbn [fst] in E. subst p.
    apply filter_In in Hin. destruct Hin as [Hin Hpy]. cbn [fst] in Hpy.
    apply (files_below_spec t [] f c Hwf) in Hin.
    destruct Hin as [q [Hq [E Hl]]]. cbn [app] in E. subst q.
    repeat split; [exact Hq | exact Hpy | now exists c].
  - intros [Hf [Hpy [c Hl]]]. exists (f, c). split; [reflexivity|].
    apply filter_In. split; [|exact Hpy].
    apply (files_below_spec t [] f c Hwf). now exists f.
Qed.

Lemma NoDup_map_filter {A B} (g : A -> B) (P : A -> bool) (l : list A) :
  NoDup (map g l) -> NoDup (map g (filter P l)).
Proof.
  induction l as [|a l IH]; intros H; [constructor|].
  cbn [map] in H. inversion H as [|? ? Hn Hnd]; subst.
  cbn [filter]. destruct (P a); [|exact (IH Hnd)].
  cbn [map]. constructor; [|exact (IH Hnd)].
  intros Hin. apply Hn. apply in_map_iff in Hin. destruct Hin as [b [E Hb]].
  apply filter_In in Hb. apply in_map_iff. exists b. now split.
Qed.

Lemma collect_py_files_NoDup (t : node) :
  well_formed t -> NoDup (collect_py_files (Fs.walk Fs.snoc [] t)).
Proof.
  intros Hwf. rewrite collect_py_files_files_below.
  apply NoDup_map_filter. exact (files_below_NoDup t [] Hwf).
Qed.

Lemma collect_pycache_dirs_dir pre es :
  collect_pycache_dirs (Fs.walk Fs.snoc pre (Dir es))
  = map (Fs.snoc pre)
        (filter (fun folder => String.eqb folder "__pycache__") (Fs.dirnames es))
    ++ flat_map (fun entry =>
                   collect_pycache_dirs
                     (Fs.walk Fs.snoc (pre ++ [fst entry]) (snd entry))) es.
Proof.
  rewrite walk_dir. unfold collect_pycache_dirs at 1. cbn [flat_map].
  f_equal. now rewrite flat_map_nested.
Qed.

Lemma in_dirnames name es :
  In name (Fs.dirnames es) <-> exists es', In (name, Dir es') es.
Proof.
  unfold Fs.dirnames. rewrite in_map_iff. split.
  - intros [[n x] [E Hin]]. cbn [fst] in E. subst n.
    apply filter_In in Hin. destruct Hin as [Hin Hd]. cbn [snd] in Hd.
    destruct x as [c|es']; [discriminate Hd | now exists es'].
  - intros [es' Hin]. exists (name, Dir es'). split; [reflexivity|].
    apply filter_In. now split.
Qed.

Lemma collect_pycache_dirs_spec :
  forall n pre d,
    well_formed n ->
    (In d (collect_pycache_dirs (Fs.walk Fs.snoc pre n)) <->
     exists q es, d = pre ++ q ++ ["__pycache__"] /\
                  Fs.lookup (q ++ ["__pycache__"]) n = Some (Dir es)).
Proof.
  induction n as [c0|es IH] using node_ind'; intros pre d Hwf.
  - split; [intros [] | intros [q [es [_ H]]]].
    destruct q; discriminate H.
  - destruct (well_formed_dir es Hwf) as [Hnd Hes].
    rewrite Forall_forall in IH, Hes.
    rewrite collect_pycache_dirs_dir, in_app_iff, in_map_iff, in_flat_map. split.
    + intros [[folder [E Hin]] | [[name x] [Hin H]]].
      * apply filter_In in Hin. destruct Hin as [Hin Hc].
        apply String.eqb_eq in Hc. subst folder.
        apply in_dirnames in Hin. destruct Hin as [es' Hin].
        exists [], es'. split; [now subst d|].
        cbn [app Fs.lookup]. now rewrite (find_In _ _ es Hnd Hin).
      * cbn [fst snd] in H. destruct (Hes _ Hin) as [_ Hx]. cbn [snd] in Hx.
        apply (IH _ Hin (pre ++ [name]) d Hx) in H.
        destruct H as [q [es' [E Hl]]].
        exists (name :: q), es'. split; [now rewrite E, <- app_assoc|].
        cbn [app Fs.lookup]. now rewrite (find_In _ _ es Hnd Hin).
    + intros [q [es' [E Hl]]]. destruct q as [|name q].
      * left. exists "__pycache__". split; [now subst d|].
        apply filter_In. split; [|reflexivity].
        cbn [app Fs.lookup] in Hl.
        destruct (Fs.find "__pycache__" es) as [x|] eqn:Ef; [|discriminate].
        inversion Hl; subst x. apply find_Some_In in Ef.
        apply in_dirnames. now exists es'.
      * right. cbn [app Fs.lookup] in Hl.
        destruct (Fs.find name es) as [x|] eqn:Ef; [|discriminate].
        apply find_Some_In in Ef. exists (name, x). split; [exact Ef|].
        cbn [fst snd]. destruct (Hes _ Ef) as [_ Hx]. cbn [snd] in Hx.
        apply (IH _ Ef (pre ++ [name]) d Hx).
        exists q, es'. split; [|exact Hl]. now rewrite E, <- app_assoc.
Qed.

Lemma NoDup_filter {A} (P : A -> bool) (l : list A) :
  NoDup l -> NoDup (filter P l).
Proof.
  induction l as [|a l IH]; intros H; [constructor|].
  inversion H as [|? ? Hn Hnd]; subst. cbn [filter].
  destruct (P a); [|exact (IH Hnd)].
  constructor; [|exact (IH Hnd)].
  intros Hin. apply filter_In in Hin. now destruct Hin.
Qed.

Lemma NoDup_map_injective {A B} (g : A -> B) (l : list A) :
  (forall a b, g a = g b -> a = b) -> NoDup l -> NoDup (map g l).
Proof.
  intros Hg. induction l as [|a l IH]; intros H; [constructor|].
  inversion H as [|? ? Hn Hnd]; subst. cbn [map].
  constructor; [|exact (IH Hnd)].
  intros Hin. apply in_map_iff in Hin. destruct Hin as [b [E Hb]].
  apply Hg in E. now subst b.
Qed.

Lemma NoDup_dirnames es : NoDup (map fst es) -> NoDup (Fs.dirnames es).
Proof. unfold Fs.dirnames. apply NoDup_map_filter. Qed.

Lemma collect_pycache_dirs_NoDup :
  forall n pre, well_formed n -> NoDup (collect_pycache_dirs (Fs.walk Fs.snoc pre n)).
Proof.
  induction n as [c0|es IH] using node_ind'; intros pre Hwf.
  - constructor.
  - destruct (well_formed_dir es Hwf) as [Hnd Hes].
    rewrite Forall_forall in IH, Hes.
    rewrite collect_pycache_dirs_dir. apply NoDup_app.
    + apply NoDup_map_injective.
      * intros a b E. unfold Fs.snoc in E. apply app_inv_head in E. congruence.
      * apply NoDup_filter, NoDup_dirnames, Hnd.
    + apply (NoDup_flat_map_tagged (fun p => nth (List.length pre) p "") fst);
        [exact Hnd | |].
      * intros [name x] Hin. cbn [fst snd].
        destruct (Hes _ Hin) as [_ Hx]. apply (IH _ Hin). exact Hx.
      * intros [name x] y Hin Hy. cbn [fst snd] in *.
        destruct (Hes _ Hin) as [_ Hx]. cbn [snd] in Hx.
        apply (collect_pycache_dirs_spec x (pre ++ [name]) y Hx) in Hy.
        destruct Hy as [q [es' [-> _]]].
        rewrite <- app_assoc. rewrite app_nth2 by lia. now rewrite Nat.sub_diag.
    + intros y Hy Hy'.
      apply in_map_iff in Hy. destruct Hy as [folder [<- _]].
      apply in_flat_map in Hy'. destruct Hy' as [[name x] [Hin Hy']].
      cbn [fst snd] in Hy'.
      destruct (Hes _ Hin) as [_ Hx]. cbn [snd] in Hx.
      apply (collect_pycache_dirs_spec x (pre ++ [name]) _ Hx) in Hy'.
      destruct Hy' as [q [es' [E _]]]. unfold Fs.snoc in E.
      rewrite <- app_assoc in E. apply app_inv_head in E.
      cbn [app] in E. inversion E as [[E1 E2]]. now destruct q.
Qed.

(** ** The two loops of the pruning *)

Lemma set_staging_same (w : world) : set_staging (staging w) w = w.
Proof. now destruct w. Qed.

Lemma existsb_ext_in {A} (f g : A -> bool) (l : list A) :
  (forall a, In a l -> f a = g a) -> existsb f l = existsb g l.
Proof.
  induction l as [|a l IH]; intros H; [reflexivity|].
  cbn [existsb]. rewrite (H a) by now left.
  f_equal. apply IH. intros b Hb. apply H. now right.
Qed.

Lemma rmtree_loop (D : list Fs.path) :
  forall w,
    NoDup D ->
    (forall d, In d D -> d <> []) ->
    (forall d, In d D -> Fs.isdir d (staging w) = true) ->
    (forall d d', In d D -> In d' D -> d <> d' -> is_prefix d d' = false) ->
    exists t',
      for_each (fun pycache_path => on_staging (rmtree pycache_path)) D w
      = (Return tt, set_staging t' w) /\
      forall q, shape t' q
                = if existsb (fun d => is_prefix d q) D then None
                  else shape (staging w) q.
Proof.
  induction D as [|d D IH]; intros w Hnd Hne Hdir Hpre.
  - exists (staging w). split; [now rewrite set_staging_same | reflexivity].
  - inversion Hnd as [|? ? Hd HndD]; subst.
    assert (Hdd : Fs.isdir d (staging w) = true) by (apply Hdir; now left).
    unfold Fs.isdir in Hdd.
    destruct (Fs.lookup d (staging w)) as [[c|es]|] eqn:El; try discriminate Hdd.
    set (w1 := set_staging (Fs.remove d (staging w)) w).
    assert (Hother : forall d', In d' D -> is_prefix d d' = false).
    { intros d' Hd'. apply Hpre; [now left | now right | congruence]. }
    destruct (IH w1 HndD) as [t' [Hrun Hshape]].
    + intros d' Hd'. apply Hne. now right.
    + intros d' Hd'. rewrite isdir_shape. unfold w1. cbn [staging set_staging].
      rewrite (remove_other d d' _ (Hother d' Hd')). rewrite <- isdir_shape.
      apply Hdir. now right.
    + intros a b Ha Hb. apply Hpre; now right.
    + exists t'. split.
      * cbn [for_each]. unfold bind, on_staging at 1, rmtree at 1. rewrite El.
        exact Hrun.
      * intros q. rewrite Hshape. cbn [existsb]. unfold w1.
        cbn [staging set_staging].
        destruct (is_prefix d q) eqn:Eq; cbn [orb].
        -- destruct (existsb _ D); [reflexivity|].
           unfold shape. rewrite (remove_below d q _ (Hne d (or_introl eq_refl)) Eq).
           reflexivity.
        -- now rewrite (remove_other d q _ Eq).
Qed.

Lemma unlink_loop (F : list Fs.path) :
  forall w,
    NoDup F ->
    (forall f, In f F -> f <> []) ->
    (forall f f', In f F -> In f' F -> f <> f' -> is_prefix f f' = false) ->
    (forall f f', In f F -> In f' F -> is_prefix f (pyc_of f') = false) ->
    (forall f, In f F ->
               Fs.exists_ (pyc_of f) (staging w) = true ->
               Fs.isfile f (staging w) = true) ->
    exists t',
      for_each
        (fun py_file =>
           fun w' =>
             if Fs.exists_ (pyc_of py_file) (staging w')
             then on_staging (unlink py_file) w'
             else (Return tt, w'))
        F w
      = (Return tt, set_staging t' w) /\
      forall q, shape t' q
                = if existsb (fun f => is_prefix f q &&
                                       Fs.exists_ (pyc_of f) (staging w)) F
                  then None
                  else shape (staging w) q.
Proof.
  induction F as [|f F IH]; intros w Hnd Hne Hpre Hpyc Hfile.
  - exists (staging w). split; [now rewrite set_staging_same | reflexivity].
  - inversion Hnd as [|? ? Hf HndF]; subst.
    assert (Hother : forall f', In f' F -> is_prefix f f' = false).
    { intros f' Hf'. apply Hpre; [now left | now right | congruence]. }
    destruct (Fs.exists_ (pyc_of f) (staging w)) eqn:Ex.
    + assert (Hff : Fs.isfile f (staging w) = true)
        by (apply Hfile; [now left | exact Ex]).
      unfold Fs.isfile in Hff.
      destruct (Fs.lookup f (staging w)) as [[c|es]|] eqn:El; try discriminate Hff.
      set (w1 := set_staging (Fs.remove f (staging w)) w).
      assert (Hex : forall f', In f' (f :: F) ->
                Fs.exists_ (pyc_of f') (staging w1)
                = Fs.exists_ (pyc_of f') (staging w)).
      { intros f' Hf'. rewrite !exists_shape. unfold w1. cbn [staging set_staging].
        rewrite (remove_other f (pyc_of f') _); [reflexivity|].
        apply Hpyc; [now left | exact Hf']. }
      destruct (IH w1 HndF) as [t' [Hrun Hshape]].
      * intros f' Hf'. apply Hne. now right.
      * intros a b Ha Hb. apply Hpre; now right.
      * intros a b Ha Hb. apply Hpyc; now right.
      * intros f' Hf' Hx. rewrite (Hex f' (or_intror Hf')) in Hx.
        rewrite isfile_shape. unfold w1. cbn [staging set_staging].
        rewrite (remove_other f f' _ (Hother f' Hf')). rewrite <- isfile_shape.
        apply Hfile; [now right | exact Hx].
      * exists t'. split.
        -- cbn [for_each]. unfold bind. rewrite Ex.
           unfold on_staging at 1, unlink at 1. rewrite El. exact Hrun.
        -- intros q. rewrite Hshape. cbn [existsb]. rewrite Ex, andb_true_r.
           rewrite (existsb_ext_in _
                      (fun f' => is_prefix f' q &&
                                 Fs.exists_ (pyc_of f') (staging w)) F)
             by (intros f' Hf'; now rewrite (Hex f' (or_intror Hf'))).
           unfold w1. cbn [staging set_staging].
           destruct (is_prefix f q) eqn:Eq; cbn [orb].
           ++ destruct (existsb _ F); [reflexivity|].
              unfold shape.
              rewrite (remove_below f q _ (Hne f (or_introl eq_refl)) Eq).
              reflexivity.
           ++ now rewrite (remove_other f q _ Eq).
    + destruct (IH w HndF) as [t' [Hrun Hshape]].
      * intros f' Hf'. apply Hne. now right.
      * intros a b Ha Hb. apply Hpre; now right.
      * intros a b Ha Hb. apply Hpyc; now right.
      * intros f' Hf'. apply Hfile. now right.
      * exists t'. split.
        -- cbn [for_each]. unfold bind. rewrite Ex. exact Hrun.
        -- intros q. rewrite Hshape. cbn [existsb].
           rewrite Ex, andb_false_r. reflexivity.
Qed.

(** ** Pruning a tree without nested caches *)

Lemma removelast_snoc {A} (l : list A) (a : A) : removelast (l ++ [a]) = l.
Proof. rewrite removelast_app by discriminate. cbn. apply app_nil_r. Qed.

Lemma snoc_cases {A} (l : list A) (d : A) :
  l = [] \/ l = removelast l ++ [last l d].
Proof.
  destruct l as [|a l]; [now left|]. right.
  apply app_removelast_last. discriminate.
Qed.

Section Pruning.

Variable t : node.
Hypothesis t_well_formed : well_formed t.
Hypothesis t_flat : caches_flat t = true.

Let dirs : list Fs.path := collect_pycache_dirs (Fs.walk Fs.snoc [] t).
Let sources : list Fs.path := collect_py_files (Fs.walk Fs.snoc [] t).
Let under (q : Fs.path) : bool := existsb (fun d => is_prefix d q) dirs.

Lemma dirs_spec d :
  In d dirs <->
  exists q es, d = q ++ ["__pycache__"] /\ Fs.lookup d t = Some (Dir es).
Proof.
  unfold dirs. rewrite (collect_pycache_dirs_spec t [] d t_well_formed).
  cbn [app]. split; intros [q [es [E H]]]; exists q, es; subst d; now split.
Qed.

Lemma under_spec q :
  under q = true <->
  exists r s es,
    q = r ++ "__pycache__" :: s /\ Fs.lookup (r ++ ["__pycache__"]) t = Some (Dir es).
Proof.
  unfold under. rewrite existsb_exists. split.
  - intros [d [Hd Hq]]. apply dirs_spec in Hd. destruct Hd as [r [es [-> Hl]]].
    apply is_prefix_iff in Hq. destruct Hq as [s ->].
    exists r, s, es. split; [now rewrite <- app_assoc | exact Hl].
  - intros [r [s [es [-> Hl]]]]. exists (r ++ ["__pycache__"]). split.
    + apply dirs_spec. now exists r, es.
    + apply is_prefix_iff. exists s. now rewrite <- app_assoc.
Qed.

(** For a path whose last component is not a cache directory, being
    below a cache directory is a matter of its parent. *)
Lemma under_parent q :
  q <> [] ->
  (forall es, Fs.lookup q t = Some (Dir es) -> last q "" <> "__pycache__") ->
  (under q = true <->
   exists r s es,
     removelast q = r ++ "__pycache__" :: s /\
     Fs.lookup (r ++ ["__pycache__"]) t = Some (Dir es)).
Proof.
  intros Hq Hlast. rewrite under_spec. split.
  - intros [r [s [es [E Hl]]]]. destruct (snoc_cases s "") as [-> | Es].
    + exfalso. subst q. apply (Hlast es Hl). apply last_last.
    + exists r, (removelast s), es. split; [|exact Hl].
      rewrite E, Es. change (r ++ "__pycache__" :: removelast s ++ [last s ""])
        with (r ++ ("__pycache__" :: removelast s) ++ [last s ""]).
      rewrite app_assoc, removelast_snoc. now rewrite removelast_snoc.
  - intros [r [s [es [E Hl]]]]. exists r, (s ++ [last q ""]), es.
    split; [|exact Hl].
    destruct (snoc_cases q "") as [-> | Eq]; [congruence|].
    rewrite Eq at 1. rewrite E. now rewrite <- app_assoc.
Qed.

Lemma under_file q c :
  Fs.lookup q t = Some (File c) ->
  under q = PyStr.mem "__pycache__" (removelast q).
Proof.
  intros Hl. destruct q as [|a q'].
  { cbn. destruct (under []) eqn:E; [|reflexivity].
    apply under_spec in E. destruct E as [r [s [es [E _]]]]. now destruct r. }
  set (q := a :: q') in *.
  apply eq_true_iff_eq. rewrite under_parent; [|discriminate|congruence].
  unfold PyStr.mem. rewrite existsb_exists. split.
  - intros [r [s [es [E _]]]]. exists "__pycache__". split; [|apply String.eqb_refl].
    rewrite E. apply in_elt.
  - intros [x [Hin Hx]]. apply String.eqb_eq in Hx. subst x.
    apply in_split in Hin. destruct Hin as [r [s E]].
    destruct (snoc_cases q "") as [Eq | Eq]; [discriminate Eq|].
    rewrite E in Eq. rewrite Eq in Hl.
    replace ((r ++ "__pycache__" :: s) ++ [last q ""])
      with ((r ++ ["__pycache__"]) ++ (s ++ [last q ""])) in Hl
      by (now rewrite <- !app_assoc).
    destruct (lookup_prefix _ _ _ _ Hl) as [z [Hz Hd]].
    destruct Hd as [es ->]; [now destruct s|].
    now exists r, s, es.
Qed.

Lemma sources_spec f :
  In f sources <->
  f <> [] /\ PyStr.endswith (last f "") ".py" = true /\
  exists c, Fs.lookup f t = Some (File c).
Proof. apply collect_py_files_spec, t_well_formed. Qed.

Lemma removelast_pyc_of f : f <> [] -> removelast (pyc_of f) = removelast f.
Proof. intros _. unfold pyc_of. apply removelast_snoc. Qed.

Lemma under_pyc_of f :
  In f sources -> under (pyc_of f) = under f.
Proof.
  intros Hf. apply sources_spec in Hf. destruct Hf as [Hne [Hpy [c Hl]]].
  apply eq_true_iff_eq.
  rewrite (under_parent f Hne) by congruence.
  rewrite (under_parent (pyc_of f)).
  - now rewrite (removelast_pyc_of f Hne).
  - unfold pyc_of. now destruct (removelast f).
  - intros _ _. unfold pyc_of. rewrite last_last. apply pyc_name_not_cache.
Qed.

Lemma file_not_above f c q :
  Fs.lookup f t = Some (File c) -> is_prefix f q = true ->
  (exists y, Fs.lookup q t = Some y) -> q = f.
Proof.
  intros Hf Hq [y Hy]. apply is_prefix_iff in Hq. destruct Hq as [r ->].
  destruct (lookup_prefix f r t y Hy) as [z [Hz Hd]].
  destruct r as [|a r]; [apply app_nil_r|].
  destruct Hd as [es ->]; [discriminate | congruence].
Qed.

Lemma sources_apart f f' :
  In f sources -> In f' sources -> f <> f' -> is_prefix f f' = false.
Proof.
  intros Hf Hf' Hne. apply sources_spec in Hf, Hf'.
  destruct Hf as [_ [_ [c Hl]]]. destruct Hf' as [_ [_ [c' Hl']]].
  destruct (is_prefix f f') eqn:E; [|reflexivity].
  exfalso. apply Hne. symmetry. apply (file_not_above f c f' Hl E). now exists (File c').
Qed.

Lemma sources_not_above_pyc f f' :
  In f sources -> In f' sources -> is_prefix f (pyc_of f') = false.
Proof.
  intros Hf Hf'. apply sources_spec in Hf, Hf'.
  destruct Hf as [Hne [Hpy [c Hl]]]. destruct Hf' as [Hne' [Hpy' [c' Hl']]].
  destruct (is_prefix f (pyc_of f')) eqn:E; [|reflexivity]. exfalso.
  apply is_prefix_iff in E. destruct E as [r E].
  destruct (snoc_cases r "") as [-> | Er].
  - rewrite app_nil_r in E. rewrite <- E in Hpy. unfold pyc_of in Hpy.
    rewrite last_last, pyc_name_not_py in Hpy. discriminate Hpy.
  - assert (Ep : removelast f' = f ++ removelast r).
    { rewrite <- (removelast_pyc_of f' Hne'), E. apply removelast_app.
      intros ->. discriminate Er. }
    destruct (snoc_cases f' "") as [E' | E']; [congruence|].
    rewrite E', Ep, <- app_assoc in Hl'.
    destruct (lookup_prefix f _ t _ Hl') as [z [Hz Hd]].
    destruct Hd as [es ->]; [now destruct (removelast r) | congruence].
Qed.

Lemma dirs_apart d d' :
  In d dirs -> In d' dirs -> d <> d' -> is_prefix d d' = false.
Proof.
  intros Hd Hd' Hne. apply dirs_spec in Hd, Hd'.
  destruct Hd as [q [es [-> Hl]]]. destruct Hd' as [q' [es' [-> Hl']]].
  destruct (is_prefix _ _) eqn:E; [|reflexivity]. exfalso.
  apply is_prefix_iff in E. destruct E as [r E].
  destruct (snoc_cases r "") as [-> | Er].
  - rewrite app_nil_r in E. congruence.
  - assert (Elast : last r "" = "__pycache__").
    { apply (f_equal (fun l => last l "")) in E. rewrite Er, app_assoc in E.
      rewrite !last_last in E. congruence. }
    rewrite E, Er, Elast, <- app_assoc in Hl'. cbn [app] in Hl'.
    exact (caches_flat_lookup q t (removelast r) es' t_flat Hl').
Qed.

Lemma prune_runs (w : world) :
  staging w = t ->
  exists t',
    prune_python_files w = (Return tt, set_staging t' w) /\
    forall q,
      shape t' q
      = if existsb (fun f => is_prefix f q && negb (under f) &&
                             Fs.exists_ (pyc_of f) t) sources
        then None
        else if under q then None else shape t q.
Proof.
  intros Hw. unfold prune_python_files. rewrite Hw. fold dirs sources.
  destruct (rmtree_loop dirs w) as [t0 [Hrun0 Hshape0]].
  - apply collect_pycache_dirs_NoDup, t_well_formed.
  - intros d Hd. apply dirs_spec in Hd. destruct Hd as [q [es [-> _]]].
    now destruct q.
  - intros d Hd. apply dirs_spec in Hd. destruct Hd as [q [es [_ Hl]]].
    unfold Fs.isdir. now rewrite Hw, Hl.
  - exact dirs_apart.
  - rewrite Hw in Hshape0. fold (under) in Hshape0.
    assert (Hex : forall f, In f sources ->
              Fs.exists_ (pyc_of f) t0 = negb (under f) && Fs.exists_ (pyc_of f) t).
    { intros f Hf. rewrite !exists_shape, Hshape0.
      change (existsb (fun d => is_prefix d (pyc_of f)) dirs) with (under (pyc_of f)).
      rewrite (under_pyc_of f Hf). now destruct (under f). }
    destruct (unlink_loop sources (set_staging t0 w)) as [t' [Hrun Hshape]].
    + apply collect_py_files_NoDup, t_well_formed.
    + intros f Hf. apply sources_spec in Hf. tauto.
    + exact sources_apart.
    + exact sources_not_above_pyc.
    + cbn [staging set_staging]. intros f Hf Hx. rewrite (Hex f Hf) in Hx.
      apply andb_prop in Hx. destruct Hx as [Hu _].
      rewrite isfile_shape, Hshape0.
      change (existsb (fun d => is_prefix d f) dirs) with (under f).
      destruct (under f); [discriminate Hu|].
      apply sources_spec in Hf. destruct Hf as [_ [_ [c Hl]]].
      unfold shape. now rewrite Hl.
    + exists t'. split.
      * unfold bind. rewrite Hrun0. exact Hrun.
      * intros q. rewrite Hshape. cbn [staging set_staging].
        rewrite (existsb_ext_in _
                   (fun f => is_prefix f q && negb (under f) &&
                             Fs.exists_ (pyc_of f) t) sources)
          by (intros f Hf; rewrite (Hex f Hf); now rewrite andb_assoc).
        now rewrite Hshape0.
Qed.

Lemma prune_keeps (w : world) :
  staging w = t ->
  exists t',
    prune_python_files w = (Return tt, set_staging t' w) /\
    forall q c,
      Fs.lookup q t' = Some (File c) <->
      Fs.lookup q t = Some (File c) /\ pruned t q = false.
Proof.
  intros Hw. destruct (prune_runs w Hw) as [t' [Hrun Hshape]].
  exists t'. split; [exact Hrun|]. intros q c.
  rewrite <- !shape_file, Hshape. unfold pruned.
  destruct (Fs.lookup q t) as [[c'|es]|] eqn:El.
  - rewrite <- (under_file q c' El).
    assert (Es : shape t q = Some (Some c')) by (unfold shape; now rewrite El).
    rewrite Es.
    assert (Hx : existsb (fun f => is_prefix f q && negb (under f) &&
                                   Fs.exists_ (pyc_of f) t) sources
                 = negb (under q) &&
                   (PyStr.endswith (last q "") ".py" && Fs.exists_ (pyc_of q) t)).
    { apply eq_true_iff_eq. rewrite existsb_exists, !andb_true_iff. split.
      - intros [f [Hf H]]. apply andb_prop in H. destruct H as [H Hx].
        apply andb_prop in H. destruct H as [Hp Hu].
        pose proof Hf as Hf'. apply sources_spec in Hf'.
        destruct Hf' as [_ [Hpy [cf Hlf]]].
        assert (q = f) by (apply (file_not_above f cf q Hlf Hp); now exists (File c')).
        subst f. tauto.
      - intros [Hu [Hpy Hx]]. exists q. split.
        + apply sources_spec. repeat split; [|exact Hpy | now exists c'].
          intros ->. discriminate Hpy.
        + rewrite is_prefix_refl, Hu, Hx. reflexivity. }
    rewrite Hx. destruct (under q); cbn [negb andb orb].
    + split; [discriminate | intros [_ H]; discriminate H].
    + destruct (PyStr.endswith (last q "") ".py" && Fs.exists_ (pyc_of q) t)%bool.
      * split; [discriminate | intros [_ H]; discriminate H].
      * tauto.
  - assert (Es : shape t q = Some None) by (unfold shape; now rewrite El).
    rewrite Es. split; [|intros [H _]; discriminate H].
    destruct (existsb _ sources); [discriminate|].
    destruct (under q); discriminate.
  - assert (Es : shape t q = None) by (unfold shape; now rewrite El).
    rewrite Es. split; [|intros [H _]; discriminate H].
    destruct (existsb _ sources); [discriminate|].
    destruct (under q); discriminate.
Qed.

End Pruning.

(** X15.  On a well-formed staging tree in which no [__pycache__]
    directory lies below another, [prune_python_files] completes, and
    a file is there afterwards exactly when it was there before, is not
    below a [__pycache__] directory, and is not a [.py] file with an
    entry of the same name plus ["c"] beside it; the private cache and
    the host are not touched. *)
Theorem prune_python_files_keeps_exactly (w : world) :
  well_formed (staging w) -> caches_flat (staging w) = true ->
  exists t',
    prune_python_files w = (Return tt, set_staging t' w) /\
    forall q c,
      Fs.lookup q t' = Some (File c) <->
      Fs.lookup q (staging w) = Some (File c) /\ pruned (staging w) q = false.
Proof.
  intros Hwf Hflat. exact (prune_keeps (staging w) Hwf Hflat w eq_refl).
Qed.

Lemma compiled_tree_well_formed : well_formed compiled_tree.
Proof.
  simpl. repeat split; try reflexivity;
    repeat (constructor; [simpl; intuition discriminate|]); constructor.
Defined.

Lemma prune_python_files_keeps_exactly_witness :
  exists t',
    prune_python_files (staged compiled_tree)
    = (Return tt, set_staging t' (staged compiled_tree)) /\
    forall q c,
      Fs.lookup q t' = Some (File c) <->
      Fs.lookup q compiled_tree = Some (File c) /\ pruned compiled_tree q = false.
Proof.
  apply (prune_python_files_keeps_exactly (staged compiled_tree)).
  - exact compiled_tree_well_formed.
  - reflexivity.
Defined.

(** ** The whole run *)

Lemma in_filenames name c es :
  In (name, File c) es -> In name (Fs.filenames es).
Proof.
  intros H. unfold Fs.filenames. apply in_map_iff. exists (name, File c).
  split; [reflexivity|]. apply filter_In. now split.
Qed.

(** A file at the root of the tree is written under its bare name. *)
Lemma create_zip_bundle_root_file (path name : string) (tree : node) (c : content) :
  valid_name name = true ->
  Fs.lookup [name] tree = Some (File c) ->
  In (name, c) (create_zip_bundle path tree).
Proof.
  intros Hv Hl. destruct tree as [f|es]; [discriminate Hl|].
  unfold create_zip_bundle. rewrite walk_dir. cbn [flat_map].
  apply in_or_app. left. apply in_flat_map. exists name. split.
  - cbn [Fs.lookup] in Hl. destruct (Fs.find name es) as [x|] eqn:Ef; [|discriminate].
    inversion Hl; subst x. apply find_Some_In in Ef. exact (in_filenames _ _ _ Ef).
  - unfold join_both, Fs.snoc. cbn [fst snd app]. rewrite Hl.
    rewrite (join_valid path name Hv), drop_app.
    destruct (valid_name_inv name Hv) as [ch [s' [E [Hc _]]]]. subst name.
    unfold joint.
    destruct (String.eqb path "" || PyStr.endswith path "/")%bool; cbn [append];
      [|change (PyStr.lstrip_sep (String "/" (String ch s')))
          with (PyStr.lstrip_sep (String ch s'))];
      rewrite (lstrip_sep_other ch s' Hc); now left.
Qed.

(** X18.  A run of [package] that completes resolved the dependencies
    of the project, and left at the destination a zip archive that has
    an entry [index.py] holding the entry text. *)
Theorem package_delivers_the_shim
    (e : env) (depth : nat) (temp_path project entry destination : string)
    (w w' : world) :
  package e depth temp_path project entry destination w = (Return tt, w') ->
  exists dependencies entries,
    find_dependencies e depth project = Return dependencies /\
    Fs.lookup (Fs.components destination) (host w')
    = Some (File (Archive ZipFormat entries)) /\
    In ("index.py", Raw entry) entries.
Proof.
  unfold package. intros H.
  destruct (find_dependencies e depth project) as [dependencies|x]; [|discriminate H].
  apply bind_returns in H. destruct H as [u [w1 [Hp Ho]]].
  exists dependencies, (create_zip_bundle temp_path (staging w1)).
  split; [reflexivity|]. split.
  - unfold output_archive, output_zip_bundle in Ho.
    destruct (PyStr.startswith destination "s3://"); [discriminate Ho|].
    destruct (open_w _ _ (host w1)) as [h|x] eqn:E; inversion Ho; subst w'.
    cbn [host set_host]. exact (open_w_returns _ _ _ _ E).
  - apply create_zip_bundle_root_file; [reflexivity|].
    unfold populate_directory in Hp.
    apply bind_returns in Hp. destruct Hp as [u1 [wa [_ Hp]]].
    apply bind_returns in Hp. destruct Hp as [u2 [wb [_ Hp]]].
    apply bind_returns in Hp. destruct Hp as [u3 [wc [_ Hp]]].
    apply bind_returns in Hp. destruct Hp as [u4 [wd [_ Hp]]].
    destruct u. exact (insert_shim_returns _ _ _ Hp).
Qed.

Lemma package_delivers_the_shim_witness :
  let w := fresh_world out_host in
  let w' := snd (package app_env 5 "/tmp/staging" "app" "import app" "/out/app.zip" w) in
  exists dependencies entries,
    find_dependencies app_env 5 "app" = Return dependencies /\
    Fs.lookup (Fs.components "/out/app.zip") (host w')
    = Some (File (Archive ZipFormat entries)) /\
    In ("index.py", Raw "import app") entries.
Proof.
  apply (package_delivers_the_shim app_env 5 "/tmp/staging" "app" "import app"
           "/out/app.zip" (fresh_world out_host)).
  vm_compute. reflexivity.
Defined.

(** ** The wheel caches *)

Lemma assoc_dict_set_same {A} (k : string) (v : A) d :
  assoc k (dict_set k v d) = Some v.
Proof.
  induction d as [|[k' v'] d IH]; cbn [dict_set assoc].
  - now rewrite String.eqb_refl.
  - destruct (String.eqb k' k) eqn:E; cbn [assoc].
    + now rewrite String.eqb_refl.
    + now rewrite E.
Qed.

Lemma assoc_dict_set_other {A} (k k' : string) (v : A) d :
  k <> k' -> assoc k' (dict_set k v d) = assoc k' d.
Proof.
  intros Hne. induction d as [|[k0 v0] d IH]; cbn [dict_set assoc].
  - apply String.eqb_neq in Hne. now rewrite Hne.
  - destruct (String.eqb k0 k) eqn:E; cbn [assoc].
    + apply String.eqb_eq in E. subst k0.
      apply String.eqb_neq in Hne. now rewrite Hne.
    + destruct (String.eqb k0 k'); [reflexivity | exact IH].
Qed.

Lemma find_app {A} (f : A -> bool) (l1 l2 : list A) :
  List.find f (l1 ++ l2)
  = match List.find f l1 with Some x => Some x | None => List.find f l2 end.
Proof.
  induction l1 as [|a l1 IH]; [reflexivity|].
  cbn [app List.find]. now destruct (f a).
Qed.

(** The dict the loop builds from a list of paths: under a name, the
    last path with this name. *)
Lemma assoc_fold_dict_set (l : list Fs.path) :
  forall acc k,
    assoc k (fold_left (fun acc p => dict_set (last p "") p acc) l acc)
    = match List.find (fun p => String.eqb (last p "") k) (rev l) with
      | Some p => Some p
      | None => assoc k acc
      end.
Proof.
  induction l as [|a l IH]; intros acc k; [reflexivity|].
  cbn [fold_left rev]. rewrite IH, find_app. cbn [List.find].
  destruct (List.find (fun p => String.eqb (last p "") k) (rev l)); [reflexivity|].
  destruct (String.eqb (last a "") k) eqn:E.
  - apply String.eqb_eq in E. subst k. apply assoc_dict_set_same.
  - apply String.eqb_neq in E. now apply assoc_dict_set_other.
Qed.

Lemma load_cached_wheels_fold (triples : list (Fs.path * list string * list string)) :
  forall acc : list (string * Fs.path),
    fold_left
      (fun acc (triple : Fs.path * list string * list string) =>
         let '(root, _, files) := triple in
         fold_left
           (fun acc file =>
              if PyStr.endswith file ".whl"
              then dict_set file (Fs.snoc root file) acc
              else acc)
           files acc)
      triples acc
    = fold_left (fun acc p => dict_set (last p "") p acc)
        (flat_map
           (fun triple : Fs.path * list string * list string =>
              let '(root, _, files) := triple in
              map (Fs.snoc root)
                  (filter (fun file => PyStr.endswith file ".whl") files))
           triples)
        acc.
Proof.
  induction triples as [|[[root dirs] files] triples IH]; intros acc; [reflexivity|].
  cbn [fold_left flat_map]. rewrite fold_left_app, IH. f_equal.
  clear IH. revert acc. induction files as [|file files IHf]; intros acc; [reflexivity|].
  cbn [fold_left filter]. destruct (PyStr.endswith file ".whl"); [|apply IHf].
  cbn [map fold_left]. unfold Fs.snoc in *. rewrite last_last. apply IHf.
Qed.

Lemma load_cached_wheels_paths (t : node) :
  load_cached_wheels t
  = fold_left (fun acc p => dict_set (last p "") p acc)
      (map fst (filter (fun pc => PyStr.endswith (last (fst pc) "") ".whl")
                       (files_below [] t)))
      [].
Proof.
  rewrite <- (walk_files_files_below (fun file => PyStr.endswith file ".whl") t []).
  apply load_cached_wheels_fold.
Qed.

Lemma load_cached_wheels_spec (t : node) (name : string) :
  well_formed t ->
  match assoc name (load_cached_wheels t) with
  | Some p =>
      PyStr.endswith name ".whl" = true /\ p <> [] /\ last p "" = name /\
      exists c, Fs.lookup p t = Some (File c)
  | None =>
      PyStr.endswith name ".whl" = false \/
      forall p c, p <> [] -> Fs.lookup p t = Some (File c) -> last p "" <> name
  end.
Proof.
  intros Hwf. rewrite load_cached_wheels_paths, assoc_fold_dict_set. cbn [assoc].
  destruct (List.find _ (rev _)) as [p|] eqn:Ef.
  - apply find_some in Ef. destruct Ef as [Hin Hn].
    apply String.eqb_eq in Hn. apply in_rev, in_map_iff in Hin.
    destruct Hin as [[p' c] [E Hin]]. cbn [fst] in E. subst p'.
    apply filter_In in Hin. destruct Hin as [Hin Hw]. cbn [fst] in Hw.
    apply (files_below_spec t [] p c Hwf) in Hin.
    destruct Hin as [q [Hq [E Hl]]]. cbn [app] in E. subst q.
    rewrite Hn in Hw. repeat split; [exact Hw | exact Hq | exact Hn | now exists c].
  - destruct (PyStr.endswith name ".whl") eqn:Ew; [right | now left].
    intros p c Hp Hl Hn.
    pose proof (find_none _ _ Ef p) as H. cbn beta in H.
    rewrite Hn, String.eqb_refl in H.
    assert (true = false); [|discriminate]. apply H.
    apply -> in_rev. apply in_map_iff. exists (p, c). split; [reflexivity|].
    apply filter_In. split.
    + apply (files_below_spec t [] p c Hwf). now exists p.
    + cbn [fst]. now rewrite Hn.
Qed.

(** X5.  [load_cached_wheels] over a well-formed cache tree: a name
    is a key of the dict exactly when it ends in [".whl"] and a regular
    file of this name is somewhere below the root, and the path kept
    under the name is the path of such a file. *)
Theorem load_cached_wheels_finds_by_name (t : node) (name : string) :
  well_formed t ->
  match assoc name (load_cached_wheels t) with
  | Some p =>
      PyStr.endswith name ".whl" = true /\ p <> [] /\ last p "" = name /\
      exists c, Fs.lookup p t = Some (File c)
  | None =>
      PyStr.endswith name ".whl" = false \/
      forall p c, p <> [] -> Fs.lookup p t = Some (File c) -> last p "" <> name
  end.
Proof. apply load_cached_wheels_spec. Qed.

Lemma two_wheels_tree_well_formed : well_formed two_wheels_tree.
Proof.
  simpl. repeat split; try reflexivity;
    repeat (constructor; [simpl; intuition discriminate|]); constructor.
Defined.

Lemma load_cached_wheels_finds_by_name_witness :
  match assoc "foo-1.0-cp36m-manylinux1_x86_64.whl" (load_cached_wheels two_wheels_tree) with
  | Some p =>
      PyStr.endswith "foo-1.0-cp36m-manylinux1_x86_64.whl" ".whl" = true /\
      p <> [] /\ last p "" = "foo-1.0-cp36m-manylinux1_x86_64.whl" /\
      exists c, Fs.lookup p two_wheels_tree = Some (File c)
  | None =>
      PyStr.endswith "foo-1.0-cp36m-manylinux1_x86_64.whl" ".whl" = false \/
      forall p c, p <> [] -> Fs.lookup p two_wheels_tree = Some (File c) ->
                  last p "" <> "foo-1.0-cp36m-manylinux1_x86_64.whl"
  end.
Proof.
  exact (load_cached_wheels_finds_by_name two_wheels_tree
           "foo-1.0-cp36m-manylinux1_x86_64.whl" two_wheels_tree_well_formed).
Defined.

Lemma wheel_name_whl (d : Distribution) :
  PyStr.endswith (wheel_name_of d) ".whl" = true.
Proof.
  unfold wheel_name_of.
  change (_get_wheel_suffix RUNTIME) with ("cp36m-manylinux1_x86_64" ++ ".whl")%string.
  rewrite <- !string_app_assoc. apply endswith_app_r.
Qed.

Lemma from_cache_not_found (cache : option node) (d : Distribution) (w w' : world) :
  (forall es, cache = Some (Dir es) -> well_formed (Dir es)) ->
  (_install_manylinux_version_from_cache cache d w = (Return false, w') <->
   w' = w /\ ~ cached_wheel cache (wheel_name_of d)).
Proof.
  intros Hwf. unfold _install_manylinux_version_from_cache.
  destruct cache as [[c|es]|].
  - split.
    + intros H. inversion H. split; [reflexivity|].
      intros [es [p [c' [E _]]]]. discriminate E.
    + intros [-> _]. reflexivity.
  - pose proof (load_cached_wheels_spec (Dir es) (wheel_name_of d)
                  (Hwf es eq_refl)) as Hspec.
    destruct (assoc (wheel_name_of d) (load_cached_wheels (Dir es))) as [p|].
    + destruct Hspec as [_ [Hp [Hn [c Hl]]]]. split.
      * intros H. apply bind_returns in H. destruct H as [ms [w1 [_ H]]].
        apply bind_returns in H. destruct H as [u [w2 [_ H]]]. discriminate H.
      * intros [_ H]. exfalso. apply H. now exists es, p, c.
    + split.
      * intros H. inversion H. split; [reflexivity|].
        intros [es' [p [c [E [Hp [Hn Hl]]]]]]. inversion E; subst es'.
        destruct Hspec as [Hw | Hnone].
        -- rewrite wheel_name_whl in Hw. discriminate Hw.
        -- exact (Hnone p c Hp Hl Hn).
      * intros [-> _]. reflexivity.
  - split.
    + intros H. inversion H. split; [reflexivity|].
      intros [es [p [c' [E _]]]]. discriminate E.
    + intros [-> _]. reflexivity.
Qed.

(** X4.  Strategy 2 reports "not found" exactly when neither pip's
    cache nor the private cache is a directory holding, at any depth,
    a regular file with the wheel name of the dependency; nothing is
    touched then. *)
Theorem install_manylinux_version_not_found
    (e : env) (d : Distribution) (w w' : world) :
  (forall es, wheel_cache e = Some (Dir es) -> well_formed (Dir es)) ->
  (forall es, fake_cache w = Some (Dir es) -> well_formed (Dir es)) ->
  (install_manylinux_version e d w = (Return false, w') <->
   w' = w /\
   ~ cached_wheel (wheel_cache e) (wheel_name_of d) /\
   ~ cached_wheel (fake_cache w) (wheel_name_of d)).
Proof.
  intros Hpip Hfake. unfold install_manylinux_version, bind.
  destruct (_install_manylinux_version_from_cache (wheel_cache e) d w)
    as [[[|]|x] w1] eqn:E1; cbn [negb].
  - split; [discriminate|]. intros [_ [H _]].
    assert (H1 : _install_manylinux_version_from_cache (wheel_cache e) d w
                 = (Return false, w))
      by (apply (from_cache_not_found _ d w w Hpip); now split).
    rewrite H1 in E1. discriminate E1.
  - apply (from_cache_not_found _ d w w1 Hpip) in E1. destruct E1 as [-> Hn1].
    rewrite (from_cache_not_found _ d w w' Hfake). tauto.
  - split; [discriminate|]. intros [_ [H _]].
    assert (H1 : _install_manylinux_version_from_cache (wheel_cache e) d w
                 = (Return false, w))
      by (apply (from_cache_not_found _ d w w Hpip); now split).
    rewrite H1 in E1. discriminate E1.
Qed.

Lemma install_manylinux_version_not_found_witness :
  let e := bare_env [six] in
  let w := set_fake_cache (Some two_wheels_tree) (fresh_world six_host) in
  install_manylinux_version e six w = (Return false, w) <->
  w = w /\
  ~ cached_wheel (wheel_cache e) (wheel_name_of six) /\
  ~ cached_wheel (fake_cache w) (wheel_name_of six).
Proof.
  apply (install_manylinux_version_not_found (bare_env [six]) six
           (set_fake_cache (Some two_wheels_tree) (fresh_world six_host))).
  - intros es H. discriminate H.
  - intros es H. simpl in H. inversion H; subst es.
    exact two_wheels_tree_well_formed.
Defined.

(** ** The download and the private cache *)

Lemma split_on_no_slash (s : string) :
  no_slash s = true -> PyStr.split_on PyStr.is_slash s = [s].
Proof.
  induction s as [|ch s IH]; intros H; [reflexivity|].
  cbn [no_slash] in H. apply andb_prop in H. destruct H as [Hc Hs].
  cbn [PyStr.split_on]. destruct (PyStr.is_slash ch); [discriminate Hc|].
  now rewrite (IH Hs).
Qed.

Lemma components_single (s : string) :
  valid_name s = true -> s <> "." -> Fs.components s = [s].
Proof.
  unfold valid_name. intros H Hdot. apply andb_prop in H. destruct H as [He Hs].
  unfold Fs.components. rewrite (split_on_no_slash s Hs). cbn [filter].
  apply String.eqb_neq in Hdot. rewrite Hdot.
  destruct (String.eqb s ""); [discriminate He | reflexivity].
Qed.

Lemma wheel_name_not_dot (d : Distribution) : wheel_name_of d <> ".".
Proof.
  intros E. apply (f_equal String.length) in E. unfold wheel_name_of in E.
  rewrite !string_length_app in E. cbn in E. lia.
Qed.

(** Strategy 2 on a cache that holds the wheel, and nothing else: the
    file is opened as a zip archive and extracted. *)
Lemma from_cache_single (d : Distribution) (body : content) (w : world) :
  _install_manylinux_version_from_cache
    (Some (Dir [(wheel_name_of d, File body)])) d w
  = (ms <- lift (open_archive ZipFormat [wheel_name_of d] (Some (File body))) ;;
     extractall ms [] ;;;
     ret true) w.
Proof.
  unfold _install_manylinux_version_from_cache, load_cached_wheels.
  pose proof (wheel_name_whl d) as Hw.
  generalize dependent (wheel_name_of d). intros name Hw.
  cbn [Fs.walk Fs.dirnames Fs.filenames filter map fst snd Fs.is_dir_node negb
       app fold_left].
  rewrite Hw. cbn [dict_set assoc Fs.snoc app]. rewrite String.eqb_refl.
  cbn [Fs.lookup Fs.find]. rewrite String.eqb_refl. reflexivity.
Qed.

Section Download.

Variable e : env.
Variable d : Distribution.
Variable w : world.
Variable releases : list (string * list string).
Variable infos : list string.
Variable url : string.

Hypothesis no_cache_yet : fake_cache w = None.
Hypothesis name_valid : valid_name (wheel_name_of d) = true.
Hypothesis registry_answers : pypi_json e (key d) = HttpOk releases.
Hypothesis version_listed : assoc (version d) releases = Some infos.
Hypothesis wheel_listed :
  List.find (fun url => PyStr.endswith url (_get_wheel_suffix RUNTIME)) infos
  = Some url.

Lemma download_reaches_the_file :
  download_and_install_manylinux_version e d w
  = match pypi_file e url with
    | HttpError status =>
        (Throw (HTTPError status),
         set_fake_cache (Some (Dir [(wheel_name_of d, File (Raw ""))])) w)
    | HttpOk body =>
        (ms <- lift (open_archive ZipFormat [wheel_name_of d] (Some (File body))) ;;
         extractall ms [] ;;;
         ret true)
          (set_fake_cache (Some (Dir [(wheel_name_of d, File body)])) w)
    end.
Proof.
  unfold download_and_install_manylinux_version. unfold bind at 1.
  rewrite no_cache_yet, registry_answers, version_listed. cbv zeta.
  rewrite wheel_listed.
  pose proof (components_single _ name_valid (wheel_name_not_dot d)) as Hc.
  generalize dependent (wheel_name_of d). intros name _ Hc.
  unfold bind at 1, write_cache at 1. cbn [fake_cache set_fake_cache].
  rewrite Hc. unfold open_w. cbn [removelast Fs.lookup Fs.find Fs.graft Fs.put].
  destruct (pypi_file e url) as [status|body]; [reflexivity|].
  unfold bind at 1, write_cache at 1. cbn [fake_cache set_fake_cache].
  rewrite Hc. unfold open_w. cbn [removelast Fs.lookup Fs.find Fs.graft Fs.put].
  rewrite String.eqb_refl.
  unfold bind at 1. cbn [fake_cache set_fake_cache staging host].
  rewrite ?Hc. cbn [Fs.lookup Fs.find]. rewrite String.eqb_refl.
  unfold bind at 3, lift.
  destruct (open_archive ZipFormat [name] (Some (File body))); reflexivity.
Qed.

End Download.

Lemma private_cache_is_consulted (e2 : env) (d : Distribution) (w2 : world) :
  (forall es, wheel_cache e2 = Some (Dir es) -> well_formed (Dir es)) ->
  ~ cached_wheel (wheel_cache e2) (wheel_name_of d) ->
  install_manylinux_version e2 d w2
  = _install_manylinux_version_from_cache (fake_cache w2) d w2.
Proof.
  intros Hwf Hmiss. unfold install_manylinux_version, bind.
  assert (H : _install_manylinux_version_from_cache (wheel_cache e2) d w2
              = (Return false, w2))
    by (apply (from_cache_not_found _ d w2 w2 Hwf); now split).
  now rewrite H.
Qed.

(** X6.  The wheel file is opened for writing before the file is
    requested: on a first download (no private cache yet) whose file
    request is answered with an error status, the download raises the
    HTTP error and leaves an empty file under the wheel name in the
    private cache; strategy 2 of every later run that does not find the
    wheel in pip's cache then opens this file and raises BadZipFile. *)
Theorem download_failure_leaves_an_empty_wheel
    (e : env) (d : Distribution) (w : world)
    (releases : list (string * list string)) (infos : list string)
    (url : string) (status : nat) :
  fake_cache w = None ->
  valid_name (wheel_name_of d) = true ->
  pypi_json e (key d) = HttpOk releases ->
  assoc (version d) releases = Some infos ->
  List.find (fun url => PyStr.endswith url (_get_wheel_suffix RUNTIME)) infos
  = Some url ->
  pypi_file e url = HttpError status ->
  let w' := set_fake_cache (Some (Dir [(wheel_name_of d, File (Raw ""))])) w in
  download_and_install_manylinux_version e d w = (Throw (HTTPError status), w') /\
  forall e2 w2,
    (forall es, wheel_cache e2 = Some (Dir es) -> well_formed (Dir es)) ->
    ~ cached_wheel (wheel_cache e2) (wheel_name_of d) ->
    fake_cache w2 = fake_cache w' ->
    install_manylinux_version e2 d w2 = (Throw BadZipFile, w2).
Proof.
  intros Hc Hv Hj Hr Hu Hf w'. split.
  - rewrite (download_reaches_the_file e d w releases infos url Hc Hv Hj Hr Hu).
    now rewrite Hf.
  - intros e2 w2 Hwf Hmiss Hw2.
    rewrite (private_cache_is_consulted e2 d w2 Hwf Hmiss), Hw2.
    unfold w'. cbn [fake_cache set_fake_cache].
    now rewrite from_cache_single.
Qed.

Lemma download_failure_leaves_an_empty_wheel_witness :
  let e := serving_env (HttpError 503) in
  let w := fresh_world (Dir []) in
  let w' := set_fake_cache (Some (Dir [(wheel_name_of foo, File (Raw ""))])) w in
  download_and_install_manylinux_version e foo w = (Throw (HTTPError 503), w') /\
  forall e2 w2,
    (forall es, wheel_cache e2 = Some (Dir es) -> well_formed (Dir es)) ->
    ~ cached_wheel (wheel_cache e2) (wheel_name_of foo) ->
    fake_cache w2 = fake_cache w' ->
    install_manylinux_version e2 foo w2 = (Throw BadZipFile, w2).
Proof.
  apply (download_failure_leaves_an_empty_wheel
           (serving_env (HttpError 503)) foo (fresh_world (Dir []))
           [("1.0", ["https://files.example/foo-1.0.tar.gz"; foo_url])]
           ["https://files.example/foo-1.0.tar.gz"; foo_url] foo_url 503);
    reflexivity.
Defined.

(** X7.  What the download stores, strategy 2 finds: a first download
    (no private cache yet) whose file request is answered with a zip
    archive stores the archive under the wheel name in the private
    cache and extracts its members into the staging tree; strategy 2 of
    a later run that does not find the wheel in pip's cache extracts the
    same members from the private cache. *)
Theorem download_feeds_the_private_cache
    (e : env) (d : Distribution) (w : world)
    (releases : list (string * list string)) (infos : list string)
    (url : string) (ms : list (string * content)) :
  fake_cache w = None ->
  valid_name (wheel_name_of d) = true ->
  pypi_json e (key d) = HttpOk releases ->
  assoc (version d) releases = Some infos ->
  List.find (fun url => PyStr.endswith url (_get_wheel_suffix RUNTIME)) infos
  = Some url ->
  pypi_file e url = HttpOk (Archive ZipFormat ms) ->
  let w1 :=
    set_fake_cache (Some (Dir [(wheel_name_of d, File (Archive ZipFormat ms))])) w in
  download_and_install_manylinux_version e d w
  = (extractall ms [] ;;; ret true) w1 /\
  forall e2 w2,
    (forall es, wheel_cache e2 = Some (Dir es) -> well_formed (Dir es)) ->
    ~ cached_wheel (wheel_cache e2) (wheel_name_of d) ->
    fake_cache w2 = fake_cache w1 ->
    install_manylinux_version e2 d w2 = (extractall ms [] ;;; ret true) w2.
Proof.
  intros Hc Hv Hj Hr Hu Hf w1. split.
  - rewrite (download_reaches_the_file e d w releases infos url Hc Hv Hj Hr Hu).
    now rewrite Hf.
  - intros e2 w2 Hwf Hmiss Hw2.
    rewrite (private_cache_is_consulted e2 d w2 Hwf Hmiss), Hw2.
    unfold w1. cbn [fake_cache set_fake_cache].
    now rewrite from_cache_single.
Qed.

Lemma download_feeds_the_private_cache_witness :
  let e := serving_env (HttpOk foo_wheel) in
  let w := fresh_world (Dir []) in
  let ms := [ ("foo/__init__.py", Raw "x = 1");
              ("foo/__pycache__/__init__.cpython-36.pyc", Raw "bytecode");
              (".git/config", Raw "[core]") ] in
  let w1 :=
    set_fake_cache (Some (Dir [(wheel_name_of foo, File (Archive ZipFormat ms))])) w in
  download_and_install_manylinux_version e foo w
  = (extractall ms [] ;;; ret true) w1 /\
  forall e2 w2,
    (forall es, wheel_cache e2 = Some (Dir es) -> well_formed (Dir es)) ->
    ~ cached_wheel (wheel_cache e2) (wheel_name_of foo) ->
    fake_cache w2 = fake_cache w1 ->
    install_manylinux_version e2 foo w2 = (extractall ms [] ;;; ret true) w2.
Proof.
  apply (download_feeds_the_private_cache
           (serving_env (HttpOk foo_wheel)) foo (fresh_world (Dir []))
           [("1.0", ["https://files.example/foo-1.0.tar.gz"; foo_url])]
           ["https://files.example/foo-1.0.tar.gz"; foo_url] foo_url);
    reflexivity.
Defined.

(** ** The strategy chain, further *)

(** X2.  Whatever the index, the caches, the registry and the host
    hold, [install_dependencies] does not end with "Unable to find
    suitable source": the [raise] that closes the chain cannot be
    reached. *)
Theorem the_chain_never_reports_no_suitable_source
    (e : env) (package : string) (dependencies : list Distribution) (w : world) :
  match install_dependencies e package dependencies w with
  | (Throw (Exception (NoSuitableSource _ _)), _) => False
  | _ => True
  end.
Proof.
  destruct (install_dependencies e package dependencies w) as [[u|x] w'] eqn:E;
    [exact I|].
  pose proof (install_dependencies_never_no_suitable_source e package dependencies
                w x w' E) as H.
  destruct x as [[name ver|d|d|d]| | | | | | | |]; try exact I.
  exact (H name ver eq_refl).
Qed.

(** X3.  Strategies 1 and 4 never report success and never change
    the state: each of them reports "not found" or raises, in the state
    it was called in. *)
Theorem precompiled_strategies_never_succeed
    (e : env) (dependency : Distribution) (w : world) :
  (exists r, install_matching_precompiled_version e dependency w = (r, w) /\
             r <> Return true) /\
  (exists r, install_any_precompiled_version e dependency w = (r, w) /\
             r <> Return true).
Proof.
  assert (G : forall check_version,
            exists r, _install_precompiled_version e dependency check_version w = (r, w) /\
                      r <> Return true).
  { intros check_version. unfold _install_precompiled_version.
    destruct (assoc (key dependency) (lambda_packages e)) as [runtimes|];
      [|exists (Return false); split; [reflexivity | discriminate]].
    destruct (assoc RUNTIME runtimes) as [package|];
      [|eexists; split; [reflexivity | discriminate]].
    destruct (check_version && _)%bool;
      [exists (Return false); split; [reflexivity | discriminate]|].
    destruct (open_archive _ _ _); eexists; split; try reflexivity; discriminate. }
  split; apply G.
Qed.

(** X8.  Strategy 5 has no "not found" outcome: when
    [install_local_package] returns, it returns [True]. *)
Theorem install_local_package_returns_true_or_raises
    (dependency : Distribution) (w : world) :
  match fst (install_local_package dependency w) with
  | Return rv => rv = true
  | Throw _ => True
  end.
Proof.
  destruct (install_local_package dependency w) as [[[|]|x] w'] eqn:E;
    cbn [fst]; try exact I; [reflexivity|].
  now apply install_local_package_never_false in E.
Qed.

(** X9.  A distribution located in a directory that holds
    [egg_name + ".egg"] as a regular file cannot be installed: the
    bundle branch opens the location itself, a directory, as a zip
    file, and the run ends with the error of that, nothing staged. *)
Theorem bundle_inside_a_directory_is_not_opened
    (dependency : Distribution) (w : world) :
  Fs.isdir (Fs.components (location dependency)) (host w) = true ->
  Fs.isfile
    (Fs.components
       (OsPath.join (location dependency) (egg_name dependency ++ ".egg")))
    (host w) = true ->
  install_local_package dependency w
  = (Throw (OSError EISDIR (Fs.components (location dependency))), w).
Proof.
  intros Hd Hf. unfold install_local_package.
  assert (Hnf : Fs.isfile (Fs.components (location dependency)) (host w) = false).
  { unfold Fs.isdir in Hd. unfold Fs.isfile.
    now destruct (Fs.lookup _ (host w)) as [[c|es]|]. }
  rewrite Hnf, Hd, Hf. unfold install_local_package_from_egg, bind.
  unfold Fs.isdir in Hd.
  now destruct (Fs.lookup _ (host w)) as [[c|es]|].
Qed.

Lemma bundle_inside_a_directory_is_not_opened_witness :
  install_local_package pkg_in_directory (fresh_world pkg_host)
  = (Throw (OSError EISDIR (Fs.components (location pkg_in_directory))),
     fresh_world pkg_host).
Proof.
  apply (bundle_inside_a_directory_is_not_opened pkg_in_directory
           (fresh_world pkg_host)); reflexivity.
Defined.

(** X12.  The names the legacy-bundle loop extracts for a folder are
    the candidates (the member names below the folder) that match no
    pattern of [IGNORED] and that are not a [.py] name with the same
    name plus ["c"] among the candidates. *)
Theorem egg_loop_extracts_exactly
    (maybe_names_to_copy : list string) (name : string) :
  In name (egg_names_to_copy maybe_names_to_copy) <->
  In name maybe_names_to_copy /\
  existsb (PyStr.fnmatch name) IGNORED = false /\
  (PyStr.endswith name ".py" = false \/
   PyStr.mem (name ++ "c") maybe_names_to_copy = false).
Proof. apply egg_names_to_copy_spec. Qed.

(** ** Nothing but the output step writes to the host *)





















(** ** The directory branch of the local strategy *)






(** ** What a run writes on the host *)


